(** * Slippage estimation and protection engine

    A shallow embedding of the slippage module of the StellarSwipe back end
    ([slippage-calculator.service.ts], [slippage-protection.service.ts],
    [trading.service.example.ts], [dto/slippage-config.dto.ts]) and the
    properties of its specification.

    Conventions of the embedding.
    - A JavaScript [number] is an exact rational ([Q]): rounding is not
      modelled.  A division whose divisor can be zero is written [div]; at a
      zero divisor JavaScript goes on with [Infinity] or [NaN], which no
      rational stands for, and the embedding then answers [NotFinite].
      The running statistics of [updateHistoricalSlippage], whose average
      depends on rounding, are embedded a second time over IEEE 754
      binary64 ([Double]).
    - [Math.min], [Math.max], [Math.abs] and [Math.ceil] are [Qmin], [Qmax],
      [Qabs] and [Qceiling].
    - A [Date] is its time value in milliseconds ([Z]); [new Date()] is an
      explicit argument [now], and the local calendar of the host, by which
      [setDate] moves a date, an explicit argument [calendar].
    - An [async] method is the sequence of its steps: every [await] is
      taken in program order and calls do not interleave.
    - The answers of the market data provider ([getCurrentMarketPrice],
      [getMarketDepth]) are arguments of the operations that await them.
    - Log output is not modelled; the texts built for [reason] and
      [reasoning] fields are kept as structured values.
    - The report log is a JavaScript array held by reference: arrays of
      reports live in an explicit heap.  A [Map] of symbol overrides is
      held by value: a Map object that a caller shares between users is
      not modelled. *)

From Stdlib Require Import QArith Qminmax Qround Qabs Lqa Lia Sorted.
From Stdlib Require SpecFloat.
From stdpp Require Import base option list gmap strings.

Local Open Scope Q_scope.

(** ** JavaScript numbers and outcomes *)

Module Js.

Definition less (a b : Q) : bool := negb (Qle_bool b a).
Definition lessEq (a b : Q) : bool := Qle_bool a b.
Definition greater (a b : Q) : bool := less b a.

(** Truthiness of a number, of a string and of optional values. *)
Definition truthy (x : Q) : bool := negb (Qeq_bool x 0).
Definition truthyNum (x : option Q) : bool :=
  match x with Some v => truthy v | None => false end.
Definition truthyStr (x : option string) : bool :=
  match x with Some v => negb (String.eqb v EmptyString) | None => false end.
Definition truthyBool (x : option bool) : bool :=
  match x with Some b => b | None => false end.

(** [x || d] on an optional number. *)
Definition orElse (x : option Q) (d : Q) : Q :=
  match x with
  | Some v => if truthy v then v else d
  | None => d
  end.

Inductive Exception : Type :=
| BadRequestException (message : string).

(** How a call ends. *)
Inductive Outcome (A : Type) : Type :=
| Returns (a : A)
| Throws (e : Exception)
| NotFinite.
Arguments Returns {A} a.
Arguments Throws {A} e.
Arguments NotFinite {A}.

Definition bind {A B} (m : Outcome A) (k : A -> Outcome B) : Outcome B :=
  match m with
  | Returns a => k a
  | Throws e => Throws e
  | NotFinite => NotFinite
  end.

Definition div (a b : Q) : Outcome Q :=
  if Qeq_bool b 0 then NotFinite else Returns (a / b).

(** The integer a number argument stands for: truncation towards zero. *)
Definition toInteger (x : Q) : Z := if Qle_bool 0 x then Qfloor x else Qceiling x.

(** [arr.slice(0, n)]: a negative [n] counts from the end. *)
Definition slice0 {A} (n : Z) (l : list A) : list A :=
  if (0 <=? n)%Z then take (Z.to_nat n) l
  else take (length l - Z.to_nat (- n)) l.

(** [arr.sort(cmp)]: the sort is stable, written here as insertion from
    the right; [cmp a b > 0] means that [a] goes after [b]. *)
Section Sort.
Context {A : Type} (cmp : A -> A -> Z).

Fixpoint insertSorted (x : A) (l : list A) : list A :=
  match l with
  | [] => [x]
  | y :: l' => if (0 <? cmp x y)%Z then y :: insertSorted x l' else x :: l
  end.

Definition sort (l : list A) : list A := foldr insertSorted [] l.
End Sort.

End Js.

Import Js.

Notation "x <- m ;; k" := (Js.bind m (fun x => k))
  (at level 100, m at next level, right associativity).

(** ** Data transfer objects ([dto/slippage-config.dto.ts]) *)

Inductive SlippageToleranceLevel : Type := STRICT | MODERATE | RELAXED.

Inductive Side : Type := buy | sell.

Record SlippageConfigDto : Type := {
  maxSlippagePercent : Q;
  toleranceLevel : option SlippageToleranceLevel;
  enableDynamicSlippage : option bool;
  maxExecutionTimeMs : option Q
}.

Record SlippageEstimationDto : Type := {
  est_symbol : string;
  est_side : Side;
  est_quantity : Q;
  est_expectedPrice : option Q
}.

Record SlippageReportDto : Type := {
  expectedPrice : Q;
  actualPrice : Q;
  slippageAmount : Q;
  slippagePercent : Q;
  quantity : Q;
  totalSlippageCost : Q;
  withinLimits : bool;
  timestamp : Z;
  symbol : string;
  side : Side
}.

Inductive Recommendation : Type := proceed | caution | delay.

#[global] Instance Recommendation_eq_dec : EqDecision Recommendation.
Proof. solve_decision. Defined.

Inductive Reason : Type :=
| HighEstimatedSlippage (percent : Q)
| LowMarketLiquidity
| ModerateMarketLiquidity
| AboveHistoricalAverage.

Inductive Reasoning : Type :=
| ConsiderDelaying (reasons : list Reason)
| ProceedWithCaution (reasons : list Reason)
| FavorableConditions.

Record PriceRange : Type := { range_min : Q; range_max : Q }.

Record SlippageEstimateResponseDto : Type := {
  estimatedSlippagePercent : Q;
  estimatedSlippageAmount : Q;
  currentMarketPrice : Q;
  estimatedPriceRange : PriceRange;
  liquidityScore : Q;
  recommendation : Recommendation;
  reasoning : Reasoning
}.

(** ** The calculator ([slippage-calculator.service.ts]) *)

Record Order : Type := { price : Q; order_quantity : Q }.

Record MarketDepth : Type := {
  bids : list Order;
  asks : list Order;
  depth_timestamp : Z
}.

Record HistoricalSlippage : Type := {
  hist_symbol : string;
  averageSlippage : Q;
  maxSlippage : Q;
  sampleCount : Z;
  lastUpdated : Z
}.

(** What the provider answers to the two requests of one estimation. *)
Record MarketData : Type := {
  getCurrentMarketPrice : Q;
  getMarketDepth : MarketDepth
}.

(** The placeholder provider of the source: a price of 45000 and twenty
    levels a side, ten apart, each of quantity [0.5 + random * 2]. *)
Definition mockMarketDepth (random : nat -> Q) (now : Z) : MarketDepth :=
  {| bids := map (fun i => {| price := 45000 - inject_Z (Z.of_nat i) * 10;
                              order_quantity := 0.5 + random i * 2 |})
                 (seq 0 20);
     asks := map (fun i => {| price := 45000 + inject_Z (Z.of_nat i) * 10;
                              order_quantity := 0.5 + random (20 + i)%nat * 2 |})
                 (seq 0 20);
     depth_timestamp := now |}.

Definition mockMarketData (random : nat -> Q) (now : Z) : MarketData :=
  {| getCurrentMarketPrice := 45000;
     getMarketDepth := mockMarketDepth random now |}.

Module Calculator.

Definition getToleranceForLevel (level : SlippageToleranceLevel) : Q :=
  match level with
  | STRICT => 0.1
  | MODERATE => 0.5
  | RELAXED => 1.0
  end.

Definition sideOrders (s : Side) (depth : MarketDepth) : list Order :=
  match s with buy => asks depth | sell => bids depth end.

(** The three accumulators of the loop of [calculateExecutionPrice]. *)
Record Fill : Type := {
  remainingQuantity : Q;
  totalCost : Q;
  executedQuantity : Q
}.

Fixpoint fillOrders (orders : list Order) (st : Fill) : Fill :=
  match orders with
  | [] => st
  | order :: rest =>
      if Js.lessEq (remainingQuantity st) 0 then st
      else
        let fillQuantity := Qmin (remainingQuantity st) (order_quantity order) in
        fillOrders rest
          {| remainingQuantity := remainingQuantity st - fillQuantity;
             totalCost := totalCost st + fillQuantity * price order;
             executedQuantity := executedQuantity st + fillQuantity |}
  end.

(** The remainder is priced at the last level, with a 2% penalty. *)
Definition fillRemainder (orders : list Order) (st : Fill) : Fill :=
  if Js.greater (remainingQuantity st) 0 then
    match last orders with
    | Some worst =>
        {| remainingQuantity := remainingQuantity st;
           totalCost := totalCost st + remainingQuantity st * price worst * 1.02;
           executedQuantity := executedQuantity st + remainingQuantity st |}
    | None => st
    end
  else st.

Definition calculateExecutionPrice (qty : Q) (s : Side) (depth : MarketDepth) : Q :=
  let orders := sideOrders s depth in
  let st := fillRemainder orders
              (fillOrders orders
                 {| remainingQuantity := qty; totalCost := 0; executedQuantity := 0 |}) in
  if Js.greater (executedQuantity st) 0 then totalCost st / executedQuantity st else 0.

Definition bestPrice (orders : list Order) : Q :=
  Js.orElse (price <$> head orders) 0.

Definition calculateLiquidityScore (depth : MarketDepth) (qty : Q) (s : Side)
  : Outcome Q :=
  let orders := sideOrders s depth in
  let topLevels := 10%nat in
  let availableLiquidity :=
    foldl (fun sum order => sum + order_quantity order) 0 (take topLevels orders) in
  let bestBid := bestPrice (bids depth) in
  let bestAsk := bestPrice (asks depth) in
  let midPrice := (bestBid + bestAsk) / 2 in
  let spreadPercent :=
    if Js.greater midPrice 0 then ((bestAsk - bestBid) / midPrice) * 100 else 100 in
  covered <- Js.div availableLiquidity qty ;;
  let liquidityCoverage := Qmin covered 1 in
  let spreadScore := Qmax 0 (1 - spreadPercent / 2) in
  let depthScore := Qmin (inject_Z (Z.of_nat (length orders)) / 20) 1 in
  let score := liquidityCoverage * 0.5 + spreadScore * 0.3 + depthScore * 0.2 in
  Returns (Qmax 0 (Qmin 1 score)).

Definition calculatePriceRange (expected estimated : Q)
    (historical : option HistoricalSlippage) : PriceRange :=
  let percent :=
    match historical with
    | Some h => if Js.greater (averageSlippage h) estimated then averageSlippage h
                else estimated
    | None => estimated
    end in
  let safetyMargin := 1.2 in
  let rangePercent := percent * safetyMargin in
  {| range_min := expected * (1 - rangePercent / 100);
     range_max := expected * (1 + rangePercent / 100) |}.

Definition generateRecommendation (estimated liquidity : Q)
    (historical : option HistoricalSlippage) : Recommendation * Reasoning :=
  let r1 := if Js.greater estimated 1.0 then [HighEstimatedSlippage estimated] else [] in
  let r2 := if Js.less liquidity 0.3 then [LowMarketLiquidity]
            else if Js.less liquidity 0.6 then [ModerateMarketLiquidity] else [] in
  let r3 := match historical with
            | Some h => if Js.greater estimated (averageSlippage h * 2)
                        then [AboveHistoricalAverage] else []
            | None => []
            end in
  let reasons := r1 ++ r2 ++ r3 in
  if Js.greater estimated 2.0 || Js.less liquidity 0.3 then
    (delay, ConsiderDelaying reasons)
  else if Js.greater estimated 0.5 || Js.less liquidity 0.6 then
    (caution, ProceedWithCaution reasons)
  else (proceed, FavorableConditions).

(** The price the slippage is measured against:
    [estimationDto.expectedPrice || currentPrice]. *)
Definition referencePrice (dto : SlippageEstimationDto) (market : MarketData) : Q :=
  Js.orElse (est_expectedPrice dto) (getCurrentMarketPrice market).

Definition estimateSlippage
    (historicalSlippage : gmap string HistoricalSlippage)
    (market : MarketData)
    (estimationDto : SlippageEstimationDto)
    (marketDepth : option MarketDepth) : Outcome SlippageEstimateResponseDto :=
  let currentPrice := getCurrentMarketPrice market in
  let depth := match marketDepth with
               | Some d => d
               | None => getMarketDepth market
               end in
  let estimatedExecutionPrice :=
    calculateExecutionPrice (est_quantity estimationDto) (est_side estimationDto) depth in
  let expected := referencePrice estimationDto market in
  let amount := Qabs (estimatedExecutionPrice - expected) in
  ratio <- Js.div amount expected ;;
  let percent := ratio * 100 in
  liquidity <- calculateLiquidityScore depth (est_quantity estimationDto)
                 (est_side estimationDto) ;;
  let historical := historicalSlippage !! est_symbol estimationDto in
  let range := calculatePriceRange expected percent historical in
  let '(rec, why) := generateRecommendation percent liquidity historical in
  Returns {| estimatedSlippagePercent := percent;
             estimatedSlippageAmount := amount;
             currentMarketPrice := currentPrice;
             estimatedPriceRange := range;
             liquidityScore := liquidity;
             recommendation := rec;
             reasoning := why |}.

Record ActualSlippage : Type := {
  act_slippageAmount : Q;
  act_slippagePercent : Q;
  act_totalCost : Q
}.

Definition calculateActualSlippage (expected actual qty : Q) : Outcome ActualSlippage :=
  let amount := Qabs (actual - expected) in
  ratio <- Js.div amount expected ;;
  Returns {| act_slippageAmount := amount;
             act_slippagePercent := ratio * 100;
             act_totalCost := amount * qty |}.

(** The division by [newCount] is never by zero: the counts of the map the
    service holds start at 1 and only grow ([update_counts_positive]). *)
Definition updateHistoricalSlippage (now : Z) (sym : string) (actualSlippage : Q)
    (historicalSlippage : gmap string HistoricalSlippage)
  : gmap string HistoricalSlippage :=
  match historicalSlippage !! sym with
  | Some existing =>
      let newCount := (sampleCount existing + 1)%Z in
      let newAverage :=
        (averageSlippage existing * inject_Z (sampleCount existing) + actualSlippage)
        / inject_Z newCount in
      let newMax := Qmax (maxSlippage existing) actualSlippage in
      <[sym := {| hist_symbol := sym;
                  averageSlippage := newAverage;
                  maxSlippage := newMax;
                  sampleCount := newCount;
                  lastUpdated := now |}]> historicalSlippage
  | None =>
      <[sym := {| hist_symbol := sym;
                  averageSlippage := actualSlippage;
                  maxSlippage := actualSlippage;
                  sampleCount := 1;
                  lastUpdated := now |}]> historicalSlippage
  end.

Definition calculateDynamicTolerance (baseTolerancePercent liquidity volatility : Q) : Q :=
  let liquidityAdjustment := if Js.less liquidity 0.5 then 1 - liquidity else 0 in
  let volatilityAdjustment := if Js.greater volatility 2.0 then volatility / 10 else 0 in
  Qmin (baseTolerancePercent * (1 + liquidityAdjustment + volatilityAdjustment))
       (baseTolerancePercent * 3).

Definition clearHistoricalData (sym : option string)
    (historicalSlippage : gmap string HistoricalSlippage)
  : gmap string HistoricalSlippage :=
  match sym with
  | Some s => if negb (String.eqb s EmptyString) then delete s historicalSlippage else ∅
  | None => ∅
  end.

End Calculator.

(** ** The protection service ([slippage-protection.service.ts]) *)

(** A JavaScript [Map] with string keys whose iteration order is observed:
    the entries in insertion order, a key at most once. *)
Module JsMap.
Section Ops.
Context {V : Type}.

Definition get (k : string) (m : list (string * V)) : option V :=
  snd <$> List.find (fun kv => String.eqb k (fst kv)) m.

Definition has (k : string) (m : list (string * V)) : bool :=
  bool_decide (is_Some (get k m)).

Fixpoint set (k : string) (v : V) (m : list (string * V)) : list (string * V) :=
  match m with
  | [] => [(k, v)]
  | (k', v') :: rest =>
      if String.eqb k k' then (k, v) :: rest else (k', v') :: set k v rest
  end.
End Ops.
End JsMap.

Record TradeExecutionContext : Type := {
  ctx_symbol : string;
  ctx_side : Side;
  ctx_quantity : Q;
  ctx_expectedPrice : Q;
  ctx_timestamp : Z;
  ctx_userId : option string;
  ctx_orderId : option string
}.

Inductive ProtectionRecommendation : Type := rec_proceed | rec_caution | rec_reject.

Inductive ProtectionReason : Type :=
| ExceedsMaximumAllowed (estimated maxAllowed : Q)
| AllowedWithCaution
| WithinAcceptableLimits.

Record SlippageProtectionResult : Type := {
  allowed : bool;
  reason : ProtectionReason;
  estimatedSlippage : Q;
  maxAllowedSlippage : Q;
  prot_recommendation : ProtectionRecommendation
}.

(** [symbolOverrides] is a [Map] the caller hands over; the service keeps
    that very object.  It is held here by value: what the service reads back
    is the same, the caller's own view of the object is not modelled. *)
Record UserSlippagePreferences : Type := {
  userId : string;
  defaultConfig : SlippageConfigDto;
  symbolOverrides : option (list (string * SlippageConfigDto));
  prefs_lastUpdated : Z
}.

Record ReportFilters : Type := {
  filter_symbol : option string;
  startDate : option Z;
  endDate : option Z;
  onlyExceeded : option bool;
  limit : option Q
}.

Record SlippageStatistics : Type := {
  stat_averageSlippage : Q;
  stat_maxSlippage : Q;
  stat_minSlippage : Q;
  totalTrades : Z;
  tradesExceededLimits : Z;
  stat_totalSlippageCost : Q
}.

(** A reference to an array of reports. *)
Definition loc : Type := nat.

(** The two services and the arrays they reach.  [historicalSlippage] is the
    calculator's map, [userPreferences] and [slippageReports] are the
    protection service's fields; [slippageReports] is a constant reference
    into [heap]. *)
Record State : Type := {
  historicalSlippage : gmap string HistoricalSlippage;
  userPreferences : gmap string UserSlippagePreferences;
  slippageReports : loc;
  heap : list (list SlippageReportDto)
}.

Definition setHistoricalSlippage (h : gmap string HistoricalSlippage) (s : State) : State :=
  {| historicalSlippage := h; userPreferences := userPreferences s;
     slippageReports := slippageReports s; heap := heap s |}.

Definition setUserPreferencesMap (p : gmap string UserSlippagePreferences) (s : State)
  : State :=
  {| historicalSlippage := historicalSlippage s; userPreferences := p;
     slippageReports := slippageReports s; heap := heap s |}.

Definition setHeap (h : list (list SlippageReportDto)) (s : State) : State :=
  {| historicalSlippage := historicalSlippage s; userPreferences := userPreferences s;
     slippageReports := slippageReports s; heap := h |}.

(** The state of freshly constructed services. *)
Definition initialState : State :=
  {| historicalSlippage := ∅; userPreferences := ∅;
     slippageReports := 0%nat; heap := [[]] |}.

(** The array a reference points to. *)
Definition arrayAt (l : loc) (s : State) : list SlippageReportDto :=
  default [] (heap s !! l).

(** The report log. *)
Definition reportLog (s : State) : list SlippageReportDto :=
  arrayAt (slippageReports s) s.

(** Calls that read and write the state; an exception leaves the state as
    it was when it was thrown. *)
Definition M (A : Type) : Type := State -> Outcome A * State.

Definition ret {A} (a : A) : M A := fun s => (Returns a, s).

Definition lift {A} (o : Outcome A) : M A := fun s => (o, s).

Definition bindM {A B} (m : M A) (k : A -> M B) : M B :=
  fun s =>
    match m s with
    | (Returns a, s') => k a s'
    | (Throws e, s') => (Throws e, s')
    | (NotFinite, s') => (NotFinite, s')
    end.

Notation "x <~ m ;; k" := (bindM m (fun x => k))
  (at level 100, m at next level, right associativity).

Definition modify (f : State -> State) : M unit := fun s => (Returns tt, f s).

Definition gets {A} (f : State -> A) : M A := fun s => (Returns (f s), s).

(** Arrays of reports. *)
Module JsArray.

(** A new array object. *)
Definition alloc (xs : list SlippageReportDto) : M loc :=
  fun s => (Returns (length (heap s)), setHeap (heap s ++ [xs]) s).

Definition read (a : loc) : M (list SlippageReportDto) := gets (arrayAt a).

Definition write (a : loc) (xs : list SlippageReportDto) : M unit :=
  modify (fun s => setHeap (<[a := xs]> (heap s)) s).

(** [[...a]] *)
Definition spread (a : loc) : M loc := xs <~ read a ;; alloc xs.

(** [a.filter(p)] *)
Definition filter (p : SlippageReportDto -> bool) (a : loc) : M loc :=
  xs <~ read a ;; alloc (List.filter p xs).

(** [a.sort(cmp)], in place. *)
Definition sort (cmp : SlippageReportDto -> SlippageReportDto -> Z) (a : loc) : M loc :=
  xs <~ read a ;; _ <~ write a (Js.sort cmp xs) ;; ret a.

(** [a.slice(0, n)] *)
Definition slice (n : Q) (a : loc) : M loc :=
  xs <~ read a ;; alloc (Js.slice0 (Js.toInteger n) xs).

(** [a.push(x)], in place. *)
Definition push (x : SlippageReportDto) (a : loc) : M unit :=
  xs <~ read a ;; write a (xs ++ [x]).

(** [a.splice(0, n)], in place.  The removed elements are the result; the
    array object JavaScript wraps them in is not allocated here, as the
    one caller drops it. *)
Definition splice (n : nat) (a : loc) : M (list SlippageReportDto) :=
  xs <~ read a ;; _ <~ write a (drop n xs) ;; ret (take n xs).

Definition length (a : loc) : M nat := xs <~ read a ;; ret (List.length xs).

End JsArray.

Module Protection.

Definition DEFAULT_CONFIG : SlippageConfigDto :=
  {| maxSlippagePercent := 0.5;
     toleranceLevel := Some MODERATE;
     enableDynamicSlippage := Some true;
     maxExecutionTimeMs := Some 5000 |}.

Definition MAX_REPORTS_IN_MEMORY : nat := 1000.

(** Priority: override, then the user's override for the symbol, then the
    user's default, then the system default. *)
Definition getApplicableConfig (prefs : gmap string UserSlippagePreferences)
    (user sym : option string) (override : option SlippageConfigDto)
  : SlippageConfigDto :=
  match override with
  | Some c => c
  | None =>
      match user with
      | Some u =>
          if Js.truthyStr user then
            match prefs !! u with
            | Some userPrefs =>
                match sym, symbolOverrides userPrefs with
                | Some sy, Some overrides =>
                    if Js.truthyStr sym && JsMap.has sy overrides
                    then default (defaultConfig userPrefs) (JsMap.get sy overrides)
                    else defaultConfig userPrefs
                | _, _ => defaultConfig userPrefs
                end
            | None => DEFAULT_CONFIG
            end
          else DEFAULT_CONFIG
      | None => DEFAULT_CONFIG
      end
  end.

Definition calculateMaxAllowedSlippage (config : SlippageConfigDto) (liquidity : Q) : Q :=
  if Js.truthyBool (enableDynamicSlippage config) then
    let estimatedVolatility := 1.0 in
    Calculator.calculateDynamicTolerance
      (maxSlippagePercent config) liquidity estimatedVolatility
  else maxSlippagePercent config.

Definition generateProtectionResult (estimated maxAllowed : Q)
    (rec : Recommendation) (isWithinLimits : bool) : SlippageProtectionResult :=
  if negb isWithinLimits || bool_decide (rec = delay) then
    {| allowed := false;
       reason := ExceedsMaximumAllowed estimated maxAllowed;
       estimatedSlippage := estimated;
       maxAllowedSlippage := maxAllowed;
       prot_recommendation := rec_reject |}
  else if bool_decide (rec = caution) then
    {| allowed := true;
       reason := AllowedWithCaution;
       estimatedSlippage := estimated;
       maxAllowedSlippage := maxAllowed;
       prot_recommendation := rec_caution |}
  else
    {| allowed := true;
       reason := WithinAcceptableLimits;
       estimatedSlippage := estimated;
       maxAllowedSlippage := maxAllowed;
       prot_recommendation := rec_proceed |}.

Definition validateConfig (config : SlippageConfigDto) : Outcome unit :=
  if Js.less (maxSlippagePercent config) 0 || Js.greater (maxSlippagePercent config) 100
  then Throws (BadRequestException "maxSlippagePercent must be between 0 and 100")
  else
    match maxExecutionTimeMs config with
    | Some ms =>
        if Js.truthy ms && Js.less ms 100
        then Throws (BadRequestException "maxExecutionTimeMs must be at least 100ms")
        else Returns tt
    | None => Returns tt
    end.

(** The estimation request built from a trade context. *)
Definition estimationOf (context : TradeExecutionContext) : SlippageEstimationDto :=
  {| est_symbol := ctx_symbol context;
     est_side := ctx_side context;
     est_quantity := ctx_quantity context;
     est_expectedPrice := Some (ctx_expectedPrice context) |}.

Definition validateTradeExecution (market : MarketData)
    (context : TradeExecutionContext) (userConfig : option SlippageConfigDto)
  : M SlippageProtectionResult :=
  prefs <~ gets userPreferences ;;
  let config :=
    getApplicableConfig prefs (ctx_userId context) (Some (ctx_symbol context)) userConfig in
  history <~ gets historicalSlippage ;;
  estimation <~ lift (Calculator.estimateSlippage history market
                        (estimationOf context) None) ;;
  let maxAllowed := calculateMaxAllowedSlippage config (liquidityScore estimation) in
  let isWithinLimits := Js.lessEq (estimatedSlippagePercent estimation) maxAllowed in
  ret (generateProtectionResult (estimatedSlippagePercent estimation) maxAllowed
         (recommendation estimation) isWithinLimits).

Definition storeReport (report : SlippageReportDto) : M unit :=
  log <~ gets slippageReports ;;
  _ <~ JsArray.push report log ;;
  n <~ JsArray.length log ;;
  if (MAX_REPORTS_IN_MEMORY <? n)%nat then
    let toRemove := (n - MAX_REPORTS_IN_MEMORY)%nat in
    _ <~ JsArray.splice toRemove log ;; ret tt
  else ret tt.

Definition recordSlippage (now : Z) (context : TradeExecutionContext)
    (actualExecutionPrice : Q) : M SlippageReportDto :=
  slippage <~ lift (Calculator.calculateActualSlippage (ctx_expectedPrice context)
                      actualExecutionPrice (ctx_quantity context)) ;;
  prefs <~ gets userPreferences ;;
  let config :=
    getApplicableConfig prefs (ctx_userId context) (Some (ctx_symbol context)) None in
  let maxAllowed := maxSlippagePercent config in
  let within := Js.lessEq (Calculator.act_slippagePercent slippage) maxAllowed in
  let report :=
    {| expectedPrice := ctx_expectedPrice context;
       actualPrice := actualExecutionPrice;
       slippageAmount := Calculator.act_slippageAmount slippage;
       slippagePercent := Calculator.act_slippagePercent slippage;
       quantity := ctx_quantity context;
       totalSlippageCost := Calculator.act_totalCost slippage;
       withinLimits := within;
       timestamp := now;
       symbol := ctx_symbol context;
       side := ctx_side context |} in
  _ <~ storeReport report ;;
  _ <~ modify (fun s =>
         setHistoricalSlippage
           (Calculator.updateHistoricalSlippage now (ctx_symbol context)
              (Calculator.act_slippagePercent slippage) (historicalSlippage s)) s) ;;
  ret report.

(** [symbolOverrides.forEach(validateConfig)]: in insertion order, up to
    the first exception. *)
Fixpoint validateOverrides (overrides : list (string * SlippageConfigDto)) : Outcome unit :=
  match overrides with
  | [] => Returns tt
  | (_, c) :: rest => _ <- validateConfig c ;; validateOverrides rest
  end.

Definition setUserPreferences (now : Z) (user : string) (config : SlippageConfigDto)
    (overrides : option (list (string * SlippageConfigDto))) : M unit :=
  _ <~ lift (validateConfig config) ;;
  _ <~ lift (match overrides with
             | Some o => validateOverrides o
             | None => Returns tt
             end) ;;
  modify (fun s =>
    setUserPreferencesMap
      (<[user := {| userId := user;
                    defaultConfig := config;
                    symbolOverrides := overrides;
                    prefs_lastUpdated := now |}]> (userPreferences s)) s).

Definition getUserPreferences (user : string) : M (option UserSlippagePreferences) :=
  gets (fun s => userPreferences s !! user).

Definition setSymbolOverride (now : Z) (user sym : string) (config : SlippageConfigDto)
  : M unit :=
  _ <~ lift (validateConfig config) ;;
  existing <~ gets (fun s => userPreferences s !! user) ;;
  let overrides :=
    JsMap.set sym config (default [] (existing ≫= symbolOverrides)) in
  modify (fun s =>
    setUserPreferencesMap
      (<[user := {| userId := user;
                    defaultConfig := default DEFAULT_CONFIG (defaultConfig <$> existing);
                    symbolOverrides := Some overrides;
                    prefs_lastUpdated := now |}]> (userPreferences s)) s).

Definition byTimestampDescending (a b : SlippageReportDto) : Z :=
  (timestamp b - timestamp a)%Z.

Definition getSlippageReports (filters : option ReportFilters) : M loc :=
  log <~ gets slippageReports ;;
  reports <~ JsArray.spread log ;;
  reports <~ match filters ≫= filter_symbol with
             | Some sy =>
                 if Js.truthyStr (Some sy)
                 then JsArray.filter (fun r => String.eqb (symbol r) sy) reports
                 else ret reports
             | None => ret reports
             end ;;
  reports <~ match filters ≫= startDate with
             | Some d => JsArray.filter (fun r => (d <=? timestamp r)%Z) reports
             | None => ret reports
             end ;;
  reports <~ match filters ≫= endDate with
             | Some d => JsArray.filter (fun r => (timestamp r <=? d)%Z) reports
             | None => ret reports
             end ;;
  reports <~ (if Js.truthyBool (filters ≫= onlyExceeded)
              then JsArray.filter (fun r => negb (withinLimits r)) reports
              else ret reports) ;;
  _ <~ JsArray.sort byTimestampDescending reports ;;
  match filters ≫= limit with
  | Some n => if Js.truthy n then JsArray.slice n reports else ret reports
  | None => ret reports
  end.

Definition millisecondsPerDay : Z := 86400000.

(** [Math.max(...xs)] and [Math.min(...xs)] of a list that is not empty. *)
Definition maxOf (x : Q) (xs : list Q) : Q := foldl Qmax x xs.
Definition minOf (x : Q) (xs : list Q) : Q := foldl Qmin x xs.

(** The calendar of a host whose local time never shifts (UTC, or a zone
    without daylight saving): every day has 24 hours. *)
Definition fixedOffsetCalendar (now days : Z) : Z := (now - days * millisecondsPerDay)%Z.

(** [daysBack] defaults to 7.  The cutoff is [now] moved back [daysBack]
    days in the local calendar of the host
    ([cutoffDate.setDate(cutoffDate.getDate() - daysBack)]).  Which time
    value that is depends on the time zone of the host, so the calendar is
    an argument: [calendar now days] is the time value of [now] moved back
    [days] days. *)
Definition getSlippageStatistics (calendar : Z -> Z -> Z) (now : Z) (sym : string)
    (daysBack : option Z) : M SlippageStatistics :=
  let cutoffDate := calendar now (default 7%Z daysBack) in
  log <~ gets slippageReports ;;
  relevantReports <~
    JsArray.filter (fun r => String.eqb (symbol r) sym && (cutoffDate <=? timestamp r)%Z)
      log ;;
  relevant <~ JsArray.read relevantReports ;;
  match slippagePercent <$> relevant with
  | [] =>
      ret {| stat_averageSlippage := 0; stat_maxSlippage := 0; stat_minSlippage := 0;
             totalTrades := 0; tradesExceededLimits := 0; stat_totalSlippageCost := 0 |}
  | first :: others =>
      let slippages := first :: others in
      let sum := foldl Qplus 0 slippages in
      exceeded <~ JsArray.filter (fun r => negb (withinLimits r)) relevantReports ;;
      exceededCount <~ JsArray.length exceeded ;;
      ret {| stat_averageSlippage := sum / inject_Z (Z.of_nat (length slippages));
             stat_maxSlippage := maxOf first others;
             stat_minSlippage := minOf first others;
             totalTrades := Z.of_nat (length relevant);
             tradesExceededLimits := Z.of_nat exceededCount;
             stat_totalSlippageCost :=
               foldl (fun sum r => sum + totalSlippageCost r) 0 relevant |}
  end.

Definition clearUserPreferences (user : option string) : M unit :=
  modify (fun s =>
    setUserPreferencesMap
      (match user with
       | Some u => if Js.truthyStr user then delete u (userPreferences s) else ∅
       | None => ∅
       end) s).

Definition clearReports : M unit :=
  log <~ gets slippageReports ;; JsArray.write log [].

End Protection.

(** ** The order-size search ([trading.service.example.ts]) *)

Module Trading.

Inductive SplitReason : Type :=
| FullOrderWithinLimits
| FullOrderExceedsLimit (estimated maxAllowed : Q).

Record SplitDecision : Type := {
  shouldSplit : bool;
  split_reason : SplitReason;
  recommendedChunkSize : option Q;
  estimatedChunks : option Z
}.

Definition requestFor (sym : string) (s : Side) (qty : Q) : SlippageEstimationDto :=
  {| est_symbol := sym; est_side := s; est_quantity := qty; est_expectedPrice := None |}.

Section Search.
(** The calculator's history and the provider's answers: [feed k] is
    what the provider answers to the estimation numbered [k]. *)
Variable history : gmap string HistoricalSlippage.
Variable feed : nat -> MarketData.
Variables (sym : string) (s : Side) (totalQuantity maxPercent : Q).

(** The [while] loop of the binary search, [fuel] bounding its
    iterations; [None] when the bound is reached. *)
Fixpoint searchChunkSize (fuel : nat) (k : nat) (low high optimalChunkSize : Q)
  : option (Outcome Q) :=
  if Js.greater (high - low) (totalQuantity * 0.05) then
    match fuel with
    | O => None
    | S fuel' =>
        let mid := (low + high) / 2 in
        match Calculator.estimateSlippage history (feed k)
                (requestFor sym s mid) None with
        | Returns estimate =>
            if Js.lessEq (estimatedSlippagePercent estimate) maxPercent
            then searchChunkSize fuel' (S k) mid high mid
            else searchChunkSize fuel' (S k) low mid optimalChunkSize
        | Throws e => Some (Throws e)
        | NotFinite => Some NotFinite
        end
    end
  else Some (Returns optimalChunkSize).

Definition splitAt (full : SlippageEstimateResponseDto) (optimalChunkSize : Q)
  : Outcome SplitDecision :=
  ratio <- Js.div totalQuantity optimalChunkSize ;;
  let chunks := Qceiling ratio in
  Returns {| shouldSplit := true;
             split_reason :=
               FullOrderExceedsLimit (estimatedSlippagePercent full) maxPercent;
             recommendedChunkSize := Some optimalChunkSize;
             estimatedChunks := Some chunks |}.

Definition shouldSplitOrderWith (fuel : nat) : option (Outcome SplitDecision) :=
  match Calculator.estimateSlippage history (feed 0%nat)
          (requestFor sym s totalQuantity) None with
  | Returns fullOrderEstimate =>
      if Js.lessEq (estimatedSlippagePercent fullOrderEstimate) maxPercent then
        Some (Returns {| shouldSplit := false;
                         split_reason := FullOrderWithinLimits;
                         recommendedChunkSize := None;
                         estimatedChunks := None |})
      else
        match searchChunkSize fuel 1%nat (totalQuantity * 0.1) totalQuantity
                totalQuantity with
        | Some (Returns optimalChunkSize) =>
            Some (splitAt fullOrderEstimate optimalChunkSize)
        | Some (Throws e) => Some (Throws e)
        | Some NotFinite => Some NotFinite
        | None => None
        end
  | Throws e => Some (Throws e)
  | NotFinite => Some NotFinite
  end.
End Search.

(** [maxSlippagePercent] defaults to 0.5. *)
Definition shouldSplitOrder (history : gmap string HistoricalSlippage)
    (feed : nat -> MarketData) (fuel : nat)
    (sym : string) (s : Side) (totalQuantity : Q) (maxSlippage : option Q)
  : option (Outcome SplitDecision) :=
  shouldSplitOrderWith history feed sym s totalQuantity (default 0.5 maxSlippage) fuel.

End Trading.

(** ** The price projection as the specification words it *)

Module PriceProjection.





End PriceProjection.

(** ** Sequences of calls, invariants and examples *)

Module History.
(** One call of [updateHistoricalSlippage]. *)
Record Update : Type := { upd_now : Z; upd_symbol : string; upd_value : Q }.

Definition applyUpdate (h : gmap string HistoricalSlippage) (u : Update)
  : gmap string HistoricalSlippage :=
  Calculator.updateHistoricalSlippage (upd_now u) (upd_symbol u) (upd_value u) h.

(** A sequence of calls, the first one first. *)
Definition applyAll (h : gmap string HistoricalSlippage) (us : list Update)
  : gmap string HistoricalSlippage :=
  foldl applyUpdate h us.

(** The values passed for one symbol, in the order of the calls. *)
Definition valuesFor (sym : string) (us : list Update) : list Q :=
  upd_value <$> List.filter (fun u => String.eqb (upd_symbol u) sym) us.

Definition total (vs : list Q) : Q := foldr Qplus 0 vs.

Definition mean (vs : list Q) : Q := total vs / inject_Z (Z.of_nat (length vs)).

(** [m] is the greatest of [vs]. *)
Definition greatest (m : Q) (vs : list Q) : Prop :=
  In m vs /\ Forall (fun v => v <= m) vs.

(** What the record of a symbol holds after the values [vs]. *)
Definition tracks (record : option HistoricalSlippage) (vs : list Q) : Prop :=
  match record with
  | None => vs = []
  | Some h =>
      vs <> []
      /\ sampleCount h = Z.of_nat (length vs)
      /\ averageSlippage h * inject_Z (sampleCount h) == total vs
      /\ greatest (maxSlippage h) vs
  end.
End History.

(** ** The running statistics in the numbers of the code

    A JavaScript [number] is an IEEE 754 binary64 value.  Where rounding
    bears on a property the method is embedded over these values, with the
    operations of the Standard Library's [SpecFloat] at precision 53 and
    maximal exponent 1024. *)

(** The recurrence of the running average over any arithmetic: the average
    [a] of [k] values, then the values [vs] one by one,
    [a' = (a * k + v) / (k + 1)]. *)
Section Recurrence.
Context {N : Type} (add mul div : N -> N -> N) (ofZ : Z -> N).

Fixpoint runningAverageFromWith (a : N) (k : Z) (vs : list N) : N :=
  match vs with
  | [] => a
  | v :: rest =>
      runningAverageFromWith (div (add (mul a (ofZ k)) v) (ofZ (k + 1))) (k + 1) rest
  end.

(** [a_1 = v_1], [a_(k+1) = (a_k * k + v_(k+1)) / (k + 1)]. *)
Definition runningAverageWith (vs : list N) : option N :=
  match vs with
  | [] => None
  | v :: rest => Some (runningAverageFromWith v 1 rest)
  end.
End Recurrence.

(** The recurrence in exact arithmetic. *)
Definition exactRunningAverage : list Q -> option Q :=
  runningAverageWith Qplus Qmult Qdiv inject_Z.

Module Double.

Definition double : Type := SpecFloat.spec_float.
Definition prec : Z := 53.
Definition emax : Z := 1024.

Definition add : double -> double -> double := SpecFloat.SFadd prec emax.
Definition mul : double -> double -> double := SpecFloat.SFmul prec emax.
Definition div : double -> double -> double := SpecFloat.SFdiv prec emax.

(** An integer as a double, rounded to nearest; exact up to 2^53. *)
Definition ofZ (z : Z) : double := SpecFloat.binary_normalize prec emax z 0 false.

(** The double nearest to a fraction of two integers that doubles hold
    exactly: the value of a decimal literal such as [0.1]. *)
Definition ofQ (q : Q) : double := div (ofZ (Qnum q)) (ofZ (Zpos (Qden q))).

(** Neither an infinity nor NaN. *)
Definition finite (x : double) : bool :=
  match x with
  | SpecFloat.S754_zero _ | SpecFloat.S754_finite _ _ _ => true
  | _ => false
  end.

(** The number a finite double stands for. *)
Definition value (x : double) : Q :=
  match x with
  | SpecFloat.S754_finite sign m e =>
      inject_Z (if sign then Zneg m else Zpos m) * Qpower 2 e
  | _ => 0
  end.

(** [x < y]: false when one of them is NaN. *)
Definition less (x y : double) : bool :=
  match x, y with
  | SpecFloat.S754_nan, _ | _, SpecFloat.S754_nan => false
  | SpecFloat.S754_infinity sx, SpecFloat.S754_infinity sy => sx && negb sy
  | SpecFloat.S754_infinity sx, _ => sx
  | _, SpecFloat.S754_infinity sy => negb sy
  | _, _ => negb (Qle_bool (value y) (value x))
  end.

(** [Math.max(x, y)]: NaN when one of them is NaN; of the two zeros the
    positive one is the larger. *)
Definition max (x y : double) : double :=
  match x, y with
  | SpecFloat.S754_nan, _ | _, SpecFloat.S754_nan => SpecFloat.S754_nan
  | _, _ =>
      if less x y then y
      else if less y x then x
      else match x with
           | SpecFloat.S754_zero true => y
           | _ => x
           end
  end.

Record HistoricalSlippage : Type := {
  hist_symbol : string;
  averageSlippage : double;
  maxSlippage : double;
  sampleCount : Z;
  lastUpdated : Z
}.

(** [updateHistoricalSlippage] of the calculator.  The sample count is a
    whole number, which doubles hold exactly up to 2^53. *)
Definition updateHistoricalSlippage (now : Z) (sym : string) (actualSlippage : double)
    (historicalSlippage : gmap string HistoricalSlippage)
  : gmap string HistoricalSlippage :=
  match historicalSlippage !! sym with
  | Some existing =>
      let newCount := (sampleCount existing + 1)%Z in
      let newAverage :=
        div (add (mul (averageSlippage existing) (ofZ (sampleCount existing)))
               actualSlippage)
          (ofZ newCount) in
      let newMax := max (maxSlippage existing) actualSlippage in
      <[sym := {| hist_symbol := sym;
                  averageSlippage := newAverage;
                  maxSlippage := newMax;
                  sampleCount := newCount;
                  lastUpdated := now |}]> historicalSlippage
  | None =>
      <[sym := {| hist_symbol := sym;
                  averageSlippage := actualSlippage;
                  maxSlippage := actualSlippage;
                  sampleCount := 1;
                  lastUpdated := now |}]> historicalSlippage
  end.

(** One call of [updateHistoricalSlippage]. *)
Record Update : Type := { upd_now : Z; upd_symbol : string; upd_value : double }.

Definition applyUpdate (h : gmap string HistoricalSlippage) (u : Update)
  : gmap string HistoricalSlippage :=
  updateHistoricalSlippage (upd_now u) (upd_symbol u) (upd_value u) h.

(** A sequence of calls, the first one first. *)
Definition applyAll (h : gmap string HistoricalSlippage) (us : list Update)
  : gmap string HistoricalSlippage :=
  foldl applyUpdate h us.

(** The values passed for one symbol, in the order of the calls. *)
Definition valuesFor (sym : string) (us : list Update) : list double :=
  upd_value <$> List.filter (fun u => String.eqb (upd_symbol u) sym) us.

(** [m] is the greatest of [vs]: one of them, and none of them stands for a
    greater number. *)
Definition greatest (m : double) (vs : list double) : Prop :=
  In m vs /\ Forall (fun v => value v <= value m) vs.

(** The recurrence in the arithmetic of the code. *)
Definition runningAverage : list double -> option double :=
  runningAverageWith add mul div ofZ.

(** What the record of a symbol holds after the finite values [vs]. *)
Definition tracks (record : option HistoricalSlippage) (vs : list double) : Prop :=
  match record with
  | None => vs = []
  | Some h =>
      vs <> []
      /\ sampleCount h = Z.of_nat (length vs)
      /\ greatest (maxSlippage h) vs
      /\ Some (averageSlippage h) = runningAverage vs
  end.

(** An update of a symbol with the double nearest to a fraction. *)
Definition sample (now : Z) (sym : string) (q : Q) : Update :=
  {| upd_now := now; upd_symbol := sym; upd_value := ofQ q |}.

End Double.

(** The log array is allocated. *)
Definition wellFormed (s : State) : Prop := (slippageReports s < length (heap s))%nat.

(** The most recent [n] elements of a list that grows at its end. *)
Definition lastN {A} (n : nat) (l : list A) : list A := drop (length l - n) l.

Module Recording.
(** A sequence of [storeReport] calls, the first one first. *)
Fixpoint storeAll (reports : list SlippageReportDto) : M unit :=
  match reports with
  | [] => ret tt
  | r :: rest => _ <~ Protection.storeReport r ;; storeAll rest
  end.

(** One call of [recordSlippage]. *)
Record Call : Type := {
  call_now : Z;
  call_context : TradeExecutionContext;
  call_price : Q
}.

(** A sequence of calls, the first one first; the reports returned. *)
Fixpoint recordAll (calls : list Call) : M (list SlippageReportDto) :=
  match calls with
  | [] => ret []
  | c :: rest =>
      r <~ Protection.recordSlippage (call_now c) (call_context c) (call_price c) ;;
      rs <~ recordAll rest ;;
      ret (r :: rs)
  end.
End Recording.

(** [s'] has the maps and the log reference of [s], and every array of [s]
    as it is in [s]; it may hold more arrays. *)
Definition extends (s s' : State) : Prop :=
  historicalSlippage s' = historicalSlippage s
  /\ userPreferences s' = userPreferences s
  /\ slippageReports s' = slippageReports s
  /\ heap s `prefix_of` heap s'.

(** From any state that extends [s0], [m] returns and ends in a state that
    extends [s0], with a result that satisfies [P]. *)
Definition keeps {A} (s0 : State) (P : A -> Prop) (m : M A) : Prop :=
  forall s, extends s0 s ->
    exists a s', m s = (Returns a, s') /\ extends s0 s' /\ P a.

(** The array at [a] was allocated after [s0]. *)
Definition newSince (s0 : State) (a : loc) : Prop := (length (heap s0) <= a)%nat.

(** [x] doubled [n] times. *)
Fixpoint doubled (n : nat) (x : Q) : Q :=
  match n with
  | O => x
  | S n' => 2 * doubled n' x
  end.

(** A book for the examples. *)
Definition sampleMarket : MarketData :=
  {| getCurrentMarketPrice := 45000;
     getMarketDepth :=
       {| bids := [{| price := 44990; order_quantity := 5 |}];
          asks := [{| price := 45000; order_quantity := 1 |};
                   {| price := 45500; order_quantity := 1000 |}];
          depth_timestamp := 0 |} |}.

(** A report for the examples, made at time [t]. *)
Definition sampleReport (t : Z) : SlippageReportDto :=
  {| expectedPrice := 45000; actualPrice := 45050; slippageAmount := 50;
     slippagePercent := 1 # 9; quantity := 1; totalSlippageCost := 50;
     withinLimits := true; timestamp := t; symbol := "BTC/USD"; side := buy |}.

(** A state whose log holds two reports, the older one first. *)
Definition sampleState : State :=
  {| historicalSlippage := ∅; userPreferences := ∅;
     slippageReports := 0%nat; heap := [[sampleReport 1; sampleReport 2]] |}.

(** The trade of the repository's tests: one BTC bought at 45000. *)
Definition sampleContext (user : option string) : TradeExecutionContext :=
  {| ctx_symbol := "BTC/USD"; ctx_side := buy; ctx_quantity := 1;
     ctx_expectedPrice := 45000; ctx_timestamp := 0;
     ctx_userId := user; ctx_orderId := None |}.

Definition sampleConfig (percent : Q) (level : SlippageToleranceLevel)
    (dynamic : option bool) : SlippageConfigDto :=
  {| maxSlippagePercent := percent; toleranceLevel := Some level;
     enableDynamicSlippage := dynamic; maxExecutionTimeMs := None |}.

(** The placeholder provider when every random draw is one half. *)
Definition sampleMock : MarketData := mockMarketData (fun _ => 1 # 2) 0.

(** The result of a call that returned. *)
Definition returned {A} (o : Outcome A) : option A :=
  match o with
  | Returns a => Some a
  | _ => None
  end.

(** ** Further operations and the vocabulary of their properties *)

(** How grave a recommendation is. *)
Definition severity (r : Recommendation) : nat :=
  match r with
  | proceed => 0
  | caution => 1
  | delay => 2
  end.

(** The quantity on offer in a list of levels. *)
Definition offered (orders : list Order) : Q :=
  foldr (fun order sum => order_quantity order + sum) 0 orders.

(** A level priced between [lo] and [hi] that offers no negative quantity. *)
Definition levelWithin (lo hi : Q) (o : Order) : Prop :=
  lo <= price o <= hi /\ 0 <= order_quantity o.

(** What the loop of [calculateExecutionPrice] keeps on such levels: the
    cost lies between the filled quantity at [lo] and at [hi]. *)
Definition costWithin (lo hi : Q) (st : Calculator.Fill) : Prop :=
  0 <= Calculator.remainingQuantity st
  /\ 0 <= Calculator.executedQuantity st
  /\ lo * Calculator.executedQuantity st <= Calculator.totalCost st
     <= hi * Calculator.executedQuantity st.

(** A configuration whose [maxSlippagePercent] is a percentage. *)
Definition configInRange (c : SlippageConfigDto) : Prop :=
  0 <= maxSlippagePercent c <= 100.

Definition preferencesInRange (p : UserSlippagePreferences) : Prop :=
  configInRange (defaultConfig p)
  /\ Forall (fun kv => configInRange (snd kv)) (default [] (symbolOverrides p)).

(** Every configuration the service holds is in range. *)
Definition storeInRange (s : State) : Prop :=
  map_Forall (fun _ p => preferencesInRange p) (userPreferences s).

(** The calls that write the preferences. *)
Inductive PreferenceCall : Type :=
| CallSetUserPreferences (now : Z) (user : string) (config : SlippageConfigDto)
    (overrides : option (list (string * SlippageConfigDto)))
| CallSetSymbolOverride (now : Z) (user sym : string) (config : SlippageConfigDto)
| CallClearUserPreferences (user : option string).

Definition runCall (c : PreferenceCall) : M unit :=
  match c with
  | CallSetUserPreferences now user config overrides =>
      Protection.setUserPreferences now user config overrides
  | CallSetSymbolOverride now user sym config =>
      Protection.setSymbolOverride now user sym config
  | CallClearUserPreferences user => Protection.clearUserPreferences user
  end.

(** The state after a sequence of such calls, whether they return or
    throw. *)
Definition runCalls (cs : list PreferenceCall) (s : State) : State :=
  foldl (fun st c => snd (runCall c st)) s cs.

(** [exportSlippageData] of the protection service. *)
Module DataExport.

Record ExportedData : Type := {
  exported_reports : loc;
  exported_statistics : option SlippageStatistics
}.

Definition exportSlippageData (calendar : Z -> Z -> Z) (now : Z) (sym : option string)
  : M ExportedData :=
  log <~ gets slippageReports ;;
  reports <~ match sym with
             | Some sy =>
                 if Js.truthyStr sym
                 then JsArray.filter (fun r => String.eqb (symbol r) sy) log
                 else ret log
             | None => ret log
             end ;;
  statistics <~ match sym with
                | Some sy =>
                    if Js.truthyStr sym
                    then stats <~ Protection.getSlippageStatistics calendar now sy (Some 30%Z) ;;
                         ret (Some stats)
                    else ret None
                | None => ret None
                end ;;
  ret {| exported_reports := reports; exported_statistics := statistics |}.

End DataExport.

(** From a state that satisfies [Pre], [m] returns a result and a state
    that satisfy [Post]. *)
Definition hoare {A} (Pre : State -> Prop) (m : M A) (Post : A -> State -> Prop) : Prop :=
  forall s, Pre s -> exists a s', m s = (Returns a, s') /\ Post a s'.

(** In a state that extends [s0], the array at [a] was allocated after [s0]
    and holds [xs]. *)
Definition holds (s0 : State) (a : loc) (xs : list SlippageReportDto) (s : State) : Prop :=
  extends s0 s /\ newSince s0 a /\ (a < length (heap s))%nat /\ arrayAt a s = xs.

(** What the filters of [getSlippageReports] let through. *)
Definition matchesFilters (filters : option ReportFilters) (r : SlippageReportDto) : bool :=
  match filters ≫= filter_symbol with
  | Some sy => if Js.truthyStr (Some sy) then String.eqb (symbol r) sy else true
  | None => true
  end
  && match filters ≫= startDate with
     | Some d => (d <=? timestamp r)%Z
     | None => true
     end
  && match filters ≫= endDate with
     | Some d => (timestamp r <=? d)%Z
     | None => true
     end
  && (if Js.truthyBool (filters ≫= onlyExceeded) then negb (withinLimits r) else true).

(** The limit of [getSlippageReports] as it takes effect. *)
Definition effectiveLimit (filters : option ReportFilters) : option Z :=
  match filters ≫= limit with
  | Some n => if Js.truthy n then Some (Js.toInteger n) else None
  | None => None
  end.

(** What [getSlippageReports] returns for a log: the matching reports,
    sorted, then cut at the limit. *)
Definition queryResult (filters : option ReportFilters) (log : list SlippageReportDto)
  : list SlippageReportDto :=
  let sorted :=
    Js.sort Protection.byTimestampDescending (List.filter (matchesFilters filters) log) in
  match effectiveLimit filters with
  | Some n => Js.slice0 n sorted
  | None => sorted
  end.

(** The reports of the log that [getSlippageStatistics] counts: those of
    the symbol that are not older than the cutoff. *)
Definition relevantReports (calendar : Z -> Z -> Z) (now : Z) (sym : string)
    (daysBack : option Z) (log : list SlippageReportDto) : list SlippageReportDto :=
  List.filter
    (fun r => String.eqb (symbol r) sym
              && (calendar now (default 7%Z daysBack) <=? timestamp r)%Z)
    log.

(** The statistics of the reports that count. *)
Definition statisticsOf (relevant : list SlippageReportDto) : SlippageStatistics :=
  match slippagePercent <$> relevant with
  | [] =>
      {| stat_averageSlippage := 0; stat_maxSlippage := 0; stat_minSlippage := 0;
         totalTrades := 0; tradesExceededLimits := 0; stat_totalSlippageCost := 0 |}
  | first :: others =>
      {| stat_averageSlippage :=
           foldl Qplus 0 (first :: others)
           / inject_Z (Z.of_nat (length (first :: others)));
         stat_maxSlippage := Protection.maxOf first others;
         stat_minSlippage := Protection.minOf first others;
         totalTrades := Z.of_nat (length relevant);
         tradesExceededLimits :=
           Z.of_nat (length (List.filter (fun r => negb (withinLimits r)) relevant));
         stat_totalSlippageCost :=
           foldl (fun sum r => sum + totalSlippageCost r) 0 relevant |}
  end.

(** Newest first: no report is older than one that comes after it. *)
Definition newestFirst (l : list SlippageReportDto) : Prop :=
  StronglySorted (fun a b => (timestamp b <= timestamp a)%Z) l.

(** The update of the historical statistics that a report stands for. *)
Definition updateOf (r : SlippageReportDto) : History.Update :=
  {| History.upd_now := timestamp r; History.upd_symbol := symbol r;
     History.upd_value := slippagePercent r |}.

(** The reports of one symbol. *)
Definition reportsOf (sym : string) (reports : list SlippageReportDto)
  : list SlippageReportDto :=
  List.filter (fun r => String.eqb (symbol r) sym) reports.

(** The other methods of the trading service
    ([trading.service.example.ts]). *)
Module TradingService.

Record TradeParams : Type := {
  param_userId : string;
  param_symbol : string;
  param_side : Side;
  param_quantity : Q;
  param_expectedPrice : option Q
}.

Record ExecutionResult : Type := { orderId : string; exec_actualPrice : Q }.

(** What the surroundings answer during one [executeTrade]: the clock, the
    service's own price source, the provider behind the two estimations and
    the exchange that executes the order. *)
Record TradeEnvironment : Type := {
  env_executionStart : Z;
  env_currentPrice : Q;
  env_estimationMarket : MarketData;
  env_validationTime : Z;
  env_validationMarket : MarketData;
  env_order : ExecutionResult;
  env_recordContextTime : Z;
  env_recordTime : Z;
  env_executionEnd : Z
}.

Inductive TradeResult : Type :=
| TradeRejected (reason : ProtectionReason) (estimatedSlippage maxAllowed : Q)
    (recommendation : Recommendation)
| TradeExecuted (order : string) (executedPrice : Q) (executionTime : Z)
    (slippageReport : SlippageReportDto) (estimatedSlippage actualSlippage : Q).

(** The placeholder price source of the trading service. *)
Definition getCurrentMarketPrice : Q := 45000.

(** The placeholder exchange: up to 0.3% of slippage on 45000, with the
    random draw and the order id as arguments. *)
Definition executeMarketOrder (random : Q) (order : string) (s : Side) : ExecutionResult :=
  let basePrice := 45000 in
  let slippagePercent := random * 0.3 in
  let slippageFactor :=
    match s with
    | buy => 1 + slippagePercent / 100
    | sell => 1 - slippagePercent / 100
    end in
  {| orderId := order; exec_actualPrice := basePrice * slippageFactor |}.

Definition contextOf (params : TradeParams) (expected : Q) (time : Z)
  : TradeExecutionContext :=
  {| ctx_symbol := param_symbol params; ctx_side := param_side params;
     ctx_quantity := param_quantity params; ctx_expectedPrice := expected;
     ctx_timestamp := time; ctx_userId := Some (param_userId params);
     ctx_orderId := None |}.

Definition executeTrade (env : TradeEnvironment) (params : TradeParams) : M TradeResult :=
  let currentPrice := env_currentPrice env in
  let expected := Js.orElse (param_expectedPrice params) currentPrice in
  history <~ gets historicalSlippage ;;
  estimation <~ lift (Calculator.estimateSlippage history (env_estimationMarket env)
                        {| est_symbol := param_symbol params;
                           est_side := param_side params;
                           est_quantity := param_quantity params;
                           est_expectedPrice := Some expected |} None) ;;
  validation <~ Protection.validateTradeExecution (env_validationMarket env)
                  (contextOf params expected (env_validationTime env)) None ;;
  if negb (allowed validation) then
    ret (TradeRejected (reason validation) (estimatedSlippage validation)
           (maxAllowedSlippage validation) (recommendation estimation))
  else
    let executionResult := env_order env in
    slippageReport <~ Protection.recordSlippage (env_recordTime env)
                        (contextOf params expected (env_recordContextTime env))
                        (exec_actualPrice executionResult) ;;
    let totalExecutionTime := (env_executionEnd env - env_executionStart env)%Z in
    ret (TradeExecuted (orderId executionResult) (exec_actualPrice executionResult)
           totalExecutionTime slippageReport
           (estimatedSlippagePercent estimation) (slippagePercent slippageReport)).

(** [enableDynamic] defaults to [true]. *)
Definition configureUserSlippagePreferences (now : Z) (user : string)
    (level : SlippageToleranceLevel) (enableDynamic : option bool) : M unit :=
  let config :=
    {| maxSlippagePercent := Calculator.getToleranceForLevel level;
       toleranceLevel := Some level;
       enableDynamicSlippage := Some (default true enableDynamic);
       maxExecutionTimeMs := Some 5000 |} in
  Protection.setUserPreferences now user config None.

Definition setSymbolSlippageLimit (now : Z) (user sym : string) (maxPercent : Q) : M unit :=
  let config :=
    {| maxSlippagePercent := maxPercent;
       toleranceLevel := None;
       enableDynamicSlippage := Some true;
       maxExecutionTimeMs := Some 5000 |} in
  Protection.setSymbolOverride now user sym config.

End TradingService.

(** One round of the search of [shouldSplitOrder]: the number of its
    estimation, the size it tries and whether the estimate of that size was
    within the threshold. *)
Record SearchRound : Type := {
  round_estimation : nat;
  round_size : Q;
  round_passed : bool
}.

(** The rounds of the [while] loop of [shouldSplitOrder], in order: the
    loop of [Trading.searchChunkSize], writing down each midpoint it tries.
    The list ends where the loop ends, and where an estimation does not
    return. *)
Fixpoint searchRounds (history : gmap string HistoricalSlippage)
    (feed : nat -> MarketData) (sym : string) (s : Side)
    (totalQuantity maxPercent : Q) (fuel : nat) (k : nat) (low high : Q)
  : list SearchRound :=
  if Js.greater (high - low) (totalQuantity * 0.05) then
    match fuel with
    | O => []
    | S fuel' =>
        let mid := (low + high) / 2 in
        match Calculator.estimateSlippage history (feed k)
                (Trading.requestFor sym s mid) None with
        | Returns estimate =>
            if Js.lessEq (estimatedSlippagePercent estimate) maxPercent
            then {| round_estimation := k; round_size := mid; round_passed := true |}
                 :: searchRounds history feed sym s totalQuantity maxPercent fuel'
                      (S k) mid high
            else {| round_estimation := k; round_size := mid; round_passed := false |}
                 :: searchRounds history feed sym s totalQuantity maxPercent fuel'
                      (S k) low mid
        | _ => []
        end
    end
  else [].

(** A round whose size is between [low] and [high] and whose verdict is
    that of the estimate of its size. *)
Definition roundWithin (history : gmap string HistoricalSlippage)
    (feed : nat -> MarketData) (sym : string) (s : Side) (maxPercent low high : Q)
    (r : SearchRound) : Prop :=
  low < round_size r < high
  /\ exists est,
       Calculator.estimateSlippage history (feed (round_estimation r))
         (Trading.requestFor sym s (round_size r)) None = Returns est
       /\ round_passed r = Js.lessEq (estimatedSlippagePercent est) maxPercent.

(** [chunk] is the largest size that passed: every size that passed is at
    most [chunk], every size that did not is above it. *)
Definition largestPassing (chunk : Q) (rounds : list SearchRound) : Prop :=
  Exists (fun r => round_size r = chunk /\ round_passed r = true) rounds
  /\ Forall (fun r => if round_passed r then round_size r <= chunk
                      else chunk < round_size r) rounds.

(** A market for the examples with five units at the best price. *)
Definition deepMarket : MarketData :=
  {| getCurrentMarketPrice := 45000;
     getMarketDepth :=
       {| bids := [{| price := 44990; order_quantity := 5 |}];
          asks := [{| price := 45000; order_quantity := 5 |}];
          depth_timestamp := 0 |} |}.

(** The surroundings of one trade for the examples: the placeholder price
    source and exchange of the trading service, the random draw being one
    half. *)
Definition sampleEnvironment : TradingService.TradeEnvironment :=
  {| TradingService.env_executionStart := 0;
     TradingService.env_currentPrice := TradingService.getCurrentMarketPrice;
     TradingService.env_estimationMarket := deepMarket;
     TradingService.env_validationTime := 1;
     TradingService.env_validationMarket := deepMarket;
     TradingService.env_order := TradingService.executeMarketOrder (1 # 2) "ORD-1" buy;
     TradingService.env_recordContextTime := 2;
     TradingService.env_recordTime := 3;
     TradingService.env_executionEnd := 4 |}.

Definition sampleParams : TradingService.TradeParams :=
  {| TradingService.param_userId := "user123";
     TradingService.param_symbol := "BTC/USD";
     TradingService.param_side := buy;
     TradingService.param_quantity := 1;
     TradingService.param_expectedPrice := None |}.

(** The time of the latest update of a symbol in a sequence of updates. *)
Definition latestUpdate (sym : string) (us : list History.Update) : option Z :=
  last (History.upd_now <$>
          List.filter (fun u => String.eqb (History.upd_symbol u) sym) us).

(** * Properties *)

(** ** Comparisons *)

Lemma less_true (a b : Q) : Js.less a b = true <-> a < b.
Proof.
  unfold Js.less. rewrite negb_true_iff, <- not_true_iff_false, Qle_bool_iff.
  split; [apply Qnot_le_lt | apply Qlt_not_le].
Qed.

Lemma less_false (a b : Q) : Js.less a b = false <-> b <= a.
Proof. unfold Js.less. rewrite negb_false_iff. apply Qle_bool_iff. Qed.

Lemma lessEq_true (a b : Q) : Js.lessEq a b = true <-> a <= b.
Proof. apply Qle_bool_iff. Qed.

Lemma lessEq_false (a b : Q) : Js.lessEq a b = false <-> b < a.
Proof.
  unfold Js.lessEq. rewrite <- not_true_iff_false, Qle_bool_iff.
  split; [apply Qnot_le_lt | apply Qlt_not_le].
Qed.

Lemma greater_true (a b : Q) : Js.greater a b = true <-> b < a.
Proof. apply less_true. Qed.

Lemma greater_false (a b : Q) : Js.greater a b = false <-> a <= b.
Proof. apply less_false. Qed.

Lemma truthy_true (x : Q) : Js.truthy x = true <-> ~ x == 0.
Proof.
  unfold Js.truthy. rewrite negb_true_iff, <- not_true_iff_false, Qeq_bool_iff.
  reflexivity.
Qed.

Lemma div_returns (a b : Q) : ~ b == 0 -> Js.div a b = Returns (a / b).
Proof.
  intros Hb. unfold Js.div.
  destruct (Qeq_bool b 0) eqn:E; [| reflexivity].
  apply Qeq_bool_iff in E. contradiction.
Qed.

Lemma div_never_throws (a b : Q) (e : Exception) : Js.div a b <> Throws e.
Proof. unfold Js.div. destruct (Qeq_bool b 0); discriminate. Qed.

(** ** The dynamic tolerance *)

Section DynamicTolerance.
Import Calculator.
Variables base liquidity volatility : Q.

Lemma dynamic_tolerance_capped :
  calculateDynamicTolerance base liquidity volatility <= base * 3.
Proof. unfold calculateDynamicTolerance. apply Q.le_min_r. Qed.

Lemma adjustments_nonnegative :
  0 <= (if Js.less liquidity 0.5 then 1 - liquidity else 0)
       + (if Js.greater volatility 2.0 then volatility / 10 else 0).
Proof.
  destruct (Js.less liquidity 0.5) eqn:L; destruct (Js.greater volatility 2.0) eqn:V;
    try apply less_true in L; try apply greater_true in V;
    try (assert (volatility / 10 == volatility * (1 # 10)) as -> by (unfold Qdiv; reflexivity));
    lra.
Qed.

Lemma dynamic_tolerance_at_least_base :
  0 <= base -> base <= calculateDynamicTolerance base liquidity volatility.
Proof.
  intros Hb. unfold calculateDynamicTolerance.
  pose proof adjustments_nonnegative as Ha. cbv zeta.
  set (la := if Js.less liquidity 0.5 then _ else _) in *.
  set (va := if Js.greater volatility 2.0 then _ else _) in *.
  apply Q.min_glb; [| lra].
  assert (0 <= base * (la + va)) by (apply Qmult_le_0_compat; lra).
  lra.
Qed.

Lemma dynamic_tolerance_calm :
  0 <= base -> 0.5 <= liquidity -> volatility <= 2.0 ->
  calculateDynamicTolerance base liquidity volatility == base.
Proof.
  intros Hb Hl Hv. unfold calculateDynamicTolerance.
  apply less_false in Hl. apply greater_false in Hv. rewrite Hl, Hv.
  rewrite Q.min_l; lra.
Qed.
End DynamicTolerance.

(** C7 (as stated, refuted).  With a negative base tolerance the result is
    three times the base, which is below the base and differs from it, also
    when the liquidity is at least 0.5 and the volatility at most 2. *)
Lemma dynamic_tolerance_negative_base :
  ~ (forall base liquidity volatility : Q,
        Calculator.calculateDynamicTolerance base liquidity volatility <= base * 3
        /\ (0.5 <= liquidity -> volatility <= 2.0 ->
            Calculator.calculateDynamicTolerance base liquidity volatility == base)
        /\ base <= Calculator.calculateDynamicTolerance base liquidity volatility).
Proof.
  intros H. destruct (H (-1) 0.9 1) as (_ & _ & Hge).
  vm_compute in Hge. apply Hge. reflexivity.
Qed.

(** C7 (amended).  The dynamic tolerance is at most three times the base
    for all inputs; when the base is not negative it is never below the
    base, and it equals the base whenever the liquidity is at least 0.5 and
    the volatility at most 2. *)
Theorem dynamic_tolerance_bounds (base liquidity volatility : Q) :
  Calculator.calculateDynamicTolerance base liquidity volatility <= base * 3
  /\ (0 <= base ->
      base <= Calculator.calculateDynamicTolerance base liquidity volatility
      /\ (0.5 <= liquidity -> volatility <= 2.0 ->
          Calculator.calculateDynamicTolerance base liquidity volatility == base)).
Proof.
  split; [apply dynamic_tolerance_capped |].
  intros Hb. split; [by apply dynamic_tolerance_at_least_base |].
  by apply dynamic_tolerance_calm.
Qed.

Lemma dynamic_tolerance_bounds_witness :
  Calculator.calculateDynamicTolerance 0.5 0.9 0.5 == 0.5.
Proof.
  destruct (dynamic_tolerance_bounds 0.5 0.9 0.5) as [_ H].
  destruct H as [_ H]; [vm_compute; discriminate |].
  apply H; vm_compute; discriminate.
Defined.

(** ** Prices that are not positive *)

Section NoRejection.
Import Calculator.

Lemma liquidity_never_throws depth qty s e :
  calculateLiquidityScore depth qty s <> Throws e.
Proof.
  unfold calculateLiquidityScore. cbv zeta.
  destruct (Js.div _ qty) eqn:E; simpl; try discriminate.
  by apply div_never_throws in E.
Qed.

Lemma liquidity_returns depth qty s :
  ~ qty == 0 -> exists score, calculateLiquidityScore depth qty s = Returns score.
Proof.
  intros Hq. unfold calculateLiquidityScore. cbv zeta.
  rewrite div_returns by done. simpl. eauto.
Qed.

Lemma actual_slippage_never_throws expected actual qty e :
  calculateActualSlippage expected actual qty <> Throws e.
Proof.
  unfold calculateActualSlippage. cbv zeta.
  destruct (Js.div _ expected) eqn:E; simpl; try discriminate.
  by apply div_never_throws in E.
Qed.

Lemma estimate_never_throws history market dto marketDepth e :
  estimateSlippage history market dto marketDepth <> Throws e.
Proof.
  unfold estimateSlippage. cbv zeta.
  destruct (Js.div _ (referencePrice dto market)) eqn:E; simpl; try discriminate.
  - destruct (calculateLiquidityScore _ _ _) eqn:L; simpl; try discriminate.
    + by destruct (generateRecommendation _ _ _).
    + by apply liquidity_never_throws in L.
  - by apply div_never_throws in E.
Qed.

(** What an estimation returns once its two divisors are not zero. *)
Lemma estimate_returns history market dto marketDepth :
  ~ referencePrice dto market == 0 -> ~ est_quantity dto == 0 ->
  let depth := default (getMarketDepth market) marketDepth in
  let executionPrice :=
    calculateExecutionPrice (est_quantity dto) (est_side dto) depth in
  let amount := Qabs (executionPrice - referencePrice dto market) in
  let percent := amount / referencePrice dto market * 100 in
  exists est liquidity,
    estimateSlippage history market dto marketDepth = Returns est
    /\ calculateLiquidityScore depth (est_quantity dto) (est_side dto) = Returns liquidity
    /\ estimatedSlippageAmount est = amount
    /\ estimatedSlippagePercent est = percent
    /\ liquidityScore est = liquidity
    /\ recommendation est
       = fst (generateRecommendation percent liquidity (history !! est_symbol dto)).
Proof.
  intros Hp Hq depth executionPrice amount percent.
  destruct (liquidity_returns depth (est_quantity dto) (est_side dto) Hq) as [liq Hliq].
  unfold estimateSlippage. cbv zeta.
  assert (match marketDepth with Some d => d | None => getMarketDepth market end = depth)
    as -> by (by destruct marketDepth).
  rewrite div_returns by done. cbn [Js.bind]. rewrite Hliq. cbn [Js.bind].
  fold executionPrice. fold amount. fold percent.
  destruct (generateRecommendation _ _ _) as [rec why] eqn:G.
  eexists _, liq. split; [reflexivity |].
  cbn [estimatedSlippageAmount estimatedSlippagePercent liquidityScore recommendation].
  by rewrite G.
Qed.

Lemma percent_not_positive (amount ref : Q) :
  0 <= amount -> ref < 0 -> amount / ref * 100 <= 0.
Proof.
  intros Ha Hr.
  assert (0 < - ref) as Hpos by lra.
  assert (amount / ref == - (amount / - ref)) as ->.
  { field. lra. }
  assert (0 <= amount / - ref) by (apply Qle_shift_div_l; lra).
  lra.
Qed.
End NoRejection.

(** C2 (as stated, refuted).  An expected price of -100 is not rejected:
    [calculateActualSlippage] returns a result, of -10 percent, and the
    estimation of a purchase at that expected price returns an estimate. *)
Lemma negative_price_returns_a_result :
  let market := {| getCurrentMarketPrice := 45000;
                   getMarketDepth :=
                     {| bids := []; asks := [{| price := 100; order_quantity := 5 |}];
                        depth_timestamp := 0 |} |} in
  let dto := {| est_symbol := "BTC/USD"; est_side := buy; est_quantity := 1;
                est_expectedPrice := Some (-100) |} in
  (exists r, Calculator.calculateActualSlippage (-100) (-90) 1 = Returns r
             /\ Calculator.act_slippagePercent r == -10)
  /\ Calculator.referencePrice dto market <= 0
  /\ exists est, Calculator.estimateSlippage ∅ market dto None = Returns est
                 /\ estimatedSlippagePercent est == -200.
Proof.
  cbv zeta. split; [| split].
  - eexists. split; [vm_compute; reflexivity | vm_compute; reflexivity].
  - vm_compute. discriminate.
  - eexists. split; [vm_compute; reflexivity | vm_compute; reflexivity].
Qed.

(** C2 (amended).  No call of [calculateActualSlippage] or of
    [estimateSlippage] is rejected, whatever the prices.  With a negative
    expected price [calculateActualSlippage] returns the result of its
    formulas, and with a negative reference price
    ([expectedPrice || currentPrice]) and a quantity that is not zero
    [estimateSlippage] returns an estimate by its formulas; the slippage
    percent is then at most 0. *)
Theorem non_positive_price_not_rejected :
  (forall expected actual qty e,
      Calculator.calculateActualSlippage expected actual qty <> Throws e)
  /\ (forall history market dto marketDepth e,
      Calculator.estimateSlippage history market dto marketDepth <> Throws e)
  /\ (forall expected actual qty, expected < 0 ->
      exists r, Calculator.calculateActualSlippage expected actual qty = Returns r
        /\ Calculator.act_slippageAmount r = Qabs (actual - expected)
        /\ Calculator.act_slippagePercent r = Qabs (actual - expected) / expected * 100
        /\ Calculator.act_totalCost r = Qabs (actual - expected) * qty
        /\ Calculator.act_slippagePercent r <= 0)
  /\ (forall history market dto marketDepth,
      Calculator.referencePrice dto market < 0 -> ~ est_quantity dto == 0 ->
      exists est, Calculator.estimateSlippage history market dto marketDepth = Returns est
        /\ estimatedSlippageAmount est
           = Qabs (Calculator.calculateExecutionPrice (est_quantity dto) (est_side dto)
                     (default (getMarketDepth market) marketDepth)
                   - Calculator.referencePrice dto market)
        /\ estimatedSlippagePercent est
           = estimatedSlippageAmount est / Calculator.referencePrice dto market * 100
        /\ estimatedSlippagePercent est <= 0).
Proof.
  split; [| split; [| split]].
  - intros. apply actual_slippage_never_throws.
  - intros. apply estimate_never_throws.
  - intros expected actual qty Hneg.
    unfold Calculator.calculateActualSlippage. cbv zeta.
    rewrite div_returns by lra. cbn [Js.bind].
    eexists. split; [reflexivity |].
    cbn [Calculator.act_slippageAmount Calculator.act_slippagePercent Calculator.act_totalCost].
    repeat split.
    apply percent_not_positive; [apply Qabs_nonneg | done].
  - intros history market dto marketDepth Hneg Hq.
    destruct (estimate_returns history market dto marketDepth) as
      (est & liq & Hest & _ & Ha & Hp & _); [lra | done |].
    exists est. rewrite Ha, Hp. repeat split; [done |].
    apply percent_not_positive; [apply Qabs_nonneg | done].
Qed.

Lemma non_positive_price_not_rejected_witness :
  exists r, Calculator.calculateActualSlippage (-100) (-90) 1 = Returns r
            /\ Calculator.act_slippagePercent r <= 0.
Proof.
  destruct non_positive_price_not_rejected as (_ & _ & H & _).
  destruct (H (-100) (-90) 1) as (r & Hr & _ & _ & _ & Hle); [vm_compute; reflexivity |].
  exists r. split; [exact Hr | exact Hle].
Defined.

(** ** An empty side of the book *)

Section EmptySide.
Import Calculator.

Lemma execution_price_empty_side qty s depth :
  sideOrders s depth = [] -> calculateExecutionPrice qty s depth = 0.
Proof.
  intros He. unfold calculateExecutionPrice. rewrite He. simpl.
  unfold fillRemainder. simpl. by destruct (Js.greater qty 0).
Qed.

Lemma recommendation_delay_above_two percent liquidity historical :
  2.0 < percent -> fst (generateRecommendation percent liquidity historical) = delay.
Proof.
  intros Hp. unfold generateRecommendation. cbv zeta.
  apply greater_true in Hp. by rewrite Hp.
Qed.
End EmptySide.

(** C9.  An estimation with a positive quantity and a positive reference
    price, on a book whose side opposite to the trade is empty: the
    projected execution price is 0, the estimated slippage percent equals
    100 and the recommendation is [delay]. *)
Theorem empty_side_estimate history market dto marketDepth :
  0 < est_quantity dto ->
  0 < Calculator.referencePrice dto market ->
  Calculator.sideOrders (est_side dto) (default (getMarketDepth market) marketDepth) = [] ->
  Calculator.calculateExecutionPrice (est_quantity dto) (est_side dto)
    (default (getMarketDepth market) marketDepth) = 0
  /\ exists est, Calculator.estimateSlippage history market dto marketDepth = Returns est
       /\ estimatedSlippagePercent est == 100
       /\ recommendation est = delay.
Proof.
  intros Hq Hp He.
  pose proof (execution_price_empty_side (est_quantity dto) _ _ He) as Hx.
  split; [done |].
  destruct (estimate_returns history market dto marketDepth) as
    (est & liq & Hest & _ & _ & Hpc & _ & Hrec); [lra | lra |].
  rewrite Hx in Hpc.
  assert (estimatedSlippagePercent est == 100) as H100.
  { rewrite Hpc.
    assert (Qabs (0 - Calculator.referencePrice dto market)
            == Calculator.referencePrice dto market) as ->.
    { rewrite Qabs_neg by lra. ring. }
    field. lra. }
  exists est. split; [done |]. split; [done |].
  rewrite Hrec. apply recommendation_delay_above_two.
  rewrite Hx, <- Hpc, H100. reflexivity.
Qed.

Lemma empty_side_estimate_witness :
  exists est,
    Calculator.estimateSlippage ∅
      {| getCurrentMarketPrice := 45000;
         getMarketDepth := {| bids := []; asks := []; depth_timestamp := 0 |} |}
      {| est_symbol := "BTC/USD"; est_side := sell; est_quantity := 1;
         est_expectedPrice := Some 100 |}
      (Some {| bids := []; asks := [{| price := 100; order_quantity := 5 |}];
               depth_timestamp := 0 |}) = Returns est
    /\ estimatedSlippagePercent est == 100
    /\ recommendation est = delay.
Proof.
  refine (proj2 (empty_side_estimate ∅ _ _ _ _ _ _)); reflexivity.
Defined.

(** ** The projected execution price *)

Section ExecutionPrice.
Import Calculator.



Lemma fill_conserves_quantity orders : forall st,
  executedQuantity (fillOrders orders st) + remainingQuantity (fillOrders orders st)
  == executedQuantity st + remainingQuantity st.
Proof.
  induction orders as [| order rest IH]; intros st; [done |].
  simpl. destruct (Js.lessEq (remainingQuantity st) 0); [done |].
  rewrite IH. cbn [remainingQuantity executedQuantity]. ring.
Qed.


End ExecutionPrice.



(** ** The running statistics of a symbol *)

Section RunningAverage.
Import Calculator History.

Lemma total_snoc vs v : total (vs ++ [v]) == total vs + v.
Proof.
  unfold total. induction vs as [| x vs IH]; simpl; [ring |]. rewrite IH. ring.
Qed.

Lemma greatest_snoc m vs v : greatest m vs -> greatest (Qmax m v) (vs ++ [v]).
Proof.
  intros [Hin Hall]. split.
  - apply in_or_app.
    unfold Qmax, GenericMinMax.gmax.
    destruct (m ?= v); [by left | right; by left | by left].
  - apply Forall_app. split.
    + eapply Forall_impl; [exact Hall |]. intros x Hx. cbv beta in Hx.
      pose proof (Q.le_max_l m v). lra.
    + constructor; [apply Q.le_max_r | constructor].
Qed.

Lemma update_same now sym v history vs :
  tracks (history !! sym) vs ->
  tracks (updateHistoricalSlippage now sym v history !! sym) (vs ++ [v]).
Proof.
  unfold updateHistoricalSlippage, tracks.
  destruct (history !! sym) as [h |] eqn:E; rewrite lookup_insert_eq.
  - intros (Hne & Hcount & Havg & Hmax).
    cbn [sampleCount averageSlippage maxSlippage].
    split; [by destruct vs |].
    split; [rewrite length_app; simpl; lia |].
    split; [| by apply greatest_snoc].
    rewrite total_snoc, <- Havg.
    assert (0 < inject_Z (sampleCount h + 1)) as Hpos.
    { rewrite Hcount. change 0 with (inject_Z 0). rewrite <- Zlt_Qlt. lia. }
    field. lra.
  - intros ->. cbn [sampleCount averageSlippage maxSlippage app length].
    split; [done |]. split; [done |].
    split; [unfold total; simpl; ring |].
    split; [by left | constructor; [lra | constructor]].
Qed.

Lemma update_other now sym sym' v history :
  sym' <> sym -> updateHistoricalSlippage now sym' v history !! sym = history !! sym.
Proof.
  intros Hne. unfold updateHistoricalSlippage.
  destruct (history !! sym'); by rewrite lookup_insert_ne.
Qed.

Lemma update_counts_positive now sym v history :
  map_Forall (fun _ h => (1 <= sampleCount h)%Z) history ->
  map_Forall (fun _ h => (1 <= sampleCount h)%Z)
    (updateHistoricalSlippage now sym v history).
Proof.
  intros Hall. unfold updateHistoricalSlippage.
  destruct (history !! sym) as [h |] eqn:E; apply map_Forall_insert_2; try done.
  cbn [sampleCount]. apply Hall in E. cbv beta in E. lia.
Qed.

Lemma applyAll_tracks sym us : forall history vs,
  tracks (history !! sym) vs ->
  tracks (applyAll history us !! sym) (vs ++ valuesFor sym us).
Proof.
  induction us as [| u us IH]; intros history vs Ht.
  - unfold valuesFor. simpl. by rewrite app_nil_r.
  - unfold applyAll. simpl. fold (applyAll (applyUpdate history u) us).
    unfold valuesFor. simpl.
    destruct (String.eqb (upd_symbol u) sym) eqn:E.
    + apply String.eqb_eq in E. simpl.
      rewrite (cons_middle (upd_value u)), app_assoc.
      apply IH. unfold applyUpdate. rewrite E. by apply update_same.
    + apply String.eqb_neq in E.
      apply IH. unfold applyUpdate. by rewrite update_other.
Qed.
End RunningAverage.

(** ** The running statistics of a symbol in the numbers of the code *)

Section Recurrences.
Context {N : Type} (add mul div : N -> N -> N) (ofZ : Z -> N).

Lemma runningAverageFrom_snoc vs : forall (a : N) (k : Z) (v : N),
  runningAverageFromWith add mul div ofZ a k (vs ++ [v])
  = div (add (mul (runningAverageFromWith add mul div ofZ a k vs)
                (ofZ (k + Z.of_nat (length vs)))) v)
      (ofZ (k + Z.of_nat (length vs) + 1)).
Proof.
  induction vs as [| x vs IH]; intros a k v; cbn [app runningAverageFromWith length].
  - by replace (k + Z.of_nat 0)%Z with k by lia.
  - rewrite IH. by replace (k + 1 + Z.of_nat (length vs))%Z
                   with (k + Z.of_nat (S (length vs)))%Z by lia.
Qed.
End Recurrences.

Section ExactAverage.
Import History.

Lemma exact_average_from vs : forall (a : Q) (k : Z),
  (0 < k)%Z ->
  runningAverageFromWith Qplus Qmult Qdiv inject_Z a k vs
  * inject_Z (k + Z.of_nat (length vs))
  == a * inject_Z k + total vs.
Proof.
  induction vs as [| v vs IH]; intros a k Hk;
    cbn [runningAverageFromWith length]; unfold total in *; cbn [foldr].
  - replace (k + Z.of_nat 0)%Z with k by lia. ring.
  - replace (k + Z.of_nat (S (length vs)))%Z with (k + 1 + Z.of_nat (length vs))%Z by lia.
    rewrite IH by lia.
    assert (~ inject_Z (k + 1) == 0) as Hnz.
    { change 0 with (inject_Z 0). rewrite inject_Z_injective. lia. }
    set (t := foldr Qplus 0 vs). field. exact Hnz.
Qed.

Lemma exact_average_is_mean (vs : list Q) :
  vs <> [] -> exists a, exactRunningAverage vs = Some a /\ a == mean vs.
Proof.
  destruct vs as [| v rest]; [done |]. intros _.
  eexists. split; [reflexivity |].
  pose proof (exact_average_from rest v 1 ltac:(lia)) as H.
  unfold mean. cbn [length].
  replace (Z.of_nat (S (length rest))) with (1 + Z.of_nat (length rest))%Z by lia.
  assert (0 < inject_Z (1 + Z.of_nat (length rest))) as Hpos.
  { change 0 with (inject_Z 0). rewrite <- Zlt_Qlt. lia. }
  apply (Qmult_inj_r _ _ (inject_Z (1 + Z.of_nat (length rest)))); [lra |].
  rewrite H. unfold total. cbn [foldr]. change (inject_Z 1) with 1. field. lra.
Qed.
End ExactAverage.

Section DoubleAverage.
Import Double.

Lemma max_of_finite (x y : double) :
  finite x = true -> finite y = true ->
  (max x y = x \/ max x y = y)
  /\ value x <= value (max x y) /\ value y <= value (max x y).
Proof.
  intros Hx Hy.
  assert (forall a b, Qle_bool a b = false -> b < a) as Hgt.
  { intros a b H. apply Qnot_le_lt. intros Hle. apply Qle_bool_iff in Hle. congruence. }
  destruct x as [sx | | | sx mx ex], y as [sy | | | sy my ey]; try discriminate;
    cbv beta iota delta [max less];
    match goal with
    | |- context [Qle_bool (value ?b) (value ?a)] =>
        set (va := value a) in *; set (vb := value b) in *
    end;
    destruct (Qle_bool vb va) eqn:E1; destruct (Qle_bool va vb) eqn:E2;
    cbn [negb];
    try apply Qle_bool_iff in E1; try apply Qle_bool_iff in E2;
    try apply Hgt in E1; try apply Hgt in E2;
    try (destruct sx); fold va; fold vb;
    (split; [auto |]); split; lra.
Qed.

Lemma greatest_snoc_double m vs v :
  finite m = true -> finite v = true ->
  greatest m vs -> greatest (max m v) (vs ++ [v]).
Proof.
  intros Hm Hv [Hin Hall].
  destruct (max_of_finite m v Hm Hv) as (Hcase & Hle1 & Hle2). split.
  - apply in_or_app. destruct Hcase as [-> | ->]; [by left | right; by left].
  - apply Forall_app. split.
    + eapply Forall_impl; [exact Hall |]. intros x Hx. cbv beta in Hx. lra.
    + by constructor.
Qed.

Lemma update_same_double now sym v history vs :
  finite v = true -> Forall (fun x => finite x = true) vs ->
  tracks (history !! sym) vs ->
  tracks (updateHistoricalSlippage now sym v history !! sym) (vs ++ [v]).
Proof.
  intros Hv Hvs. unfold updateHistoricalSlippage, tracks.
  destruct (history !! sym) as [h |] eqn:E; rewrite lookup_insert_eq.
  - intros (Hne & Hcount & Hmax & Havg).
    cbn [sampleCount averageSlippage maxSlippage].
    split; [by destruct vs |].
    split; [rewrite length_app; simpl; lia |].
    split.
    + apply greatest_snoc_double; [| done | done].
      destruct Hmax as [Hin _]. rewrite Forall_forall in Hvs. apply Hvs.
      by apply list_elem_of_In.
    + destruct vs as [| v0 rest]; [done |].
      unfold runningAverage, runningAverageWith in *. cbn [app].
      injection Havg as Havg. rewrite runningAverageFrom_snoc, <- Havg, Hcount.
      cbn [length].
      by replace (Z.of_nat (S (length rest))) with (1 + Z.of_nat (length rest))%Z by lia.
  - intros ->. cbn [app sampleCount averageSlippage maxSlippage length].
    split; [done |]. split; [done |]. split; [| done].
    split; [by left |]. constructor; [apply Qle_refl | constructor].
Qed.

Lemma update_other_double now sym sym' v history :
  sym' <> sym -> updateHistoricalSlippage now sym' v history !! sym = history !! sym.
Proof.
  intros Hne. unfold updateHistoricalSlippage.
  destruct (history !! sym'); by rewrite lookup_insert_ne.
Qed.

Lemma applyAll_tracks_double sym us : forall history vs,
  Forall (fun x => finite x = true) (vs ++ valuesFor sym us) ->
  tracks (history !! sym) vs ->
  tracks (applyAll history us !! sym) (vs ++ valuesFor sym us).
Proof.
  induction us as [| u us IH]; intros history vs Hfin Ht.
  - unfold valuesFor. simpl. by rewrite app_nil_r.
  - unfold applyAll. simpl. fold (applyAll (applyUpdate history u) us).
    unfold valuesFor in *. cbn [List.filter] in *.
    destruct (String.eqb (upd_symbol u) sym) eqn:E.
    + apply String.eqb_eq in E. cbn [fmap list_fmap] in *.
      rewrite (cons_middle (upd_value u)), app_assoc in Hfin |- *.
      apply IH; [done |]. unfold applyUpdate. rewrite E.
      apply Forall_app in Hfin as [Hfin _]. apply Forall_app in Hfin as [Hvs Hv].
      apply update_same_double; [by inversion Hv | done | done].
    + apply String.eqb_neq in E.
      apply IH; [done |]. unfold applyUpdate. by rewrite update_other_double.
Qed.
End DoubleAverage.

(** C5.  Starting from no record for a symbol, after any sequence of
    [updateHistoricalSlippage] calls of which N >= 1 are for that symbol,
    with the finite values v1..vN, the symbol's record has N as its sample
    count and the greatest of v1..vN as its maximum, and its average is
    the value of the recurrence a1 = v1, a(k+1) = (a(k) * k + v(k+1)) / (k+1),
    each operation rounded as the doubles of the code round it.  In exact
    arithmetic this recurrence gives the arithmetic mean of v1..vN. *)
Theorem running_average (sym : string) (history : gmap string Double.HistoricalSlippage)
    (us : list Double.Update) :
  history !! sym = None ->
  Forall (fun v => Double.finite v = true) (Double.valuesFor sym us) ->
  Double.valuesFor sym us <> [] ->
  (exists h,
     Double.applyAll history us !! sym = Some h
     /\ Double.sampleCount h = Z.of_nat (length (Double.valuesFor sym us))
     /\ Double.greatest (Double.maxSlippage h) (Double.valuesFor sym us)
     /\ Some (Double.averageSlippage h)
        = Double.runningAverage (Double.valuesFor sym us))
  /\ (forall vs : list Q,
        vs <> [] -> exists a, exactRunningAverage vs = Some a /\ a == History.mean vs).
Proof.
  intros Hnone Hfin Hne. split; [| apply exact_average_is_mean].
  pose proof (applyAll_tracks_double sym us history []) as Ht.
  rewrite Hnone, app_nil_l in Ht. specialize (Ht Hfin eq_refl).
  unfold Double.tracks in Ht.
  destruct (Double.applyAll history us !! sym) as [h |]; [| done].
  destruct Ht as (_ & Hcount & Hmax & Havg).
  by exists h.
Qed.

(** Three updates of 0.1: the average the code computes is
    0.10000000000000002, which is not the mean of the three values and
    exceeds the maximum. *)
Lemma running_average_rounds :
  let us := [Double.sample 1 "BTC/USD" 0.1; Double.sample 2 "BTC/USD" 0.1;
             Double.sample 3 "BTC/USD" 0.1] in
  exists h,
    Double.applyAll ∅ us !! "BTC/USD"%string = Some h
    /\ Double.upd_value <$> us
       = [SpecFloat.S754_finite false 7205759403792794 (-56);
          SpecFloat.S754_finite false 7205759403792794 (-56);
          SpecFloat.S754_finite false 7205759403792794 (-56)]
    /\ Double.averageSlippage h = SpecFloat.S754_finite false 7205759403792795 (-56)
    /\ ~ Double.value (Double.averageSlippage h)
         == History.mean (Double.value <$> Double.valuesFor "BTC/USD" us)
    /\ Double.value (Double.maxSlippage h) < Double.value (Double.averageSlippage h).
Proof.
  eexists. split; [vm_compute; reflexivity |].
  split; [vm_compute; reflexivity |].
  split; [vm_compute; reflexivity |].
  split; [vm_compute; discriminate | vm_compute; reflexivity].
Qed.

Lemma running_average_witness :
  exists h,
    Double.applyAll ∅
      [Double.sample 1 "BTC/USD" 0.2; Double.sample 2 "ETH/USD" 0.6;
       Double.sample 3 "BTC/USD" 0.4; Double.sample 4 "BTC/USD" 0.3]
      !! "BTC/USD"%string = Some h
    /\ Double.sampleCount h = 3%Z
    /\ Double.maxSlippage h = Double.ofQ 0.4.
Proof.
  destruct (running_average "BTC/USD" ∅
    [Double.sample 1 "BTC/USD" 0.2; Double.sample 2 "ETH/USD" 0.6;
     Double.sample 3 "BTC/USD" 0.4; Double.sample 4 "BTC/USD" 0.3])
    as [(h & Hh & Hcount & Hmax & _) _].
  - reflexivity.
  - repeat constructor.
  - discriminate.
  - exists h. split; [exact Hh |]. split; [exact Hcount |].
    vm_compute in Hh. injection Hh as <-. vm_compute. reflexivity.
Defined.

(** ** The report log *)

Section ReportLog.
Import Protection.

Lemma arrayAt_insert (s : State) (a : loc) xs :
  (a < length (heap s))%nat -> arrayAt a (setHeap (<[a := xs]> (heap s)) s) = xs.
Proof.
  intros Ha. unfold arrayAt. cbn [heap setHeap].
  by rewrite list_lookup_insert_eq.
Qed.

Lemma lastN_all {A} (n : nat) (l : list A) : (length l <= n)%nat -> lastN n l = l.
Proof. intros H. unfold lastN. by replace (length l - n)%nat with 0%nat by lia. Qed.

Lemma lastN_length {A} (n : nat) (l : list A) : (length (lastN n l) <= n)%nat.
Proof. unfold lastN. rewrite length_drop. lia. Qed.

Lemma lastN_snoc {A} (n : nat) (l : list A) (x : A) :
  lastN n (lastN n l ++ [x]) = lastN n (l ++ [x]).
Proof.
  destruct (decide (length l <= n)%nat) as [Hle | Hgt].
  - by rewrite (lastN_all n l).
  - unfold lastN. rewrite !length_app, length_drop. simpl.
    rewrite !drop_app, drop_drop, length_drop.
    f_equal; f_equal; lia.
Qed.

(** [storeReport] leaves the most recent [MAX_REPORTS_IN_MEMORY] reports
    in the log array and touches nothing else. *)
Lemma storeReport_spec (s : State) (r : SlippageReportDto) :
  wellFormed s ->
  storeReport r s
  = (Returns tt,
     setHeap (<[slippageReports s := lastN MAX_REPORTS_IN_MEMORY (reportLog s ++ [r])]>
                (heap s)) s).
Proof.
  intros Hwf. unfold storeReport, bindM, gets, ret.
  unfold JsArray.push, JsArray.length, JsArray.splice, JsArray.read, JsArray.write,
    bindM, gets, modify, ret.
  cbn [slippageReports setHeap heap].
  fold (reportLog s).
  set (s1 := setHeap (<[slippageReports s := reportLog s ++ [r]]> (heap s)) s).
  assert (arrayAt (slippageReports s) s1 = reportLog s ++ [r]) as Hs1
    by (by apply arrayAt_insert).
  rewrite Hs1.
  destruct (MAX_REPORTS_IN_MEMORY <? length (reportLog s ++ [r]))%nat eqn:E.
  - unfold s1. cbn [slippageReports setHeap heap].
    fold s1. rewrite Hs1. unfold setHeap. cbn [heap slippageReports].
    by rewrite list_insert_insert_eq.
  - apply Nat.ltb_ge in E. by rewrite lastN_all.
Qed.

Lemma storeReport_log (s : State) (r : SlippageReportDto) :
  wellFormed s ->
  exists s',
    storeReport r s = (Returns tt, s')
    /\ wellFormed s'
    /\ reportLog s' = lastN MAX_REPORTS_IN_MEMORY (reportLog s ++ [r]).
Proof.
  intros Hwf. rewrite storeReport_spec by done.
  eexists. split; [reflexivity |]. split.
  - unfold wellFormed. cbn [slippageReports heap setHeap]. by rewrite length_insert.
  - by apply arrayAt_insert.
Qed.

Lemma storeAll_spec reports : forall (s : State) (earlier : list SlippageReportDto),
  wellFormed s ->
  reportLog s = lastN MAX_REPORTS_IN_MEMORY earlier ->
  exists s',
    Recording.storeAll reports s = (Returns tt, s')
    /\ wellFormed s'
    /\ reportLog s' = lastN MAX_REPORTS_IN_MEMORY (earlier ++ reports).
Proof.
  induction reports as [| r reports IH]; intros s earlier Hwf Hlog.
  - exists s. rewrite app_nil_r. by repeat split.
  - destruct (storeReport_log s r Hwf) as (s1 & Hrun & Hwf1 & Hlog1).
    rewrite Hlog, lastN_snoc in Hlog1.
    destruct (IH s1 (earlier ++ [r]) Hwf1 Hlog1) as (s2 & Hrun2 & Hwf2 & Hlog2).
    exists s2. simpl. unfold bindM at 1. rewrite Hrun.
    split; [done |]. split; [done |]. by rewrite <- app_assoc in Hlog2.
Qed.

Lemma recordSlippage_spec (s : State) now context actual :
  wellFormed s -> ~ ctx_expectedPrice context == 0 ->
  exists r s',
    recordSlippage now context actual s = (Returns r, s')
    /\ wellFormed s'
    /\ reportLog s' = lastN MAX_REPORTS_IN_MEMORY (reportLog s ++ [r])
    /\ userPreferences s' = userPreferences s
    /\ timestamp r = now
    /\ actualPrice r = actual
    /\ expectedPrice r = ctx_expectedPrice context.
Proof.
  intros Hwf Hp. unfold recordSlippage.
  unfold Calculator.calculateActualSlippage. cbv zeta.
  rewrite div_returns by done. cbn [Js.bind].
  unfold bindM at 1. unfold lift at 1.
  unfold bindM at 1. unfold gets at 1.
  unfold bindM at 1. rewrite storeReport_spec by done.
  unfold bindM, modify, ret.
  eexists _, _. split; [reflexivity |].
  cbn [timestamp actualPrice expectedPrice userPreferences setHistoricalSlippage setHeap].
  split.
  { unfold wellFormed.
    cbn [slippageReports heap setHistoricalSlippage setHeap].
    by rewrite length_insert. }
  split; [| done].
  unfold reportLog at 1, arrayAt.
  cbn [slippageReports heap setHistoricalSlippage setHeap].
  by rewrite list_lookup_insert_eq.
Qed.

Lemma recordAll_spec calls : forall (s : State) (earlier : list SlippageReportDto),
  wellFormed s ->
  reportLog s = lastN MAX_REPORTS_IN_MEMORY earlier ->
  Forall (fun c => ~ ctx_expectedPrice (Recording.call_context c) == 0) calls ->
  exists reports s',
    Recording.recordAll calls s = (Returns reports, s')
    /\ wellFormed s'
    /\ length reports = length calls
    /\ reportLog s' = lastN MAX_REPORTS_IN_MEMORY (earlier ++ reports).
Proof.
  induction calls as [| c calls IH]; intros s earlier Hwf Hlog Hall.
  - exists [], s. rewrite app_nil_r. by repeat split.
  - inversion Hall as [| ? ? Hc Hrest]; subst.
    destruct (recordSlippage_spec s (Recording.call_now c) (Recording.call_context c)
                (Recording.call_price c) Hwf Hc)
      as (r & s1 & Hrun & Hwf1 & Hlog1 & _).
    rewrite Hlog, lastN_snoc in Hlog1.
    destruct (IH s1 (earlier ++ [r]) Hwf1 Hlog1 Hrest)
      as (rs & s2 & Hrun2 & Hwf2 & Hlen & Hlog2).
    exists (r :: rs), s2.
    simpl. unfold bindM at 1. rewrite Hrun. unfold bindM at 1. rewrite Hrun2.
    unfold ret. split; [done |]. split; [done |]. split; [simpl; lia |].
    by rewrite <- app_assoc in Hlog2.
Qed.
End ReportLog.

(** C3.  The log never holds more than [MAX_REPORTS_IN_MEMORY] = 1000
    reports.  From an empty log, after any sequence of reports stored by
    [storeReport], and after any sequence of [recordSlippage] calls
    (expected prices not zero), the log holds the most recent 1000 of the
    reports in the order they were made: of capacity + k reports the k
    oldest are gone. *)
Theorem report_log_bounded (s : State) :
  wellFormed s ->
  reportLog s = [] ->
  Protection.MAX_REPORTS_IN_MEMORY = 1000%nat
  /\ (forall reports : list SlippageReportDto,
      exists s',
        Recording.storeAll reports s = (Returns tt, s')
        /\ reportLog s' = drop (length reports - Protection.MAX_REPORTS_IN_MEMORY) reports
        /\ (length (reportLog s') <= Protection.MAX_REPORTS_IN_MEMORY)%nat)
  /\ (forall calls : list Recording.Call,
      Forall (fun c => ~ ctx_expectedPrice (Recording.call_context c) == 0) calls ->
      exists reports s',
        Recording.recordAll calls s = (Returns reports, s')
        /\ length reports = length calls
        /\ reportLog s' = drop (length reports - Protection.MAX_REPORTS_IN_MEMORY) reports
        /\ (length (reportLog s') <= Protection.MAX_REPORTS_IN_MEMORY)%nat).
Proof.
  intros Hwf Hlog. split; [reflexivity |]. split.
  - intros reports.
    destruct (storeAll_spec reports s [] Hwf) as (s' & Hrun & _ & Hlog');
      [by rewrite Hlog |].
    exists s'. rewrite app_nil_l in Hlog'.
    split; [done |]. split; [done |]. rewrite Hlog'. apply lastN_length.
  - intros calls Hall.
    destruct (recordAll_spec calls s [] Hwf) as (reports & s' & Hrun & _ & Hlen & Hlog');
      [by rewrite Hlog | done |].
    exists reports, s'. rewrite app_nil_l in Hlog'.
    split; [done |]. split; [done |]. split; [done |].
    rewrite Hlog'. apply lastN_length.
Qed.

Lemma report_log_bounded_witness :
  exists reports s',
    Recording.recordAll
      [ {| Recording.call_now := 1;
           Recording.call_context :=
             {| ctx_symbol := "BTC/USD"; ctx_side := buy; ctx_quantity := 1;
                ctx_expectedPrice := 45000; ctx_timestamp := 0;
                ctx_userId := None; ctx_orderId := None |};
           Recording.call_price := 45050 |} ] initialState = (Returns reports, s')
    /\ length reports = 1%nat
    /\ reportLog s' = drop (length reports - Protection.MAX_REPORTS_IN_MEMORY) reports
    /\ (length (reportLog s') <= Protection.MAX_REPORTS_IN_MEMORY)%nat.
Proof.
  refine (proj2 (proj2 (report_log_bounded initialState _ _)) _ _).
  - unfold wellFormed. simpl. lia.
  - reflexivity.
  - repeat constructor. simpl. lra.
Defined.

(** ** The protection decision *)

Section Decision.
Import Protection.

Lemma protection_result_cases estimated maxAllowed rec :
  let res := generateProtectionResult estimated maxAllowed rec
               (Js.lessEq estimated maxAllowed) in
  estimatedSlippage res = estimated
  /\ maxAllowedSlippage res = maxAllowed
  /\ (maxAllowed < estimated \/ rec = delay ->
      allowed res = false /\ prot_recommendation res = rec_reject)
  /\ (~ (maxAllowed < estimated \/ rec = delay) -> rec = caution ->
      allowed res = true /\ prot_recommendation res = rec_caution)
  /\ (~ (maxAllowed < estimated \/ rec = delay) -> rec <> caution ->
      allowed res = true /\ prot_recommendation res = rec_proceed).
Proof.
  cbv zeta. unfold generateProtectionResult.
  destruct (Js.lessEq estimated maxAllowed) eqn:E;
    [apply lessEq_true in E | apply lessEq_false in E];
    destruct rec; cbn; repeat split; try done; intros; try tauto;
    try (exfalso; lra); try (destruct H; [lra | done]);
    try (exfalso; apply H; by left).
Qed.
End Decision.

(** C1.  Whenever the engine returns an estimate for the trade,
    [validateTradeExecution] returns a decision, leaves the state as it was,
    and with [maxAllowed] the threshold resolved from the applicable
    configuration: if the estimated slippage percent exceeds [maxAllowed] or
    the engine recommends [delay], the decision has [allowed = false] and
    recommendation [reject]; otherwise, if the engine recommends [caution],
    [allowed = true] and recommendation [caution]; otherwise
    [allowed = true] and recommendation [proceed]. *)
Theorem protection_decision (s : State) (market : MarketData)
    (context : TradeExecutionContext) (userConfig : option SlippageConfigDto)
    (estimate : SlippageEstimateResponseDto) :
  Calculator.estimateSlippage (historicalSlippage s) market
    (Protection.estimationOf context) None = Returns estimate ->
  let config :=
    Protection.getApplicableConfig (userPreferences s) (ctx_userId context)
      (Some (ctx_symbol context)) userConfig in
  let maxAllowed :=
    Protection.calculateMaxAllowedSlippage config (liquidityScore estimate) in
  let exceeds :=
    maxAllowed < estimatedSlippagePercent estimate \/ recommendation estimate = delay in
  exists res,
    Protection.validateTradeExecution market context userConfig s = (Returns res, s)
    /\ estimatedSlippage res = estimatedSlippagePercent estimate
    /\ maxAllowedSlippage res = maxAllowed
    /\ (exceeds -> allowed res = false /\ prot_recommendation res = rec_reject)
    /\ (~ exceeds -> recommendation estimate = caution ->
        allowed res = true /\ prot_recommendation res = rec_caution)
    /\ (~ exceeds -> recommendation estimate <> caution ->
        allowed res = true /\ prot_recommendation res = rec_proceed).
Proof.
  intros Hest config maxAllowed exceeds.
  unfold Protection.validateTradeExecution, bindM, gets, lift, ret.
  rewrite Hest.
  eexists. split; [reflexivity |].
  apply protection_result_cases.
Qed.

Lemma protection_decision_witness :
  exists res,
    Protection.validateTradeExecution
      {| getCurrentMarketPrice := 45000;
         getMarketDepth :=
           {| bids := [{| price := 44990; order_quantity := 5 |}];
              asks := [{| price := 45000; order_quantity := 5 |}];
              depth_timestamp := 0 |} |}
      {| ctx_symbol := "BTC/USD"; ctx_side := buy; ctx_quantity := 1;
         ctx_expectedPrice := 45000; ctx_timestamp := 0;
         ctx_userId := None; ctx_orderId := None |}
      None initialState = (Returns res, initialState)
    /\ allowed res = true
    /\ prot_recommendation res = rec_proceed.
Proof.
  edestruct (protection_decision initialState
    {| getCurrentMarketPrice := 45000;
       getMarketDepth :=
         {| bids := [{| price := 44990; order_quantity := 5 |}];
            asks := [{| price := 45000; order_quantity := 5 |}];
            depth_timestamp := 0 |} |}
    {| ctx_symbol := "BTC/USD"; ctx_side := buy; ctx_quantity := 1;
       ctx_expectedPrice := 45000; ctx_timestamp := 0;
       ctx_userId := None; ctx_orderId := None |}
    None) as (res & Hrun & _ & _ & _ & _ & Hproceed); [vm_compute; reflexivity |].
  exists res. split; [exact Hrun |].
  apply Hproceed; [| discriminate].
  intros [H | H]; [| discriminate H].
  vm_compute in H. discriminate H.
Defined.

(** ** Configuration writes *)

Section ConfigurationWrites.
Import Protection.

Lemma percent_out_of_range_rejected config :
  maxSlippagePercent config < 0 \/ 100 < maxSlippagePercent config ->
  exists e, validateConfig config = Throws e.
Proof.
  intros H. unfold validateConfig.
  assert (Js.less (maxSlippagePercent config) 0
          || Js.greater (maxSlippagePercent config) 100 = true) as ->; [| eauto].
  apply orb_true_iff.
  destruct H as [H | H]; [left; by apply less_true | right; by apply greater_true].
Qed.

Lemma short_execution_time_rejected config ms :
  maxExecutionTimeMs config = Some ms -> ~ ms == 0 -> ms < 100 ->
  exists e, validateConfig config = Throws e.
Proof.
  intros Hms Hnz Hlt. unfold validateConfig. rewrite Hms.
  destruct (_ || _); [eauto |].
  apply truthy_true in Hnz. apply less_true in Hlt. rewrite Hnz, Hlt. eauto.
Qed.

(** A configuration that [validateConfig] rejects is not written. *)
Lemma rejected_write_leaves_state now user sym config overrides (s : State) e :
  validateConfig config = Throws e ->
  setUserPreferences now user config overrides s = (Throws e, s)
  /\ setSymbolOverride now user sym config s = (Throws e, s).
Proof.
  intros H. unfold setUserPreferences, setSymbolOverride, bindM, lift.
  by rewrite H.
Qed.

(** Whatever makes [setUserPreferences] or [setSymbolOverride] throw, the
    state is as before. *)
Lemma throwing_write_leaves_state now user sym config overrides (s s' : State) e :
  setUserPreferences now user config overrides s = (Throws e, s')
  \/ setSymbolOverride now user sym config s = (Throws e, s') ->
  s' = s.
Proof.
  unfold setUserPreferences, setSymbolOverride, bindM, lift, gets, modify.
  intros [H | H].
  - destruct (validateConfig config); [| congruence | congruence].
    destruct (match overrides with Some o => _ | None => _ end); congruence.
  - destruct (validateConfig config); congruence.
Qed.
End ConfigurationWrites.

(** C6 (not met by the source).  A [maxExecutionTimeMs] of 40000,
    above the range [100, 30000], is accepted by [validateConfig] and
    written by both [setUserPreferences] and [setSymbolOverride]; so is a
    [maxExecutionTimeMs] of 0. *)
Theorem execution_time_out_of_range_accepted :
  let config ms := {| maxSlippagePercent := 0.5; toleranceLevel := Some MODERATE;
                      enableDynamicSlippage := None; maxExecutionTimeMs := Some ms |} in
  let written := Protection.setUserPreferences 0 "user123" (config 40000) None initialState in
  let overridden :=
    Protection.setSymbolOverride 0 "user123" "BTC/USD" (config 40000) initialState in
  30000 < 40000
  /\ Protection.validateConfig (config 40000) = Returns tt
  /\ Protection.validateConfig (config 0) = Returns tt
  /\ fst written = Returns tt
  /\ defaultConfig <$> userPreferences (snd written) !! "user123"%string
     = Some (config 40000)
  /\ fst overridden = Returns tt
  /\ (userPreferences (snd overridden) !! "user123"%string) ≫= symbolOverrides
     = Some [("BTC/USD"%string, config 40000)].
Proof.
  cbv zeta. repeat split; vm_compute; reflexivity.
Qed.

(** ** Queries *)

Section Queries.
Import Protection.

Lemma extends_refl s : extends s s.
Proof. by repeat split. Qed.

Lemma extends_log s0 s :
  wellFormed s0 -> extends s0 s ->
  reportLog s = reportLog s0 /\ wellFormed s.
Proof.
  intros Hwf (_ & _ & Hlog & Hpre). unfold reportLog, arrayAt, wellFormed in *.
  rewrite Hlog. split.
  - by rewrite (prefix_lookup_lt (heap s0) (heap s)).
  - apply prefix_length in Hpre. lia.
Qed.

Lemma keeps_ret {A} s0 (P : A -> Prop) a : P a -> keeps s0 P (ret a).
Proof. intros Ha s Hs. by exists a, s. Qed.

Lemma keeps_bind {A B} s0 (P : A -> Prop) (Q : B -> Prop) (m : M A) (k : A -> M B) :
  keeps s0 P m -> (forall a, P a -> keeps s0 Q (k a)) -> keeps s0 Q (bindM m k).
Proof.
  intros Hm Hk s Hs.
  destruct (Hm s Hs) as (a & s1 & Hrun & Hs1 & Ha).
  destruct (Hk a Ha s1 Hs1) as (b & s2 & Hrun2 & Hs2 & Hb).
  exists b, s2. unfold bindM. by rewrite Hrun.
Qed.

Lemma keeps_weaken {A} s0 (P P' : A -> Prop) m :
  (forall a, P a -> P' a) -> keeps s0 P m -> keeps s0 P' m.
Proof.
  intros HP Hm s Hs. destruct (Hm s Hs) as (a & s' & ? & ? & ?).
  exists a, s'. auto.
Qed.

Lemma keeps_gets {A} s0 (f : State -> A) : keeps s0 (fun _ => True) (gets f).
Proof. intros s Hs. by exists (f s), s. Qed.

Lemma keeps_alloc s0 xs : keeps s0 (newSince s0) (JsArray.alloc xs).
Proof.
  intros s (Hh & Hp & Hl & Hpre). eexists _, _. split; [reflexivity |].
  split.
  - repeat split; try done. cbn [heap setHeap]. by apply prefix_app_r.
  - unfold newSince. by apply prefix_length.
Qed.

Lemma keeps_read s0 a : keeps s0 (fun _ => True) (JsArray.read a).
Proof. apply keeps_gets. Qed.

(** Writing to an array allocated after [s0] leaves the arrays of [s0]. *)
Lemma keeps_write s0 a xs : newSince s0 a -> keeps s0 (fun _ => True) (JsArray.write a xs).
Proof.
  intros Hnew s (Hh & Hp & Hl & Hpre). eexists _, _. split; [reflexivity |].
  split; [| done]. repeat split; try done. cbn [heap setHeap].
  destruct Hpre as [k ->]. rewrite insert_app_r_alt by done. by eexists.
Qed.

Lemma keeps_spread s0 a : keeps s0 (newSince s0) (JsArray.spread a).
Proof.
  eapply keeps_bind; [apply keeps_read |]. intros xs _. apply keeps_alloc.
Qed.

Lemma keeps_filter s0 p a : keeps s0 (newSince s0) (JsArray.filter p a).
Proof.
  eapply keeps_bind; [apply keeps_read |]. intros xs _. apply keeps_alloc.
Qed.

Lemma keeps_slice s0 n a : keeps s0 (newSince s0) (JsArray.slice n a).
Proof.
  eapply keeps_bind; [apply keeps_read |]. intros xs _. apply keeps_alloc.
Qed.

Lemma keeps_length s0 a : keeps s0 (fun _ => True) (JsArray.length a).
Proof.
  eapply keeps_bind; [apply keeps_read |]. intros xs _. by apply keeps_ret.
Qed.

(** The in-place sort is harmless on an array allocated after [s0]. *)
Lemma keeps_sort s0 cmp a :
  newSince s0 a -> keeps s0 (newSince s0) (JsArray.sort cmp a).
Proof.
  intros Hnew. eapply keeps_bind; [apply keeps_read |]. intros xs _.
  eapply keeps_bind; [by apply keeps_write |]. intros _ _. by apply keeps_ret.
Qed.

Lemma keeps_reports s0 filters :
  keeps s0 (newSince s0) (getSlippageReports filters).
Proof.
  unfold getSlippageReports.
  eapply keeps_bind; [apply keeps_gets |]. intros log _.
  eapply keeps_bind; [apply keeps_spread |]. intros r1 H1.
  eapply keeps_bind.
  { instantiate (1 := newSince s0).
    destruct (filters ≫= filter_symbol) as [sy |]; [| by apply keeps_ret].
    destruct (Js.truthyStr (Some sy)); [apply keeps_filter | by apply keeps_ret]. }
  intros r2 H2. eapply keeps_bind.
  { instantiate (1 := newSince s0).
    destruct (filters ≫= startDate); [apply keeps_filter | by apply keeps_ret]. }
  intros r3 H3. eapply keeps_bind.
  { instantiate (1 := newSince s0).
    destruct (filters ≫= endDate); [apply keeps_filter | by apply keeps_ret]. }
  intros r4 H4. eapply keeps_bind.
  { instantiate (1 := newSince s0).
    destruct (Js.truthyBool _); [apply keeps_filter | by apply keeps_ret]. }
  intros r5 H5. eapply keeps_bind; [by apply keeps_sort |]. intros _ _.
  destruct (filters ≫= limit) as [n |]; [| by apply keeps_ret].
  destruct (Js.truthy n); [apply keeps_slice | by apply keeps_ret].
Qed.

Lemma keeps_statistics s0 calendar now sym daysBack :
  keeps s0 (fun _ => True) (getSlippageStatistics calendar now sym daysBack).
Proof.
  unfold getSlippageStatistics. cbv zeta.
  eapply keeps_bind; [apply keeps_gets |]. intros log _.
  eapply keeps_bind; [apply keeps_filter |]. intros relevantReports _.
  eapply keeps_bind; [apply keeps_read |]. intros relevant _.
  destruct (slippagePercent <$> relevant); [by apply keeps_ret |].
  eapply keeps_bind; [apply keeps_filter |]. intros exceeded _.
  eapply keeps_bind; [apply keeps_length |]. intros n _.
  by apply keeps_ret.
Qed.

(** Without filters [getSlippageReports] returns a new array: the log
    sorted newest first. *)
Lemma reports_newest_first (s : State) :
  wellFormed s ->
  exists result s',
    Protection.getSlippageReports None s = (Returns result, s')
    /\ arrayAt result s' = Js.sort Protection.byTimestampDescending (reportLog s)
    /\ reportLog s' = reportLog s.
Proof.
  intros Hwf. unfold wellFormed in Hwf.
  unfold Protection.getSlippageReports, bindM, gets, ret. cbn [mbind option_bind].
  unfold JsArray.spread, JsArray.sort, JsArray.read, JsArray.write, JsArray.alloc,
    bindM, gets, modify, ret.
  cbn [Js.truthyBool heap setHeap slippageReports].
  eexists _, _. split; [reflexivity |].
  unfold reportLog, arrayAt. cbn [heap setHeap slippageReports].
  rewrite lookup_app_r, Nat.sub_diag by done. cbn [lookup list_lookup default].
  split.
  - rewrite list_lookup_insert_eq by (rewrite length_app; simpl; lia). done.
  - rewrite list_lookup_insert_ne by lia. by rewrite lookup_app_l.
Qed.
End Queries.

(** C10.  For every filter argument [getSlippageReports], and for every
    symbol and period [getSlippageStatistics], return and leave the engine
    state as it was: the historical statistics, the user preferences, the
    log reference and the log's contents and order are the same after the
    call, and so is every array that existed before it.  The in-place sort
    of [getSlippageReports] works on an array allocated by the call. *)
Theorem queries_leave_state (s : State) :
  wellFormed s ->
  (forall filters, exists result s',
      Protection.getSlippageReports filters s = (Returns result, s')
      /\ historicalSlippage s' = historicalSlippage s
      /\ userPreferences s' = userPreferences s
      /\ slippageReports s' = slippageReports s
      /\ reportLog s' = reportLog s
      /\ heap s `prefix_of` heap s'
      /\ result <> slippageReports s)
  /\ (forall calendar now sym daysBack, exists stats s',
      Protection.getSlippageStatistics calendar now sym daysBack s = (Returns stats, s')
      /\ historicalSlippage s' = historicalSlippage s
      /\ userPreferences s' = userPreferences s
      /\ slippageReports s' = slippageReports s
      /\ reportLog s' = reportLog s
      /\ heap s `prefix_of` heap s').
Proof.
  intros Hwf. split.
  - intros filters.
    destruct (keeps_reports s filters s (extends_refl s)) as (a & s' & Hrun & Hext & Hnew).
    destruct (extends_log s s' Hwf Hext) as [Hlog _].
    destruct Hext as (? & ? & ? & ?).
    exists a, s'. repeat split; try done.
    unfold newSince, wellFormed in *. lia.
  - intros calendar now sym daysBack.
    destruct (keeps_statistics s calendar now sym daysBack s (extends_refl s))
      as (a & s' & Hrun & Hext & _).
    destruct (extends_log s s' Hwf Hext) as [Hlog _].
    destruct Hext as (? & ? & ? & ?).
    exists a, s'. by repeat split.
Qed.

Lemma queries_leave_state_witness :
  exists result s',
    Protection.getSlippageReports None sampleState = (Returns result, s')
    /\ reportLog s' = [sampleReport 1; sampleReport 2]
    /\ result <> slippageReports sampleState.
Proof.
  destruct (queries_leave_state sampleState) as [Hreports _];
    [unfold wellFormed; simpl; lia |].
  destruct (Hreports None) as (result & s' & Hrun & _ & _ & _ & Hlog & _ & Hnew).
  exists result, s'. split; [exact Hrun |]. split; [exact Hlog | exact Hnew].
Defined.

(** ** The order-size search *)

Section OrderSplit.
Import Calculator Trading.

Variable history : gmap string HistoricalSlippage.
Variable feed : nat -> MarketData.
Variables (sym : string) (s : Side) (totalQuantity maxPercent : Q).

Hypothesis prices_not_zero : forall k, ~ getCurrentMarketPrice (feed k) == 0.

Lemma estimate_returned_divisors market dto marketDepth est :
  estimateSlippage history market dto marketDepth = Returns est ->
  ~ referencePrice dto market == 0 /\ ~ est_quantity dto == 0.
Proof.
  unfold estimateSlippage, calculateLiquidityScore, Js.div. cbv zeta.
  destruct (Qeq_bool (referencePrice dto market) 0) eqn:E1; [discriminate |].
  destruct (Qeq_bool (est_quantity dto) 0) eqn:E2; [discriminate |].
  intros _. split; intros H; apply Qeq_bool_iff in H; congruence.
Qed.

Lemma chunk_estimate_returns k qty :
  0 < qty ->
  exists est, estimateSlippage history (feed k) (requestFor sym s qty) None = Returns est.
Proof.
  intros Hq.
  destruct (estimate_returns history (feed k) (requestFor sym s qty) None)
    as (est & _ & Hest & _); [apply prices_not_zero | simpl; lra |].
  eauto.
Qed.

Lemma doubled_nonnegative n x : 0 <= x -> 0 <= doubled n x.
Proof. intros Hx. induction n as [| n IH]; simpl; lra. Qed.

Lemma doubled_more n m x : 0 <= x -> doubled n x <= doubled (m + n) x.
Proof.
  intros Hx. induction m as [| m IH]; simpl; [lra |].
  pose proof (doubled_nonnegative (m + n) x Hx). lra.
Qed.

(** The search ends within [fuel] rounds when the interval is at most
    [2 ^ fuel] times the stopping width, and its result is positive. *)
Lemma search_returns fuel : forall k low high optimal,
  0 < totalQuantity -> 0 < low -> low <= high -> 0 < optimal ->
  high - low <= doubled fuel (totalQuantity * 0.05) ->
  exists chunk,
    searchChunkSize history feed sym s totalQuantity maxPercent fuel k low high optimal
    = Some (Returns chunk)
    /\ 0 < chunk.
Proof.
  induction fuel as [| fuel IH]; intros k low high optimal Ht Hl Hlh Ho Hw.
  - simpl in *. apply greater_false in Hw. rewrite Hw. eauto.
  - cbn [searchChunkSize].
    destruct (Js.greater (high - low) (totalQuantity * 0.05)); [| eauto].
    assert (0 < (low + high) / 2) as Hmid by (apply Qlt_shift_div_l; lra).
    assert ((low + high) / 2 == low * (1 # 2) + high * (1 # 2)) as Hm by (field).
    destruct (chunk_estimate_returns k _ Hmid) as [est ->].
    cbn [doubled] in Hw.
    destruct (Js.lessEq (estimatedSlippagePercent est) maxPercent);
      apply IH; try done; lra.
Qed.

Lemma search_skipped fuel k optimal :
  totalQuantity < 0 ->
  searchChunkSize history feed sym s totalQuantity maxPercent fuel k
    (totalQuantity * 0.1) totalQuantity optimal
  = Some (Returns optimal).
Proof.
  intros Ht.
  assert (Js.greater (totalQuantity - totalQuantity * 0.1) (totalQuantity * 0.05) = false)
    as H by (apply greater_false; lra).
  destruct fuel; simpl; by rewrite H.
Qed.

Lemma search_from_total fuel :
  (5 <= fuel)%nat -> ~ totalQuantity == 0 ->
  exists chunk,
    searchChunkSize history feed sym s totalQuantity maxPercent fuel 1
      (totalQuantity * 0.1) totalQuantity totalQuantity
    = Some (Returns chunk)
    /\ ~ chunk == 0.
Proof.
  intros Hfuel Hnz.
  destruct (Qlt_le_dec 0 totalQuantity) as [Hpos | Hneg].
  - destruct (search_returns fuel 1 (totalQuantity * 0.1) totalQuantity totalQuantity)
      as (chunk & Hrun & Hc); try lra.
    + replace fuel with ((fuel - 5) + 5)%nat by lia.
      eapply Qle_trans; [| apply doubled_more; lra]. simpl. lra.
    + exists chunk. split; [done | lra].
  - exists totalQuantity. split; [| done]. apply search_skipped. lra.
Qed.
End OrderSplit.

(** C8.  Let the estimation of the full quantity return an estimate (and
    the provider never quote a price of zero).  When the estimated slippage
    percent is at most the threshold, [shouldSplitOrder] returns
    [shouldSplit = false] with no chunk size; otherwise it returns
    [shouldSplit = true] with a chunk size and
    [estimatedChunks = ceil(totalQuantity / recommendedChunkSize)].  Five
    rounds of the binary search are enough. *)
Theorem split_decision (history : gmap string HistoricalSlippage)
    (feed : nat -> MarketData) (fuel : nat) (sym : string) (s : Side)
    (totalQuantity : Q) (maxSlippage : option Q) (full : SlippageEstimateResponseDto) :
  (5 <= fuel)%nat ->
  (forall k, ~ getCurrentMarketPrice (feed k) == 0) ->
  Calculator.estimateSlippage history (feed 0%nat)
    (Trading.requestFor sym s totalQuantity) None = Returns full ->
  let maxPercent := default 0.5 maxSlippage in
  (estimatedSlippagePercent full <= maxPercent ->
   Trading.shouldSplitOrder history feed fuel sym s totalQuantity maxSlippage
   = Some (Returns {| Trading.shouldSplit := false;
                      Trading.split_reason := Trading.FullOrderWithinLimits;
                      Trading.recommendedChunkSize := None;
                      Trading.estimatedChunks := None |}))
  /\ (maxPercent < estimatedSlippagePercent full ->
      exists chunk,
        ~ chunk == 0
        /\ Trading.shouldSplitOrder history feed fuel sym s totalQuantity maxSlippage
           = Some (Returns
                {| Trading.shouldSplit := true;
                   Trading.split_reason :=
                     Trading.FullOrderExceedsLimit (estimatedSlippagePercent full) maxPercent;
                   Trading.recommendedChunkSize := Some chunk;
                   Trading.estimatedChunks := Some (Qceiling (totalQuantity / chunk)) |})).
Proof.
  intros Hfuel Hprices Hfull maxPercent.
  unfold Trading.shouldSplitOrder, Trading.shouldSplitOrderWith. fold maxPercent.
  rewrite Hfull. split.
  - intros Hle. apply lessEq_true in Hle. by rewrite Hle.
  - intros Hgt. apply lessEq_false in Hgt. rewrite Hgt.
    destruct (estimate_returned_divisors history _ _ _ _ Hfull) as [_ Hnz].
    cbn [est_quantity Trading.requestFor] in Hnz.
    destruct (search_from_total history feed sym s totalQuantity maxPercent Hprices fuel
                Hfuel Hnz) as (chunk & -> & Hc).
    exists chunk. split; [done |].
    unfold Trading.splitAt. by rewrite div_returns.
Qed.

Lemma split_decision_witness :
  exists chunk,
    ~ chunk == 0
    /\ Trading.shouldSplitOrder ∅ (fun _ => sampleMarket) 5 "BTC/USD" buy 10 None
       = Some (Returns
                 {| Trading.shouldSplit := true;
                    Trading.split_reason :=
                      Trading.FullOrderExceedsLimit (450000 # 450000) 0.5;
                    Trading.recommendedChunkSize := Some chunk;
                    Trading.estimatedChunks := Some (Qceiling (10 / chunk)) |}).
Proof.
  refine (proj2 (split_decision ∅ (fun _ => sampleMarket) 5 "BTC/USD" buy 10 None
                   {| estimatedSlippagePercent := 450000 # 450000;
                      estimatedSlippageAmount := 4500 # 10;
                      currentMarketPrice := 45000;
                      estimatedPriceRange :=
                        {| range_min := 20007000000000 # 450000000;
                           range_max := 20493000000000 # 450000000 |};
                      liquidityScore := 2939672000 # 3599600000;
                      recommendation := caution;
                      reasoning := ProceedWithCaution [] |} _ _ _) _).
  - lia.
  - intros k. vm_compute. discriminate.
  - vm_compute. reflexivity.
  - vm_compute. reflexivity.
Defined.

(** ** The scenarios of the repository's tests *)

Example tolerance_presets :
  Calculator.getToleranceForLevel STRICT = 0.1
  /\ Calculator.getToleranceForLevel MODERATE = 0.5
  /\ Calculator.getToleranceForLevel RELAXED = 1.0.
Proof. repeat split. Qed.

Example actual_slippage_favorable :
  exists r, Calculator.calculateActualSlippage 45000 44950 1 = Returns r
    /\ Calculator.act_slippageAmount r == 50
    /\ Qabs (Calculator.act_slippagePercent r - 0.111) < 0.01
    /\ Calculator.act_totalCost r == 50.
Proof. eexists. split; [vm_compute; reflexivity |]. repeat split. Qed.

Example actual_slippage_unfavorable :
  exists r, Calculator.calculateActualSlippage 45000 45100 2 = Returns r
    /\ Calculator.act_slippageAmount r == 100
    /\ Qabs (Calculator.act_slippagePercent r - 0.222) < 0.01
    /\ Calculator.act_totalCost r == 200.
Proof. eexists. split; [vm_compute; reflexivity |]. repeat split. Qed.

Example dynamic_tolerance_capped_at_three_times :
  Calculator.calculateDynamicTolerance 0.5 0.1 100 == 1.5.
Proof. reflexivity. Qed.

Example newest_first :
  timestamp <$> Js.sort Protection.byTimestampDescending
                  [sampleReport 1; sampleReport 3; sampleReport 2]
  = [3; 2; 1]%Z.
Proof. reflexivity. Qed.

Example trade_within_limits_allowed :
  allowed <$> returned (fst (Protection.validateTradeExecution sampleMock
                               (sampleContext None) None initialState))
  = Some true.
Proof. vm_compute. reflexivity. Qed.

Example user_preference_applies :
  let s := snd (Protection.setUserPreferences 0 "user123"
                  (sampleConfig 0.3 STRICT (Some false)) None initialState) in
  maxAllowedSlippage <$> returned (fst (Protection.validateTradeExecution sampleMock
                                          (sampleContext (Some "user123"%string)) None s))
  = Some 0.3.
Proof. vm_compute. reflexivity. Qed.

Example symbol_override_applies :
  let s1 := snd (Protection.setUserPreferences 0 "user123"
                   (sampleConfig 0.5 MODERATE None) None initialState) in
  let s2 := snd (Protection.setSymbolOverride 0 "user123" "BTC/USD"
                   (sampleConfig 0.2 STRICT None) s1) in
  let maxFor sym :=
    maxSlippagePercent
      (Protection.getApplicableConfig (userPreferences s2) (Some "user123"%string)
         (Some sym) None) in
  maxFor "BTC/USD"%string = 0.2 /\ maxFor "ETH/USD"%string = 0.5.
Proof. vm_compute. split; reflexivity. Qed.

Example invalid_percent_rejected :
  Protection.setUserPreferences 0 "user123" (sampleConfig 150 MODERATE None) None
    initialState
  = (Throws (BadRequestException "maxSlippagePercent must be between 0 and 100"),
     initialState).
Proof. reflexivity. Qed.

Example statistics_without_reports :
  returned (fst (Protection.getSlippageStatistics Protection.fixedOffsetCalendar 10
                   "XRP/USD" (Some 7%Z) sampleState))
  = Some {| stat_averageSlippage := 0; stat_maxSlippage := 0; stat_minSlippage := 0;
            totalTrades := 0; tradesExceededLimits := 0; stat_totalSlippageCost := 0 |}.
Proof. reflexivity. Qed.

(** * Further properties of the code *)

(** ** Estimates *)

Section Estimates.
Import Calculator.

(** A returned estimate, field by field. *)
Lemma estimate_fields history market dto marketDepth est :
  estimateSlippage history market dto marketDepth = Returns est ->
  let depth := default (getMarketDepth market) marketDepth in
  let ref := referencePrice dto market in
  let historical := history !! est_symbol dto in
  ~ ref == 0
  /\ ~ est_quantity dto == 0
  /\ estimatedSlippageAmount est
     = Qabs (calculateExecutionPrice (est_quantity dto) (est_side dto) depth - ref)
  /\ estimatedSlippagePercent est = estimatedSlippageAmount est / ref * 100
  /\ currentMarketPrice est = getCurrentMarketPrice market
  /\ calculateLiquidityScore depth (est_quantity dto) (est_side dto)
     = Returns (liquidityScore est)
  /\ estimatedPriceRange est
     = calculatePriceRange ref (estimatedSlippagePercent est) historical
  /\ (recommendation est, reasoning est)
     = generateRecommendation (estimatedSlippagePercent est) (liquidityScore est) historical.
Proof.
  intros Hest depth ref historical.
  destruct (estimate_returned_divisors history market dto marketDepth est Hest) as [Hr Hq].
  split; [done |]. split; [done |].
  revert Hest. unfold estimateSlippage. cbv zeta.
  assert (match marketDepth with Some d => d | None => getMarketDepth market end = depth)
    as -> by (by destruct marketDepth).
  fold ref. rewrite div_returns by done. cbn [Js.bind].
  destruct (liquidity_returns depth (est_quantity dto) (est_side dto) Hq) as [liq Hliq].
  rewrite Hliq. cbn [Js.bind]. fold historical.
  destruct (generateRecommendation _ _ _) as [rec why] eqn:G.
  intros Heq.
  match type of Heq with Returns ?r = _ => assert (est = r) as -> by congruence end.
  cbn [estimatedSlippageAmount estimatedSlippagePercent currentMarketPrice liquidityScore
       estimatedPriceRange recommendation reasoning].
  by rewrite G.
Qed.

Lemma liquidity_score_clamped depth qty s score :
  calculateLiquidityScore depth qty s = Returns score -> 0 <= score <= 1.
Proof.
  unfold calculateLiquidityScore. cbv zeta.
  destruct (Js.div _ qty); cbn [Js.bind]; try discriminate.
  intros [= <-]. split; [apply Q.le_max_l |].
  apply Q.max_lub; [lra | apply Q.le_min_l].
Qed.
End Estimates.

(** X1.  For every order book and side and every quantity that is not
    zero, [calculateLiquidityScore] returns a score between 0 and 1, and
    this score is the liquidity score of the estimate whenever
    [estimateSlippage] returns one. *)
Theorem estimate_liquidity_in_unit_interval
    (history : gmap string HistoricalSlippage) (market : MarketData)
    (dto : SlippageEstimationDto) (marketDepth : option MarketDepth) :
  ~ est_quantity dto == 0 ->
  exists score,
    Calculator.calculateLiquidityScore (default (getMarketDepth market) marketDepth)
      (est_quantity dto) (est_side dto) = Returns score
    /\ 0 <= score <= 1
    /\ forall est,
         Calculator.estimateSlippage history market dto marketDepth = Returns est ->
         liquidityScore est = score.
Proof.
  intros Hq.
  destruct (liquidity_returns (default (getMarketDepth market) marketDepth)
              (est_quantity dto) (est_side dto) Hq) as [score Hscore].
  exists score. split; [exact Hscore |].
  split; [by apply liquidity_score_clamped in Hscore |].
  intros est Hest.
  destruct (estimate_fields _ _ _ _ _ Hest) as (_ & _ & _ & _ & _ & Hliq & _).
  congruence.
Qed.

Lemma estimate_liquidity_in_unit_interval_witness :
  exists score,
    Calculator.calculateLiquidityScore (getMarketDepth sampleMarket) 10 buy = Returns score
    /\ 0 <= score <= 1.
Proof.
  destruct (estimate_liquidity_in_unit_interval ∅ sampleMarket
              (Trading.requestFor "BTC/USD" buy 10) None) as (score & Hscore & Hunit & _).
  - vm_compute. discriminate.
  - exists score. split; [exact Hscore | exact Hunit].
Defined.

Section PriceRange.
Import Calculator.

Lemma range_percent_at_least expected estimated historical :
  exists percent,
    estimated <= percent
    /\ calculatePriceRange expected estimated historical
       = {| range_min := expected * (1 - percent * 1.2 / 100);
            range_max := expected * (1 + percent * 1.2 / 100) |}.
Proof.
  unfold calculatePriceRange. cbv zeta.
  destruct historical as [h |]; [| exists estimated; split; [lra | done]].
  destruct (Js.greater (averageSlippage h) estimated) eqn:E.
  - apply greater_true in E. exists (averageSlippage h). split; [lra | done].
  - exists estimated. split; [lra | done].
Qed.

Lemma amount_of_percent (amount ref : Q) :
  0 < ref -> amount == ref * (amount / ref * 100) / 100.
Proof. intros Hr. field. lra. Qed.
End PriceRange.

(** X2.  For a positive reference price the estimated price range of a
    returned estimate contains both the reference price and the projected
    execution price. *)
Theorem estimate_range_contains_projection
    (history : gmap string HistoricalSlippage) (market : MarketData)
    (dto : SlippageEstimationDto) (marketDepth : option MarketDepth)
    (est : SlippageEstimateResponseDto) :
  Calculator.estimateSlippage history market dto marketDepth = Returns est ->
  0 < Calculator.referencePrice dto market ->
  let ref := Calculator.referencePrice dto market in
  let projected :=
    Calculator.calculateExecutionPrice (est_quantity dto) (est_side dto)
      (default (getMarketDepth market) marketDepth) in
  let range := estimatedPriceRange est in
  range_min range <= ref <= range_max range
  /\ range_min range <= projected <= range_max range.
Proof.
  intros Hest Hpos ref projected range.
  destruct (estimate_fields _ _ _ _ _ Hest) as (_ & _ & Ha & Hp & _ & _ & Hr & _).
  fold ref in Ha, Hp, Hr, Hpos. fold projected in Ha.
  clearbody ref projected.
  destruct (range_percent_at_least ref (estimatedSlippagePercent est)
              (history !! est_symbol dto)) as (percent & Hle & Heq).
  unfold range. rewrite Hr, Heq. cbn [range_min range_max].
  pose proof (Qabs_nonneg (projected - ref)) as Hnn. rewrite <- Ha in Hnn.
  pose proof (amount_of_percent (estimatedSlippageAmount est) ref Hpos) as Hamount.
  rewrite <- Hp in Hamount.
  assert (0 <= estimatedSlippagePercent est) as Hp0.
  { rewrite Hp. apply Qmult_le_0_compat; [| lra].
    apply Qle_shift_div_l; lra. }
  assert (percent * 1.2 / 100 == percent * (12 # 1000)) as -> by field.
  assert (estimatedSlippageAmount est == ref * estimatedSlippagePercent est * (1 # 100))
    as Hamount' by (rewrite Hamount at 1; field).
  assert (ref * estimatedSlippagePercent est <= ref * percent) as Hmono
    by (apply Qmult_le_l; lra).
  assert (0 <= ref * percent) as Hrp by (apply Qmult_le_0_compat; lra).
  pose proof (Qabs_Qle_condition (projected - ref) (estimatedSlippageAmount est)) as Habs.
  rewrite <- Ha in Habs. destruct (proj1 Habs (Qle_refl _)) as [Hlo Hhi].
  assert (ref * (1 - percent * (12 # 1000)) == ref - (12 # 1000) * (ref * percent))
    as -> by ring.
  assert (ref * (1 + percent * (12 # 1000)) == ref + (12 # 1000) * (ref * percent))
    as -> by ring.
  set (rp := ref * percent) in *. set (re := ref * estimatedSlippagePercent est) in *.
  split; split; lra.
Qed.

Lemma estimate_range_contains_projection_witness :
  (20007000000000 # 450000000) <= 45450 <= (20493000000000 # 450000000).
Proof.
  assert (Calculator.calculateExecutionPrice 10 buy (getMarketDepth sampleMarket) == 45450)
    as <- by reflexivity.
  refine (proj2 (estimate_range_contains_projection ∅ sampleMarket
           (Trading.requestFor "BTC/USD" buy 10) None
           {| estimatedSlippagePercent := 450000 # 450000;
              estimatedSlippageAmount := 4500 # 10;
              currentMarketPrice := 45000;
              estimatedPriceRange :=
                {| range_min := 20007000000000 # 450000000;
                   range_max := 20493000000000 # 450000000 |};
              liquidityScore := 2939672000 # 3599600000;
              recommendation := caution;
              reasoning := ProceedWithCaution [] |} _ _)).
  - vm_compute. reflexivity.
  - vm_compute. reflexivity.
Defined.

(** X3.  The recommendation never gets milder when the estimated slippage
    grows and the liquidity score falls; the history plays no part in it. *)
Theorem recommendation_monotone (percent1 percent2 liquidity1 liquidity2 : Q)
    (historical1 historical2 : option HistoricalSlippage) :
  percent1 <= percent2 -> liquidity2 <= liquidity1 ->
  (severity (fst (Calculator.generateRecommendation percent1 liquidity1 historical1))
   <= severity (fst (Calculator.generateRecommendation percent2 liquidity2 historical2)))%nat.
Proof.
  intros Hp Hl. unfold Calculator.generateRecommendation. cbv zeta.
  destruct (Js.greater percent1 2.0) eqn:A1; destruct (Js.less liquidity1 0.3) eqn:B1;
  destruct (Js.greater percent2 2.0) eqn:A2; destruct (Js.less liquidity2 0.3) eqn:B2;
  destruct (Js.greater percent1 0.5) eqn:C1; destruct (Js.less liquidity1 0.6) eqn:D1;
  destruct (Js.greater percent2 0.5) eqn:C2; destruct (Js.less liquidity2 0.6) eqn:D2;
  cbn [orb fst severity]; try lia; exfalso;
  repeat match goal with
  | H : Js.greater _ _ = true |- _ => apply greater_true in H
  | H : Js.greater _ _ = false |- _ => apply greater_false in H
  | H : Js.less _ _ = true |- _ => apply less_true in H
  | H : Js.less _ _ = false |- _ => apply less_false in H
  end; lra.
Qed.

Lemma recommendation_monotone_witness :
  (severity (fst (Calculator.generateRecommendation 0.4 0.9 None))
   <= severity (fst (Calculator.generateRecommendation 0.7 0.5 None)))%nat.
Proof. apply recommendation_monotone; vm_compute; discriminate. Defined.

(** ** Bounds on the projected execution price *)

Section PriceBounds.
Import Calculator.

Variables lo hi : Q.
Hypothesis lo_nonnegative : 0 <= lo.

Lemma product_between (x p : Q) :
  0 <= x -> lo <= p <= hi -> x * lo <= x * p <= x * hi.
Proof.
  intros Hx [Hl Hh]. rewrite !(Qmult_comm x).
  split; apply Qmult_le_compat_r; done.
Qed.

Lemma fill_cost_within orders : forall st,
  Forall (levelWithin lo hi) orders -> costWithin lo hi st -> costWithin lo hi (fillOrders orders st).
Proof.
  induction orders as [| o rest IH]; intros st Hall Hst; [done |].
  inversion Hall as [| ? ? [Hp Hq] Hrest]; subst.
  simpl. destruct (Js.lessEq (remainingQuantity st) 0) eqn:E; [done |].
  apply lessEq_false in E. apply IH; [done |].
  destruct Hst as (Hrem & Hex & Hlo & Hhi).
  set (f := Qmin (remainingQuantity st) (order_quantity o)).
  assert (0 <= f) as Hf by (apply Q.min_glb; lra).
  pose proof (Q.le_min_l (remainingQuantity st) (order_quantity o)) as Hle. fold f in Hle.
  destruct (product_between f (price o) Hf Hp) as [Hfl Hfh].
  unfold costWithin. cbn [remainingQuantity executedQuantity totalCost].
  rewrite !Qmult_plus_distr_r, (Qmult_comm lo f), (Qmult_comm hi f).
  repeat split; lra.
Qed.

Lemma fill_covers orders : forall st,
  Forall (levelWithin lo hi) orders ->
  remainingQuantity st <= offered orders ->
  remainingQuantity (fillOrders orders st) <= 0.
Proof.
  induction orders as [| o rest IH]; intros st Hall Hrem; [done |].
  inversion Hall as [| ? ? [Hp Hq] Hrest]; subst.
  simpl. destruct (Js.lessEq (remainingQuantity st) 0) eqn:E;
    [by apply lessEq_true in E |].
  apply lessEq_false in E. apply IH; [done |].
  cbn [remainingQuantity]. simpl in Hrem.
  assert (0 <= offered rest) as Hoff.
  { clear -Hrest. induction Hrest as [| x l [_ Hx] _ IHl]; simpl; [lra |]. lra. }
  destruct (Q.min_spec (remainingQuantity st) (order_quantity o)) as [[_ ->] | [_ ->]]; lra.
Qed.

Lemma last_within (orders : list Order) worst :
  Forall (levelWithin lo hi) orders -> last orders = Some worst -> levelWithin lo hi worst.
Proof.
  intros Hall Hl. rewrite Forall_forall in Hall. apply Hall.
  by apply last_Some_elem_of.
Qed.

Lemma execution_price_within qty s depth :
  0 < qty ->
  Calculator.sideOrders s depth <> [] ->
  Forall (levelWithin lo hi) (Calculator.sideOrders s depth) ->
  lo <= calculateExecutionPrice qty s depth <= hi * 1.02
  /\ (qty <= offered (Calculator.sideOrders s depth) ->
      calculateExecutionPrice qty s depth <= hi).
Proof.
  intros Hq Hne Hall. unfold calculateExecutionPrice. cbv zeta.
  set (orders := sideOrders s depth) in *.
  set (init := {| remainingQuantity := qty; totalCost := 0; executedQuantity := 0 |}).
  assert (costWithin lo hi init) as Hinit by (unfold costWithin, init; simpl; lra).
  pose proof (fill_cost_within orders init Hall Hinit) as (Hrem & Hex & Hlo & Hhi).
  pose proof (fill_conserves_quantity orders init) as Hsum.
  cbn [executedQuantity remainingQuantity init] in Hsum.
  pose proof (fill_covers orders init Hall) as Hcov. cbn [remainingQuantity init] in Hcov.
  set (st := fillOrders orders init) in *. clearbody st.
  assert (0 <= hi) as Hhi0.
  { destruct orders as [| o ?]; [done |]. inversion Hall as [| ? ? [[? ?] ?] ?]. lra. }
  unfold fillRemainder.
  destruct (Js.greater (remainingQuantity st) 0) eqn:G.
  - apply greater_true in G.
    destruct (last orders) as [worst |] eqn:L;
      [| by destruct orders using rev_ind; [| rewrite last_snoc in L]].
    destruct (last_within orders worst Hall L) as [[Hwl Hwh] _].
    cbn [executedQuantity totalCost].
    set (r := remainingQuantity st) in *. set (x := executedQuantity st) in *.
    set (c := totalCost st) in *.
    assert (0 < x + r) as Hpos by lra.
    pose proof Hpos as Hpos'. apply greater_true in Hpos'. rewrite Hpos'.
    assert (0 <= r) as Hr0 by lra.
    assert (r * lo <= r * price worst * 1.02 <= r * hi * 1.02) as [Hrl Hrh].
    { destruct (product_between r (price worst) Hr0 (conj Hwl Hwh)) as [H1 H2].
      assert (0 <= r * price worst) by (apply Qmult_le_0_compat; lra). lra. }
    assert (0 <= hi * x) as Hhx by (apply Qmult_le_0_compat; lra).
    split; [split |].
    + apply Qle_shift_div_l; [done |].
      rewrite Qmult_plus_distr_r, (Qmult_comm lo r). lra.
    + apply Qle_shift_div_r; [done |].
      assert (hi * 1.02 * (x + r) == hi * x * 1.02 + r * hi * 1.02) as -> by ring. lra.
    + intros Hoff. specialize (Hcov Hoff). lra.
  - apply greater_false in G.
    assert (executedQuantity st == qty) as Hx by lra.
    assert (0 < executedQuantity st) as Hpos by lra.
    pose proof Hpos as Hpos'. apply greater_true in Hpos'. rewrite Hpos'.
    assert (0 <= hi * executedQuantity st) by (apply Qmult_le_0_compat; lra).
    split; [split |].
    + apply Qle_shift_div_l; [done |]. lra.
    + apply Qle_shift_div_r; [done |].
      assert (hi * 1.02 * executedQuantity st == hi * executedQuantity st * 1.02) as -> by ring.
      lra.
    + intros _. apply Qle_shift_div_r; [done |]. lra.
Qed.
End PriceBounds.

(** ** Realised slippage *)

(** X6.  For a positive expected price [calculateActualSlippage] returns an
    amount and a percentage that are not negative, both 0 exactly when the
    actual price equals the expected one, and a total cost of amount times
    quantity; an expected price of 0 gives no finite result. *)
Theorem actual_slippage_positive_price (expected actual qty : Q) :
  Calculator.calculateActualSlippage 0 actual qty = NotFinite
  /\ (0 < expected ->
      exists r,
        Calculator.calculateActualSlippage expected actual qty = Returns r
        /\ 0 <= Calculator.act_slippageAmount r
        /\ 0 <= Calculator.act_slippagePercent r
        /\ (Calculator.act_slippageAmount r == 0 <-> actual == expected)
        /\ (Calculator.act_slippagePercent r == 0 <-> actual == expected)
        /\ Calculator.act_totalCost r == Calculator.act_slippageAmount r * qty).
Proof.
  split; [reflexivity |]. intros Hpos.
  unfold Calculator.calculateActualSlippage. cbv zeta.
  rewrite div_returns by lra. cbn [Js.bind]. eexists. split; [reflexivity |].
  cbn [Calculator.act_slippageAmount Calculator.act_slippagePercent Calculator.act_totalCost].
  pose proof (Qabs_nonneg (actual - expected)) as Hnn.
  set (a := Qabs (actual - expected)) in *.
  assert (a == 0 <-> actual == expected) as Hzero.
  { unfold a. split; intros H.
    - pose proof (Qabs_Qle_condition (actual - expected) 0) as [Hc _].
      destruct Hc as [? ?]; lra.
    - assert (actual - expected == 0) as -> by lra. reflexivity. }
  assert (0 <= a / expected) as Hdiv by (apply Qle_shift_div_l; lra).
  split; [done |]. split; [lra |]. split; [done |]. split; [| reflexivity].
  rewrite <- Hzero. split; intros H.
  - assert (a == a / expected * 100 * expected / 100) as -> by (field; lra).
    rewrite H. field.
  - rewrite H. field. lra.
Qed.

Lemma actual_slippage_positive_price_witness :
  exists r,
    Calculator.calculateActualSlippage 45000 45050 1.5 = Returns r
    /\ 0 <= Calculator.act_slippagePercent r.
Proof.
  destruct (proj2 (actual_slippage_positive_price 45000 45050 1.5)) as (r & Hr & _ & Hp & _);
    [reflexivity |].
  exists r. split; [exact Hr | exact Hp].
Defined.

(** ** Historical statistics *)

Section HistoryRecords.
Import Calculator History.

Lemma applyAll_snoc history us u :
  applyAll history (us ++ [u]) = applyUpdate (applyAll history us) u.
Proof. unfold applyAll. by rewrite foldl_app. Qed.

Lemma latestUpdate_snoc sym us u :
  latestUpdate sym (us ++ [u])
  = if String.eqb (upd_symbol u) sym then Some (upd_now u) else latestUpdate sym us.
Proof.
  unfold latestUpdate. rewrite List.filter_app. cbn [List.filter].
  destruct (String.eqb (upd_symbol u) sym).
  - rewrite fmap_app. cbn [fmap list_fmap]. by rewrite last_snoc.
  - by rewrite app_nil_r.
Qed.

(** A record names its symbol and carries the time of the symbol's latest
    update. *)
Lemma applyAll_latest sym us :
  match applyAll ∅ us !! sym with
  | None => True
  | Some h => hist_symbol h = sym /\ latestUpdate sym us = Some (lastUpdated h)
  end.
Proof.
  induction us as [| u us IH] using rev_ind;
    [unfold applyAll; cbn [foldl]; by rewrite lookup_empty |].
  rewrite applyAll_snoc, latestUpdate_snoc. unfold applyUpdate.
  destruct (String.eqb (upd_symbol u) sym) eqn:E.
  - apply String.eqb_eq in E. subst sym. unfold updateHistoricalSlippage.
    destruct (applyAll ∅ us !! upd_symbol u); by rewrite lookup_insert_eq.
  - apply String.eqb_neq in E. by rewrite update_other.
Qed.
End HistoryRecords.

(** X7.  In the statistics built by any sequence of updates from the empty
    map, a symbol has a record exactly when it was updated; the record names
    the symbol, its sample count is the number of that symbol's updates (at
    least 1), whatever updates of other symbols came between, and its
    [lastUpdated] is the time of the symbol's latest update. *)
Theorem history_records_consistent (us : list History.Update) (sym : string) :
  match History.applyAll ∅ us !! sym with
  | None => History.valuesFor sym us = []
  | Some h =>
      hist_symbol h = sym
      /\ sampleCount h = Z.of_nat (length (History.valuesFor sym us))
      /\ (1 <= sampleCount h)%Z
      /\ latestUpdate sym us = Some (lastUpdated h)
  end.
Proof.
  pose proof (applyAll_tracks sym us ∅ []) as Ht.
  rewrite lookup_empty, app_nil_l in Ht. specialize (Ht eq_refl).
  pose proof (applyAll_latest sym us) as Hl.
  destruct (History.applyAll ∅ us !! sym) as [h |]; [| exact Ht].
  destruct Ht as (Hne & Hcount & _). destruct Hl as [Hsym Hlast].
  split; [exact Hsym |]. split; [exact Hcount |]. split; [| exact Hlast].
  rewrite Hcount. destruct (History.valuesFor sym us); [done | simpl; lia].
Qed.

(** X8.  [clearHistoricalData] with a symbol removes that symbol's record
    and no other, so that the symbol's next update starts again at a sample
    count of 1; without a symbol, or with the empty string, it removes
    every record. *)
Theorem clear_historical_data (history : gmap string HistoricalSlippage)
    (sym : string) (now : Z) (v : Q) :
  Calculator.clearHistoricalData None history = ∅
  /\ Calculator.clearHistoricalData (Some EmptyString) history = ∅
  /\ (sym <> EmptyString ->
      Calculator.clearHistoricalData (Some sym) history !! sym = None
      /\ (forall other, other <> sym ->
            Calculator.clearHistoricalData (Some sym) history !! other = history !! other)
      /\ Calculator.updateHistoricalSlippage now sym v
           (Calculator.clearHistoricalData (Some sym) history) !! sym
         = Some {| hist_symbol := sym; averageSlippage := v; maxSlippage := v;
                   sampleCount := 1; lastUpdated := now |}).
Proof.
  split; [done |]. split; [done |]. intros Hne.
  unfold Calculator.clearHistoricalData.
  assert (String.eqb sym EmptyString = false) as -> by (by apply String.eqb_neq).
  cbn [negb]. split; [apply lookup_delete_eq |].
  split; [intros other Ho; by apply lookup_delete_ne |].
  unfold Calculator.updateHistoricalSlippage.
  rewrite lookup_delete_eq. apply lookup_insert_eq.
Qed.

Lemma clear_historical_data_witness :
  Calculator.clearHistoricalData (Some "BTC/USD"%string)
    (Calculator.updateHistoricalSlippage 1 "BTC/USD" 0.3 ∅) !! "BTC/USD"%string = None.
Proof.
  refine (proj1 (proj2 (proj2 (clear_historical_data
            (Calculator.updateHistoricalSlippage 1 "BTC/USD" 0.3 ∅) "BTC/USD" 0 0)) _)).
  discriminate.
Defined.

(** ** Configurations *)

(** What [validateConfig] accepts: a [maxSlippagePercent] in [0, 100] and a
    [maxExecutionTimeMs] that is absent, zero or at least 100; every other
    configuration is rejected with a [BadRequestException]. *)
Lemma validate_config_accepts (config : SlippageConfigDto) :
  (Protection.validateConfig config = Returns tt
   <-> 0 <= maxSlippagePercent config <= 100
       /\ match maxExecutionTimeMs config with
          | Some ms => ms == 0 \/ 100 <= ms
          | None => True
          end)
  /\ (Protection.validateConfig config = Returns tt
      \/ exists message, Protection.validateConfig config = Throws (BadRequestException message)).
Proof.
  unfold Protection.validateConfig.
  destruct (Js.less (maxSlippagePercent config) 0) eqn:A;
    [apply less_true in A | apply less_false in A];
  (destruct (Js.greater (maxSlippagePercent config) 100) eqn:B;
    [apply greater_true in B | apply greater_false in B]); cbn [orb];
  try (split; [split; [discriminate | intros [[? ?] _]; lra] | right; eauto]).
  destruct (maxExecutionTimeMs config) as [ms |]; [| split; [tauto | by left]].
  destruct (Js.truthy ms) eqn:T; cbn [andb].
  - apply truthy_true in T.
    destruct (Js.less ms 100) eqn:L; [apply less_true in L | apply less_false in L].
    + split; [| right; eauto].
      split; [discriminate | intros [_ [H | H]]; [contradiction | lra]].
    + split; [| by left]. split; [intros _; split; [done | by right] | done].
  - apply not_true_iff_false in T. rewrite truthy_true in T.
    assert (ms == 0) as Hz by (destruct (Qeq_dec ms 0); [done | contradiction]).
    split; [| by left]. split; [intros _; split; [done | by left] | done].
Qed.

Section StoredConfigurations.
Import Protection.

Lemma validated_in_range config : validateConfig config = Returns tt -> configInRange config.
Proof. intros H. by apply (proj1 (validate_config_accepts config)) in H as [? _]. Qed.

Lemma validated_overrides_in_range overrides :
  validateOverrides overrides = Returns tt ->
  Forall (fun kv => configInRange (snd kv)) overrides.
Proof.
  induction overrides as [| [k c] rest IH]; [constructor |].
  cbn [validateOverrides]. destruct (validateConfig c) as [[] | |] eqn:E; try discriminate.
  cbn [Js.bind]. intros H. constructor; [by apply validated_in_range | by apply IH].
Qed.

Lemma default_config_in_range : configInRange DEFAULT_CONFIG.
Proof. split; vm_compute; discriminate. Qed.

Lemma map_set_in_range k c (m : list (string * SlippageConfigDto)) :
  configInRange c ->
  Forall (fun kv => configInRange (snd kv)) m ->
  Forall (fun kv => configInRange (snd kv)) (JsMap.set k c m).
Proof.
  intros Hc. induction 1 as [| [k' c'] rest Hkv Hrest IH]; cbn [JsMap.set];
    [constructor; [exact Hc | constructor] |].
  destruct (String.eqb k k'); constructor; done.
Qed.

Lemma map_get_in_range k c (m : list (string * SlippageConfigDto)) :
  Forall (fun kv => configInRange (snd kv)) m ->
  JsMap.get k m = Some c -> configInRange c.
Proof.
  intros Hall. unfold JsMap.get.
  destruct (List.find _ m) as [[k' c'] |] eqn:F; [| discriminate].
  intros [= <-]. apply List.find_some in F as [Hin _].
  rewrite Forall_forall in Hall. apply (Hall (k', c')). by apply list_elem_of_In.
Qed.

Lemma call_keeps_range c (s : State) : storeInRange s -> storeInRange (snd (runCall c s)).
Proof.
  intros Hs. destruct c as [now user config overrides | now user sym config | user];
    cbn [runCall].
  - unfold setUserPreferences, bindM, lift, modify.
    destruct (validateConfig config) as [[] | |] eqn:V; [| done | done].
    destruct (match overrides with Some o => _ | None => _ end) as [[] | |] eqn:O;
      [| done | done].
    cbn [snd]. unfold storeInRange, setUserPreferencesMap. cbn [userPreferences].
    apply map_Forall_insert_2; [| done].
    split; cbn [defaultConfig symbolOverrides]; [by apply validated_in_range |].
    destruct overrides as [o |]; [by apply validated_overrides_in_range | constructor].
  - unfold setSymbolOverride, bindM, lift, gets, modify.
    destruct (validateConfig config) as [[] | |] eqn:V; [| done | done].
    cbn [snd]. unfold storeInRange, setUserPreferencesMap. cbn [userPreferences].
    apply map_Forall_insert_2; [| done].
    destruct (userPreferences s !! user) as [p |] eqn:E.
    + destruct (Hs _ _ E) as [Hd Ho].
      split; cbn [defaultConfig symbolOverrides option_fmap fmap default mbind option_bind].
      * done.
      * apply map_set_in_range; [by apply validated_in_range | done].
    + split; cbn [defaultConfig symbolOverrides option_fmap fmap default mbind option_bind].
      * apply default_config_in_range.
      * apply map_set_in_range; [by apply validated_in_range | constructor].
  - unfold clearUserPreferences, modify. cbn [snd].
    unfold storeInRange, setUserPreferencesMap. cbn [userPreferences].
    destruct user as [u |]; [| apply map_Forall_empty].
    destruct (Js.truthyStr (Some u)); [| apply map_Forall_empty].
    by apply map_Forall_delete.
Qed.

Lemma calls_keep_range cs : forall s : State, storeInRange s -> storeInRange (runCalls cs s).
Proof.
  induction cs as [| c cs IH]; intros s Hs; [done |].
  unfold runCalls. cbn [foldl]. apply IH. by apply call_keeps_range.
Qed.

Lemma applicable_config_in_range (s : State) user sym :
  storeInRange s ->
  configInRange (getApplicableConfig (userPreferences s) user sym None).
Proof.
  intros Hs. unfold getApplicableConfig.
  destruct user as [u |]; [| apply default_config_in_range].
  destruct (Js.truthyStr (Some u)); [| apply default_config_in_range].
  destruct (userPreferences s !! u) as [p |] eqn:E; [| apply default_config_in_range].
  destruct (Hs _ _ E) as [Hd Ho].
  destruct sym as [sy |]; [| done].
  destruct (symbolOverrides p) as [o |]; [| done].
  destruct (Js.truthyStr (Some sy) && JsMap.has sy o); [| done].
  destruct (JsMap.get sy o) as [c |] eqn:G; [| done].
  cbn [default]. eapply map_get_in_range; [exact Ho | exact G].
Qed.
End StoredConfigurations.

(** X9.  Whatever sequence of [setUserPreferences], [setSymbolOverride]
    and [clearUserPreferences] calls is made on a new service, returning or
    throwing, every stored configuration keeps [maxSlippagePercent] in
    [0, 100], and so does the configuration that applies to any user and
    symbol when no explicit override is passed. *)
Theorem stored_configurations_in_range (cs : list PreferenceCall)
    (user sym : option string) :
  storeInRange (runCalls cs initialState)
  /\ configInRange
       (Protection.getApplicableConfig (userPreferences (runCalls cs initialState))
          user sym None).
Proof.
  assert (storeInRange (runCalls cs initialState)) as H.
  { apply calls_keep_range. unfold storeInRange. apply map_Forall_empty. }
  split; [done | by apply applicable_config_in_range].
Qed.

Section MapLaws.
Context {V : Type}.
Implicit Types (m : list (string * V)) (k : string) (v : V).

Lemma map_get_set_eq k v m : JsMap.get k (JsMap.set k v m) = Some v.
Proof.
  unfold JsMap.get. induction m as [| [k' v'] rest IH]; cbn [JsMap.set List.find fst].
  - by rewrite String.eqb_refl.
  - destruct (String.eqb k k') eqn:E; cbn [List.find fst].
    + by rewrite String.eqb_refl.
    + by rewrite E.
Qed.

Lemma map_get_set_ne k k' v m : k' <> k -> JsMap.get k' (JsMap.set k v m) = JsMap.get k' m.
Proof.
  intros Hne. apply String.eqb_neq in Hne.
  unfold JsMap.get. induction m as [| [k0 v0] rest IH]; cbn [JsMap.set List.find fst].
  - by rewrite Hne.
  - destruct (String.eqb k k0) eqn:E; cbn [List.find fst].
    + apply String.eqb_eq in E. subst k0. by rewrite Hne.
    + destruct (String.eqb k' k0); [done | exact IH].
Qed.

Lemma map_has_get k m : JsMap.has k m = true <-> is_Some (JsMap.get k m).
Proof. unfold JsMap.has. apply bool_decide_eq_true. Qed.
End MapLaws.

Section Resolution.
Import Protection.

Lemma truthyStr_nonempty (u : string) : u <> EmptyString -> Js.truthyStr (Some u) = true.
Proof. intros H. unfold Js.truthyStr. apply negb_true_iff. by apply String.eqb_neq. Qed.

(** The configuration of a user who has preferences. *)
Lemma applicable_config_of_user prefs u p sym :
  u <> EmptyString -> prefs !! u = Some p ->
  getApplicableConfig prefs (Some u) (Some sym) None
  = match symbolOverrides p ≫= JsMap.get sym with
    | Some c => if Js.truthyStr (Some sym) then c else defaultConfig p
    | None => defaultConfig p
    end.
Proof.
  intros Hu Hp. unfold getApplicableConfig.
  rewrite truthyStr_nonempty, Hp by done.
  destruct (symbolOverrides p) as [o |]; [| done]. cbn [mbind option_bind].
  destruct (JsMap.get sym o) as [c |] eqn:G.
  - assert (JsMap.has sym o = true) as -> by (apply map_has_get; by rewrite G).
    cbn [default]. by destruct (Js.truthyStr (Some sym)).
  - assert (JsMap.has sym o = false) as ->.
    { apply not_true_iff_false. rewrite map_has_get, G. by intros [? ?]. }
    by rewrite andb_false_r.
Qed.

Lemma applicable_config_no_user prefs u sym :
  prefs !! u = None -> getApplicableConfig prefs (Some u) sym None = DEFAULT_CONFIG.
Proof.
  intros Hp. unfold getApplicableConfig. rewrite Hp. by destruct (Js.truthyStr (Some u)).
Qed.
End Resolution.

(** X10.  After [setSymbolOverride] with a configuration that
    [validateConfig] accepts, for a user and a symbol that are not the empty
    string: the configuration applies to that user's trades of that symbol;
    for the user's other symbols the applicable configuration is what it
    was; reports and history are untouched. *)
Theorem symbol_override_round_trip (s : State) (now : Z) (user sym : string)
    (config : SlippageConfigDto) :
  Protection.validateConfig config = Returns tt ->
  user <> EmptyString -> sym <> EmptyString ->
  let s' := snd (Protection.setSymbolOverride now user sym config s) in
  fst (Protection.setSymbolOverride now user sym config s) = Returns tt
  /\ Protection.getApplicableConfig (userPreferences s') (Some user) (Some sym) None = config
  /\ (forall other, other <> sym ->
      Protection.getApplicableConfig (userPreferences s') (Some user) (Some other) None
      = Protection.getApplicableConfig (userPreferences s) (Some user) (Some other) None)
  /\ historicalSlippage s' = historicalSlippage s
  /\ heap s' = heap s /\ slippageReports s' = slippageReports s.
Proof.
  intros Hv Hu Hs. cbv zeta.
  unfold Protection.setSymbolOverride, bindM, lift, gets, modify.
  rewrite Hv. cbn [fst snd].
  split; [done |].
  set (p' := {| userId := user |}).
  set (s' := setUserPreferencesMap _ s).
  assert (userPreferences s' !! user = Some p') as Hp'
    by (unfold s', setUserPreferencesMap; cbn [userPreferences]; apply lookup_insert_eq).
  split; [| split].
  - rewrite (applicable_config_of_user _ user p' sym Hu Hp').
    cbn [symbolOverrides p' mbind option_bind]. rewrite map_get_set_eq.
    by rewrite truthyStr_nonempty.
  - intros other Ho.
    rewrite (applicable_config_of_user _ user p' other Hu Hp').
    cbn [symbolOverrides defaultConfig p' mbind option_bind].
    rewrite map_get_set_ne by done.
    destruct (userPreferences s !! user) as [p |] eqn:E.
    + rewrite (applicable_config_of_user _ user p other Hu E).
      cbn [mbind option_bind option_fmap fmap default].
      by destruct (symbolOverrides p).
    + rewrite applicable_config_no_user by done.
      by cbn [mbind option_bind option_fmap fmap default JsMap.get List.find].
  - done.
Qed.

Lemma symbol_override_round_trip_witness :
  Protection.getApplicableConfig
    (userPreferences
       (snd (Protection.setSymbolOverride 0 "user123" "BTC/USD"
               (sampleConfig 0.2 STRICT None) initialState)))
    (Some "user123"%string) (Some "BTC/USD"%string) None
  = sampleConfig 0.2 STRICT None.
Proof.
  refine (proj1 (proj2 (symbol_override_round_trip initialState 0 "user123" "BTC/USD"
                          (sampleConfig 0.2 STRICT None) _ _ _))).
  - reflexivity.
  - discriminate.
  - discriminate.
Defined.

(** X11.  After [setUserPreferences] with a configuration and overrides
    that [validateConfig] accepts, [getUserPreferences] returns exactly what
    was written and the preferences of other users are untouched.  The
    write replaces the user's symbol overrides: written without overrides,
    the configuration applies to every symbol, also one that had an
    override before. *)
Theorem user_preferences_round_trip (s : State) (now : Z) (user : string)
    (config : SlippageConfigDto) (overrides : option (list (string * SlippageConfigDto))) :
  Protection.validateConfig config = Returns tt ->
  match overrides with
  | Some o => Protection.validateOverrides o = Returns tt
  | None => True
  end ->
  let s' := snd (Protection.setUserPreferences now user config overrides s) in
  fst (Protection.setUserPreferences now user config overrides s) = Returns tt
  /\ Protection.getUserPreferences user s'
     = (Returns (Some {| userId := user; defaultConfig := config;
                         symbolOverrides := overrides; prefs_lastUpdated := now |}), s')
  /\ (forall u, u <> user -> userPreferences s' !! u = userPreferences s !! u)
  /\ (user <> EmptyString -> overrides = None ->
      forall sym, Protection.getApplicableConfig (userPreferences s') (Some user) sym None
                  = config).
Proof.
  intros Hv Ho. cbv zeta.
  unfold Protection.setUserPreferences, bindM, lift, modify.
  rewrite Hv.
  assert (match overrides with
          | Some o => Protection.validateOverrides o
          | None => Returns tt
          end = Returns tt) as Ho' by (by destruct overrides).
  rewrite Ho'. cbn [fst snd].
  set (s' := setUserPreferencesMap _ s).
  assert (userPreferences s' !! user
          = Some {| userId := user; defaultConfig := config;
                    symbolOverrides := overrides; prefs_lastUpdated := now |}) as Hp
    by (unfold s', setUserPreferencesMap; cbn [userPreferences]; apply lookup_insert_eq).
  split; [done |]. split; [| split].
  - unfold Protection.getUserPreferences, gets. by rewrite Hp.
  - intros u Hne. unfold s', setUserPreferencesMap. cbn [userPreferences].
    by rewrite lookup_insert_ne.
  - intros Hu -> sym. unfold Protection.getApplicableConfig.
    rewrite truthyStr_nonempty, Hp by done. cbn [symbolOverrides defaultConfig].
    by destruct sym.
Qed.

Lemma user_preferences_round_trip_witness :
  let s1 := snd (Protection.setSymbolOverride 0 "user123" "BTC/USD"
                   (sampleConfig 0.2 STRICT None) initialState) in
  let s2 := snd (Protection.setUserPreferences 1 "user123"
                   (sampleConfig 0.5 MODERATE None) None s1) in
  Protection.getApplicableConfig (userPreferences s2) (Some "user123"%string)
    (Some "BTC/USD"%string) None
  = sampleConfig 0.5 MODERATE None.
Proof.
  intros s1 s2.
  refine (proj2 (proj2 (proj2 (user_preferences_round_trip s1 1 "user123"
            (sampleConfig 0.5 MODERATE None) None _ _))) _ _ _).
  - reflexivity.
  - exact I.
  - discriminate.
  - reflexivity.
Defined.

(** X13.  [clearUserPreferences] with a user id that is not the empty
    string removes that user's preferences and no others, so that the
    system default applies to the user again; without a user id, or with
    the empty string, it removes the preferences of every user. *)
Theorem clear_user_preferences (s : State) (user : string) :
  userPreferences (snd (Protection.clearUserPreferences None s)) = ∅
  /\ userPreferences (snd (Protection.clearUserPreferences (Some EmptyString) s)) = ∅
  /\ (user <> EmptyString ->
      let s' := snd (Protection.clearUserPreferences (Some user) s) in
      userPreferences s' !! user = None
      /\ (forall sym, Protection.getApplicableConfig (userPreferences s') (Some user) sym None
                      = Protection.DEFAULT_CONFIG)
      /\ (forall u, u <> user -> userPreferences s' !! u = userPreferences s !! u)).
Proof.
  split; [done |]. split; [done |]. intros Hu. cbv zeta.
  unfold Protection.clearUserPreferences, modify, setUserPreferencesMap.
  rewrite truthyStr_nonempty by done. cbn [snd userPreferences].
  assert (delete user (userPreferences s) !! user = None) as Hnone by apply lookup_delete_eq.
  split; [done |]. split.
  - intros sym. by apply applicable_config_no_user.
  - intros u Hne. by apply lookup_delete_ne.
Qed.

Lemma clear_user_preferences_witness :
  userPreferences
    (snd (Protection.clearUserPreferences (Some "user123"%string)
            (snd (Protection.setUserPreferences 0 "user123"
                    (sampleConfig 0.3 STRICT None) None initialState))))
  !! "user123"%string = None.
Proof.
  refine (proj1 (proj2 (proj2 (clear_user_preferences
            (snd (Protection.setUserPreferences 0 "user123"
                    (sampleConfig 0.3 STRICT None) None initialState)) "user123")) _)).
  discriminate.
Defined.

(** ** Programs on the heap of report arrays *)

Section HeapPrograms.

Lemma hoare_bind {A B} (P : State -> Prop) (m : M A) (Q : A -> State -> Prop)
    (k : A -> M B) (R : B -> State -> Prop) :
  hoare P m Q -> (forall a, hoare (Q a) (k a) R) -> hoare P (bindM m k) R.
Proof.
  intros Hm Hk s Hs. destruct (Hm s Hs) as (a & s1 & Hrun & Hq).
  destruct (Hk a s1 Hq) as (b & s2 & Hrun2 & Hr).
  exists b, s2. unfold bindM. by rewrite Hrun.
Qed.

Lemma hoare_ret {A} (a : A) (Post : A -> State -> Prop) : hoare (Post a) (ret a) Post.
Proof. intros s Hs. by exists a, s. Qed.

Lemma hoare_weaken {A} (P P' : State -> Prop) (m : M A) (Q Q' : A -> State -> Prop) :
  (forall s, P' s -> P s) -> (forall a s, Q a s -> Q' a s) ->
  hoare P m Q -> hoare P' m Q'.
Proof.
  intros HP HQ Hm s Hs. destruct (Hm s (HP s Hs)) as (a & s' & ? & ?).
  exists a, s'. auto.
Qed.

Lemma hoare_pure {A} (fact : Prop) (P : State -> Prop) (m : M A) (Q : A -> State -> Prop) :
  (fact -> hoare P m Q) -> hoare (fun s => fact /\ P s) m Q.
Proof. intros H s [Hf Hs]. by apply H. Qed.

Variable s0 : State.
Hypothesis s0_well_formed : wellFormed s0.

Lemma holds_extends a xs s : holds s0 a xs s -> extends s0 s.
Proof. by intros [? _]. Qed.

Lemma hoare_log :
  hoare (extends s0) (gets slippageReports)
    (fun log s => log = slippageReports s0 /\ extends s0 s).
Proof.
  intros s Hs. exists (slippageReports s), s.
  split; [done |]. split; [apply Hs | done].
Qed.

Lemma alloc_holds xs :
  hoare (extends s0) (JsArray.alloc xs) (fun a s => holds s0 a xs s).
Proof.
  intros s (Hh & Hp & Hl & Hpre). eexists _, _. split; [reflexivity |].
  split; [| split; [| split]].
  - repeat split; try done. cbn [heap setHeap]. by apply prefix_app_r.
  - unfold newSince. by apply prefix_length.
  - cbn [heap setHeap]. rewrite length_app. simpl. lia.
  - unfold arrayAt. cbn [heap setHeap].
    by rewrite lookup_app_r, Nat.sub_diag.
Qed.

Lemma read_extends a :
  hoare (extends s0) (JsArray.read a) (fun xs s => xs = arrayAt a s /\ extends s0 s).
Proof. intros s Hs. by exists (arrayAt a s), s. Qed.

Lemma read_log s :
  extends s0 s -> arrayAt (slippageReports s0) s = reportLog s0.
Proof.
  intros Hs. destruct (extends_log s0 s s0_well_formed Hs) as [Hlog _].
  unfold reportLog in Hlog at 1. destruct Hs as (_ & _ & Hl & _). by rewrite Hl in Hlog.
Qed.

Lemma spread_log :
  hoare (extends s0) (JsArray.spread (slippageReports s0))
    (fun a s => holds s0 a (reportLog s0) s).
Proof.
  unfold JsArray.spread. eapply hoare_bind; [apply read_extends |].
  intros xs. intros s [-> Hs]. rewrite (read_log s Hs).
  by apply alloc_holds.
Qed.

Lemma filter_log p :
  hoare (extends s0) (JsArray.filter p (slippageReports s0))
    (fun a s => holds s0 a (List.filter p (reportLog s0)) s).
Proof.
  unfold JsArray.filter. eapply hoare_bind; [apply read_extends |].
  intros xs. intros s [-> Hs]. rewrite (read_log s Hs).
  by apply alloc_holds.
Qed.

Lemma filter_holds p a xs :
  hoare (holds s0 a xs) (JsArray.filter p a)
    (fun b s => holds s0 b (List.filter p xs) s).
Proof.
  unfold JsArray.filter. intros s (Hs & _ & _ & Hxs).
  destruct (read_extends a s Hs) as (ys & s1 & Hrun & -> & Hs1).
  unfold bindM. rewrite Hrun.
  assert (s1 = s) as -> by (unfold JsArray.read, gets in Hrun; congruence).
  rewrite Hxs. by apply alloc_holds.
Qed.

Lemma slice_holds n a xs :
  hoare (holds s0 a xs) (JsArray.slice n a)
    (fun b s => holds s0 b (Js.slice0 (Js.toInteger n) xs) s).
Proof.
  unfold JsArray.slice. intros s (Hs & _ & _ & Hxs).
  unfold bindM, JsArray.read, gets. rewrite Hxs. by apply alloc_holds.
Qed.

Lemma read_holds a xs :
  hoare (holds s0 a xs) (JsArray.read a) (fun ys s => ys = xs /\ holds s0 a xs s).
Proof.
  intros s Hs. exists xs, s. unfold JsArray.read, gets.
  destruct Hs as (? & ? & ? & Hxs). by rewrite Hxs.
Qed.

Lemma length_holds a xs :
  hoare (holds s0 a xs) (JsArray.length a)
    (fun n s => n = length xs /\ holds s0 a xs s).
Proof.
  unfold JsArray.length. eapply hoare_bind; [apply read_holds |].
  intros ys s [-> Hs]. by exists (length xs), s.
Qed.

Lemma sort_holds cmp a xs :
  hoare (holds s0 a xs) (JsArray.sort cmp a)
    (fun b s => b = a /\ holds s0 a (Js.sort cmp xs) s).
Proof.
  unfold JsArray.sort. intros s ((Hh & Hp & Hl & Hpre) & Hnew & Ha & Hxs).
  unfold bindM, JsArray.read, JsArray.write, gets, modify, ret. rewrite Hxs.
  eexists _, _. split; [reflexivity |]. split; [done |]. split; [| split; [| split]].
  - repeat split; try done. cbn [heap setHeap].
    destruct Hpre as [k Hk]. rewrite Hk, insert_app_r_alt by done. by eexists.
  - done.
  - cbn [heap setHeap]. by rewrite length_insert.
  - unfold arrayAt. cbn [heap setHeap]. by rewrite list_lookup_insert_eq.
Qed.

(** A filter that is applied or skipped. *)
Lemma stage_holds (c : bool) p a xs :
  hoare (holds s0 a xs) (if c then JsArray.filter p a else ret a)
    (fun b s => holds s0 b (List.filter (fun r => if c then p r else true) xs) s).
Proof.
  destruct c; [apply filter_holds |].
  assert (List.filter (fun _ => true) xs = xs) as ->
    by (induction xs as [| x xs IH]; [done | simpl; by rewrite IH]).
  apply (hoare_ret a (fun b s => holds s0 b xs s)).
Qed.

Lemma filter_twice {A} (p q : A -> bool) (l : list A) :
  List.filter q (List.filter p l) = List.filter (fun x => p x && q x) l.
Proof.
  induction l as [| x l IH]; [done |]. simpl.
  destruct (p x); simpl; [destruct (q x) |]; by rewrite IH.
Qed.

Lemma reports_query filters :
  hoare (extends s0) (Protection.getSlippageReports filters)
    (fun a s => holds s0 a (queryResult filters (reportLog s0)) s).
Proof.
  unfold Protection.getSlippageReports, queryResult, effectiveLimit, matchesFilters.
  cbv zeta.
  destruct (filters ≫= filter_symbol) as [sy |];
    destruct (filters ≫= startDate) as [d1 |];
    destruct (filters ≫= endDate) as [d2 |];
    destruct (filters ≫= limit) as [n |];
    try destruct (Js.truthy n).
  all: eapply hoare_bind; [apply hoare_log |]; intros log.
  all: apply hoare_pure; intros ->.
  all: eapply hoare_bind; [apply spread_log |]; intros r1.
  all: eapply hoare_bind;
       [first [apply stage_holds | apply (stage_holds false (fun _ => true))] |];
     intros r2.
  all: eapply hoare_bind;
       [first [apply filter_holds | apply (stage_holds false (fun _ => true))] |];
     intros r3.
  all: eapply hoare_bind;
       [first [apply filter_holds | apply (stage_holds false (fun _ => true))] |];
     intros r4.
  all: eapply hoare_bind; [apply stage_holds |]; intros r5.
  all: eapply hoare_bind; [apply sort_holds |]; intros r6.
  all: apply hoare_pure; intros _.
  all: (eapply hoare_weaken;
       [ |
        | first [eapply slice_holds
                | eapply hoare_ret with (Post := fun b s => holds s0 b _ s)]];
       [intros s Hs; exact Hs |]).
  all: intros b s Hs; cbv beta; rewrite !filter_twice in Hs.
  all: match goal with
     | |- holds _ _ ?l _ =>
         match type of Hs with holds _ _ ?l' _ => replace l with l'; [exact Hs |] end
     end.
  all: first [apply (f_equal (Js.slice0 _)) | idtac].
  all: apply (f_equal (Js.sort _)); apply List.filter_ext.
  all: intros r; cbn; rewrite ?andb_true_r, ?andb_assoc, ?andb_true_r; reflexivity.
Qed.
End HeapPrograms.

(** ** The sort *)

Section SortLaws.
Context {A : Type} (cmp : A -> A -> Z).

Lemma insertSorted_permutation x l : Js.insertSorted cmp x l ≡ₚ x :: l.
Proof.
  induction l as [| y l IH]; cbn [Js.insertSorted]; [done |].
  destruct (0 <? cmp x y)%Z; [| done].
  rewrite IH. apply Permutation_swap.
Qed.

Lemma sort_permutation l : Js.sort cmp l ≡ₚ l.
Proof.
  unfold Js.sort. induction l as [| x l IH]; cbn [foldr]; [done |].
  by rewrite insertSorted_permutation, IH.
Qed.
End SortLaws.

Section NewestFirst.
Import Protection.

Lemma insert_newest_first x l :
  newestFirst l -> newestFirst (Js.insertSorted byTimestampDescending x l).
Proof.
  unfold newestFirst. induction 1 as [| y l Hl IH Hy]; cbn [Js.insertSorted].
  - constructor; constructor.
  - unfold byTimestampDescending at 1.
    destruct (0 <? timestamp y - timestamp x)%Z eqn:E.
    + apply Z.ltb_lt in E. constructor; [exact IH |].
      rewrite insertSorted_permutation. constructor; [lia | done].
    + apply Z.ltb_ge in E. constructor; [by constructor |].
      constructor; [lia |]. eapply Forall_impl; [exact Hy |].
      intros z Hz. cbv beta in Hz. lia.
Qed.

Lemma sort_newest_first l : newestFirst (Js.sort byTimestampDescending l).
Proof.
  unfold Js.sort. induction l as [| x l IH]; cbn [foldr]; [constructor |].
  by apply insert_newest_first.
Qed.

Lemma take_newest_first n l : newestFirst l -> newestFirst (take n l).
Proof.
  unfold newestFirst. intros H. revert n.
  induction H as [| y l Hl IH Hy]; intros [| n]; cbn [take]; try constructor.
  - apply IH.
  - apply Forall_take. done.
Qed.

Lemma slice_newest_first n l : newestFirst l -> newestFirst (Js.slice0 n l).
Proof. intros H. unfold Js.slice0. destruct (0 <=? n)%Z; by apply take_newest_first. Qed.

(** The sort is stable: reports of one timestamp keep their order. *)
Lemma insert_same_timestamp t x l :
  List.filter (fun r => (timestamp r =? t)%Z) (Js.insertSorted byTimestampDescending x l)
  = List.filter (fun r => (timestamp r =? t)%Z) (x :: l).
Proof.
  induction l as [| y l IH]; cbn [Js.insertSorted]; [done |].
  unfold byTimestampDescending at 1.
  destruct (0 <? timestamp y - timestamp x)%Z eqn:E; [| done].
  apply Z.ltb_lt in E. cbn [List.filter] in *. rewrite IH.
  destruct (timestamp y =? t)%Z eqn:Ey; destruct (timestamp x =? t)%Z eqn:Ex; try done.
  apply Z.eqb_eq in Ey, Ex. lia.
Qed.

Lemma sort_same_timestamp t l :
  List.filter (fun r => (timestamp r =? t)%Z) (Js.sort byTimestampDescending l)
  = List.filter (fun r => (timestamp r =? t)%Z) l.
Proof.
  unfold Js.sort. induction l as [| x l IH]; cbn [foldr]; [done |].
  rewrite insert_same_timestamp. cbn [List.filter]. by rewrite IH.
Qed.
End NewestFirst.

Section QueryFacts.

Lemma slice_sublist {A} n (l : list A) : exists k, Js.slice0 n l = take k l.
Proof. unfold Js.slice0. destruct (0 <=? n)%Z; eauto. Qed.

Lemma query_result_members filters log r :
  r ∈ queryResult filters log -> r ∈ log /\ matchesFilters filters r = true.
Proof.
  unfold queryResult. cbv zeta. intros Hr.
  assert (r ∈ Js.sort Protection.byTimestampDescending
                (List.filter (matchesFilters filters) log)) as Hin.
  { destruct (effectiveLimit filters) as [n |]; [| done].
    destruct (slice_sublist n (Js.sort Protection.byTimestampDescending
                                 (List.filter (matchesFilters filters) log))) as [k Hk].
    rewrite Hk in Hr. by apply (subseteq_take k) in Hr. }
  rewrite sort_permutation in Hin. apply list_elem_of_In, List.filter_In in Hin.
  destruct Hin as [Hin Hm]. split; [by apply list_elem_of_In | done].
Qed.

Lemma query_result_newest_first filters log : newestFirst (queryResult filters log).
Proof.
  unfold queryResult. cbv zeta.
  destruct (effectiveLimit filters); [apply slice_newest_first |]; apply sort_newest_first.
Qed.
End QueryFacts.

(** X14.  [getSlippageReports] returns a new array in which every report
    comes from the log and passes every filter given, and no report is
    older than one that follows it.  When no limit takes effect the array
    holds exactly the matching reports of the log, those of equal timestamp
    in the order of the log. *)
Theorem reports_query_contents (s : State) (filters : option ReportFilters) :
  wellFormed s ->
  exists a s',
    Protection.getSlippageReports filters s = (Returns a, s')
    /\ (forall r, r ∈ arrayAt a s' ->
          r ∈ reportLog s /\ matchesFilters filters r = true)
    /\ newestFirst (arrayAt a s')
    /\ (effectiveLimit filters = None ->
        arrayAt a s' ≡ₚ List.filter (matchesFilters filters) (reportLog s)
        /\ forall t,
             List.filter (fun r => (timestamp r =? t)%Z) (arrayAt a s')
             = List.filter (fun r => (timestamp r =? t)%Z)
                 (List.filter (matchesFilters filters) (reportLog s))).
Proof.
  intros Hwf.
  destruct (reports_query s Hwf filters s (extends_refl s)) as (a & s' & Hrun & Hholds).
  destruct Hholds as (_ & _ & _ & Harr).
  exists a, s'. rewrite Harr. split; [done |].
  split; [intros r; apply query_result_members |].
  split; [apply query_result_newest_first |].
  intros Hlim. unfold queryResult. cbv zeta. rewrite Hlim.
  split; [apply sort_permutation | intros t; apply sort_same_timestamp].
Qed.

Lemma reports_query_contents_witness :
  exists a s',
    Protection.getSlippageReports None sampleState = (Returns a, s')
    /\ newestFirst (arrayAt a s').
Proof.
  destruct (reports_query_contents sampleState None) as (a & s' & Hrun & _ & Hsorted & _);
    [unfold wellFormed; simpl; lia |].
  exists a, s'. split; [exact Hrun | exact Hsorted].
Defined.

(** X15.  The length of the array [getSlippageReports] returns, with
    [matching] the number of reports of the log that pass the filters:
    without a limit, or with a limit of 0, all [matching] reports; with a
    limit that is not 0, [n] its integer part, the first [n] of them if
    [n >= 0], and all but the last [-n] of them if [n < 0]. *)
Theorem reports_query_limit (s : State) (filters : option ReportFilters) :
  wellFormed s ->
  exists a s',
    Protection.getSlippageReports filters s = (Returns a, s')
    /\ let matching := length (List.filter (matchesFilters filters) (reportLog s)) in
       let returned := length (arrayAt a s') in
       match filters ≫= limit with
       | None => returned = matching
       | Some q =>
           (q == 0 -> returned = matching)
           /\ (~ q == 0 -> (0 <= Js.toInteger q)%Z ->
               returned = Nat.min (Z.to_nat (Js.toInteger q)) matching)
           /\ (~ q == 0 -> (Js.toInteger q < 0)%Z ->
               returned = (matching - Z.to_nat (- Js.toInteger q))%nat)
       end.
Proof.
  intros Hwf.
  destruct (reports_query s Hwf filters s (extends_refl s)) as (a & s' & Hrun & Hholds).
  destruct Hholds as (_ & _ & _ & Harr).
  exists a, s'. split; [done |]. cbv zeta. rewrite Harr.
  unfold queryResult, effectiveLimit. cbv zeta.
  set (sorted := Js.sort _ _).
  assert (length sorted = length (List.filter (matchesFilters filters) (reportLog s)))
    as Hlen by (unfold sorted; by rewrite sort_permutation).
  destruct (filters ≫= limit) as [q |]; [| done].
  destruct (Js.truthy q) eqn:T.
  - apply truthy_true in T. split; [intros H; contradiction |].
    unfold Js.slice0. split; intros _ Hn.
    + apply Z.leb_le in Hn. rewrite Hn, length_take. lia.
    + apply Z.leb_gt in Hn. rewrite Hn, length_take. lia.
  - apply not_true_iff_false in T. rewrite truthy_true in T.
    split; [done |]. split; intros Hq; exfalso; by apply T.
Qed.

Lemma reports_query_limit_witness :
  exists a s',
    Protection.getSlippageReports
      (Some {| filter_symbol := None; startDate := None; endDate := None;
               onlyExceeded := None; limit := Some 1 |}) sampleState = (Returns a, s')
    /\ length (arrayAt a s') = 1%nat.
Proof.
  destruct (reports_query_limit sampleState
              (Some {| filter_symbol := None; startDate := None; endDate := None;
                       onlyExceeded := None; limit := Some 1 |}))
    as (a & s' & Hrun & Hlen); [unfold wellFormed; simpl; lia |].
  exists a, s'. split; [exact Hrun |].
  cbv zeta in Hlen. cbn [mbind option_bind limit] in Hlen.
  destruct Hlen as (_ & Hpos & _). rewrite Hpos; [reflexivity | discriminate | discriminate].
Defined.

(** ** Statistics of the log *)

Section Statistics.
Import Protection.

Lemma statistics_query (s0 : State) calendar now sym daysBack :
  wellFormed s0 ->
  hoare (extends s0) (getSlippageStatistics calendar now sym daysBack)
    (fun stats s =>
       stats = statisticsOf (relevantReports calendar now sym daysBack (reportLog s0))
       /\ extends s0 s).
Proof.
  intros Hwf. unfold getSlippageStatistics, statisticsOf. cbv zeta.
  eapply hoare_bind; [by apply hoare_log |]. intros log.
  apply hoare_pure. intros ->.
  eapply hoare_bind; [by apply filter_log |]. intros relevantLoc.
  fold (relevantReports calendar now sym daysBack (reportLog s0)).
  set (relevant := relevantReports calendar now sym daysBack (reportLog s0)).
  eapply hoare_bind; [by apply read_holds |]. intros xs.
  apply hoare_pure. intros ->.
  destruct (slippagePercent <$> relevant) as [| first others] eqn:E.
  - intros s Hs. eexists _, s. split; [reflexivity |]. split; [done |].
    by eapply holds_extends.
  - eapply hoare_bind; [by apply filter_holds |]. intros exceeded.
    eapply hoare_bind; [by apply length_holds |]. intros n.
    apply hoare_pure. intros ->.
    intros s Hs. eexists _, s. split; [reflexivity |]. split; [done |].
    by eapply holds_extends.
Qed.

Lemma maxOf_bounds x xs :
  x <= maxOf x xs /\ Forall (fun v => v <= maxOf x xs) xs.
Proof.
  unfold maxOf. revert x. induction xs as [| y ys IH]; intros x; cbn [foldl].
  - split; [lra | constructor].
  - destruct (IH (Qmax x y)) as [Hm Hall].
    pose proof (Q.le_max_l x y). pose proof (Q.le_max_r x y).
    split; [lra |]. constructor; [lra | done].
Qed.

Lemma minOf_bounds x xs :
  minOf x xs <= x /\ Forall (fun v => minOf x xs <= v) xs.
Proof.
  unfold minOf. revert x. induction xs as [| y ys IH]; intros x; cbn [foldl].
  - split; [lra | constructor].
  - destruct (IH (Qmin x y)) as [Hm Hall].
    pose proof (Q.le_min_l x y). pose proof (Q.le_min_r x y).
    split; [lra |]. constructor; [lra | done].
Qed.

Lemma maxOf_member x xs : In (maxOf x xs) (x :: xs).
Proof.
  unfold maxOf. revert x. induction xs as [| y ys IH]; intros x; cbn [foldl].
  - by left.
  - destruct (IH (Qmax x y)) as [Hm | Hm]; [| right; by right].
    rewrite <- Hm. unfold Qmax, GenericMinMax.gmax.
    destruct (x ?= y); [by left | right; by left | by left].
Qed.

Lemma minOf_member x xs : In (minOf x xs) (x :: xs).
Proof.
  unfold minOf. revert x. induction xs as [| y ys IH]; intros x; cbn [foldl].
  - by left.
  - destruct (IH (Qmin x y)) as [Hm | Hm]; [| right; by right].
    rewrite <- Hm. unfold Qmin, GenericMinMax.gmin.
    destruct (x ?= y); [by left | by left | right; by left].
Qed.

Lemma statistics_of_bounds relevant :
  let stats := statisticsOf relevant in
  totalTrades stats = Z.of_nat (length relevant)
  /\ tradesExceededLimits stats
     = Z.of_nat (length (List.filter (fun r => negb (withinLimits r)) relevant))
  /\ (0 <= tradesExceededLimits stats <= totalTrades stats)%Z
  /\ (relevant = [] ->
      stat_averageSlippage stats = 0 /\ stat_maxSlippage stats = 0
      /\ stat_minSlippage stats = 0 /\ stat_totalSlippageCost stats = 0)
  /\ (relevant <> [] ->
      In (stat_minSlippage stats) (slippagePercent <$> relevant)
      /\ In (stat_maxSlippage stats) (slippagePercent <$> relevant)
      /\ forall r, r ∈ relevant ->
           stat_minSlippage stats <= slippagePercent r <= stat_maxSlippage stats).
Proof.
  cbv zeta. unfold statisticsOf.
  destruct relevant as [| r0 rest]; cbn [fmap list_fmap].
  - cbn. repeat split; try done; lia.
  - cbn [totalTrades tradesExceededLimits stat_averageSlippage stat_maxSlippage
         stat_minSlippage stat_totalSlippageCost].
    split; [done |]. split; [done |]. split.
    { pose proof (List.filter_length_le (fun r => negb (withinLimits r)) (r0 :: rest)). lia. }
    split; [done |]. intros _.
    set (x := slippagePercent r0). set (xs := slippagePercent <$> rest).
    fold (fmap (M := list) slippagePercent rest). fold xs.
    destruct (maxOf_bounds x xs) as [Hx Hxs]. destruct (minOf_bounds x xs) as [Hn Hns].
    assert (Forall (fun v => minOf x xs <= v <= maxOf x xs) (x :: xs)) as Hall.
    { constructor; [lra |]. rewrite Forall_forall in *. intros v Hv.
      specialize (Hxs v Hv). specialize (Hns v Hv). cbv beta in *. lra. }
    split; [apply minOf_member |]. split; [apply maxOf_member |].
    intros r Hr. rewrite Forall_forall in Hall. apply (Hall (slippagePercent r)).
    change (x :: xs) with (slippagePercent <$> r0 :: rest).
    by apply list_elem_of_fmap_2.
Qed.
End Statistics.

(** X16.  [getSlippageStatistics] counts the reports of the log for the
    symbol that are not older than the cutoff: now moved back [daysBack]
    days, 7 by default, in the calendar of the host.  [totalTrades] is
    their number and [tradesExceededLimits] the number of those that were
    not within their limits; without such reports every field is 0;
    otherwise the minimum and the maximum are the slippage percentages of
    counted reports, and the percentage of every counted report lies
    between them. *)
Theorem statistics_consistent (s : State) (calendar : Z -> Z -> Z) (now : Z)
    (sym : string) (daysBack : option Z) :
  wellFormed s ->
  exists stats s',
    Protection.getSlippageStatistics calendar now sym daysBack s = (Returns stats, s')
    /\ let relevant := relevantReports calendar now sym daysBack (reportLog s) in
       totalTrades stats = Z.of_nat (length relevant)
       /\ tradesExceededLimits stats
          = Z.of_nat (length (List.filter (fun r => negb (withinLimits r)) relevant))
       /\ (0 <= tradesExceededLimits stats <= totalTrades stats)%Z
       /\ (relevant = [] ->
           stat_averageSlippage stats = 0 /\ stat_maxSlippage stats = 0
           /\ stat_minSlippage stats = 0 /\ stat_totalSlippageCost stats = 0)
       /\ (relevant <> [] ->
           In (stat_minSlippage stats) (slippagePercent <$> relevant)
           /\ In (stat_maxSlippage stats) (slippagePercent <$> relevant)
           /\ forall r, r ∈ relevant ->
                stat_minSlippage stats <= slippagePercent r <= stat_maxSlippage stats).
Proof.
  intros Hwf.
  destruct (statistics_query s calendar now sym daysBack Hwf s (extends_refl s))
    as (stats & s' & Hrun & -> & _).
  do 2 eexists. split; [exact Hrun |]. apply statistics_of_bounds.
Qed.

Lemma statistics_consistent_witness :
  exists stats s',
    Protection.getSlippageStatistics Protection.fixedOffsetCalendar 10 "BTC/USD" (Some 7%Z)
      sampleState = (Returns stats, s')
    /\ totalTrades stats = 2%Z.
Proof.
  destruct (statistics_consistent sampleState Protection.fixedOffsetCalendar 10 "BTC/USD"
              (Some 7%Z))
    as (stats & s' & Hrun & Htotal & _); [unfold wellFormed; simpl; lia |].
  exists stats, s'. split; [exact Hrun | exact Htotal].
Defined.

(** ** The threshold of a validation *)

Section Threshold.
Import Calculator Protection.

Lemma dynamic_tolerance_of_liquidity (base liquidity : Q) :
  0 <= base -> 0 <= liquidity <= 1 ->
  (0.5 <= liquidity -> calculateDynamicTolerance base liquidity 1.0 == base)
  /\ (liquidity < 0.5 ->
      calculateDynamicTolerance base liquidity 1.0 == base * (2 - liquidity)).
Proof.
  intros Hb [Hl0 Hl1]. unfold calculateDynamicTolerance. cbv zeta.
  assert (Js.greater 1.0 2.0 = false) as -> by (apply greater_false; lra).
  split; intros Hl.
  - assert (Js.less liquidity 0.5 = false) as -> by (apply less_false; lra).
    rewrite Q.min_l; [ring |].
    set (b := base) in *. lra.
  - assert (Js.less liquidity 0.5 = true) as -> by (by apply less_true).
    rewrite Q.min_l; [ring |].
    assert (base * (1 + (1 - liquidity) + 0) == base * 3 - base * (1 + liquidity)) as ->
      by ring.
    assert (0 <= base * (1 + liquidity)) by (apply Qmult_le_0_compat; lra).
    lra.
Qed.
End Threshold.

(** X17.  The threshold a validation compares the estimate with.  With
    dynamic adjustment off (disabled or absent in the applicable
    configuration) it is the configured [maxSlippagePercent].  With it on
    and a configured maximum that is not negative, the volatility being the
    constant 1.0, only liquidity widens it: the threshold is the configured
    maximum when the liquidity score of the estimate is at least 0.5, and
    above it (for a maximum above 0) when the score is below 0.5; it is
    never below the configured maximum and never above twice it. *)
Theorem validation_threshold (s : State) (market : MarketData)
    (context : TradeExecutionContext) (userConfig : option SlippageConfigDto)
    (est : SlippageEstimateResponseDto) :
  Calculator.estimateSlippage (historicalSlippage s) market
    (Protection.estimationOf context) None = Returns est ->
  let config :=
    Protection.getApplicableConfig (userPreferences s) (ctx_userId context)
      (Some (ctx_symbol context)) userConfig in
  let base := maxSlippagePercent config in
  exists res,
    Protection.validateTradeExecution market context userConfig s = (Returns res, s)
    /\ estimatedSlippage res = estimatedSlippagePercent est
    /\ (Js.truthyBool (enableDynamicSlippage config) = false ->
        maxAllowedSlippage res = base)
    /\ (Js.truthyBool (enableDynamicSlippage config) = true -> 0 <= base ->
        base <= maxAllowedSlippage res <= 2 * base
        /\ (0.5 <= liquidityScore est -> maxAllowedSlippage res == base)
        /\ (liquidityScore est < 0.5 -> 0 < base -> base < maxAllowedSlippage res)).
Proof.
  intros Hest config base.
  unfold Protection.validateTradeExecution, bindM, gets, lift, ret.
  fold config. rewrite Hest.
  eexists. split; [reflexivity |].
  assert (forall e m r w,
            maxAllowedSlippage (Protection.generateProtectionResult e m r w) = m
            /\ estimatedSlippage (Protection.generateProtectionResult e m r w) = e) as Hgen.
  { intros e m r w. unfold Protection.generateProtectionResult.
    destruct (negb w || bool_decide (r = delay)); [done |].
    by destruct (bool_decide (r = caution)). }
  destruct (Hgen (estimatedSlippagePercent est)
              (Protection.calculateMaxAllowedSlippage config (liquidityScore est))
              (recommendation est)
              (Js.lessEq (estimatedSlippagePercent est)
                 (Protection.calculateMaxAllowedSlippage config (liquidityScore est))))
    as [-> ->].
  split; [done |].
  unfold Protection.calculateMaxAllowedSlippage. cbv zeta. fold base.
  split; [by intros -> |].
  intros -> Hbase.
  destruct (estimate_fields _ _ _ _ _ Hest) as (_ & _ & _ & _ & _ & Hliq & _).
  apply liquidity_score_clamped in Hliq.
  destruct (dynamic_tolerance_of_liquidity base (liquidityScore est) Hbase Hliq)
    as [Hhigh Hlow].
  split; [| split; [exact Hhigh |]].
  2: { intros Hl Hpos. rewrite (Hlow Hl).
       assert (0 < base * (1 - liquidityScore est)) by (apply Qmult_lt_0_compat; lra).
       assert (base * (2 - liquidityScore est) == base + base * (1 - liquidityScore est))
         as -> by ring.
       lra. }
  destruct (Qlt_le_dec (liquidityScore est) 0.5) as [Hl | Hl].
  - rewrite (Hlow Hl).
    assert (0 <= base * liquidityScore est) by (apply Qmult_le_0_compat; lra).
    assert (0 <= base * (1 - liquidityScore est)) by (apply Qmult_le_0_compat; lra).
    assert (base * (2 - liquidityScore est) == base + base * (1 - liquidityScore est))
      as -> by ring.
    assert (base * (1 - liquidityScore est) == base - base * liquidityScore est) as E by ring.
    split; lra.
  - rewrite (Hhigh Hl). split; lra.
Qed.

Lemma validation_threshold_witness :
  exists res,
    Protection.validateTradeExecution sampleMarket (sampleContext None) None initialState
    = (Returns res, initialState)
    /\ 0.5 <= maxAllowedSlippage res <= 2 * 0.5.
Proof.
  edestruct (validation_threshold initialState sampleMarket (sampleContext None) None)
    as (res & Hrun & _ & _ & Hdyn); [vm_compute; reflexivity |].
  exists res. split; [exact Hrun |].
  apply Hdyn; [reflexivity | vm_compute; discriminate].
Defined.

(** ** The chunk size of a split order *)

Section ChunkSize.
Import Calculator Trading.

Variable history : gmap string HistoricalSlippage.
Variable feed : nat -> MarketData.
Variables (sym : string) (s : Side) (totalQuantity maxPercent : Q).

(** The search returns the largest size tried that passed, and the size it
    started with when none did. *)
Lemma search_rounds fuel : forall k low high optimal chunk,
  0 < totalQuantity ->
  searchChunkSize history feed sym s totalQuantity maxPercent fuel k low high optimal
  = Some (Returns chunk) ->
  let rounds := searchRounds history feed sym s totalQuantity maxPercent fuel k low high in
  Forall (roundWithin history feed sym s maxPercent low high) rounds
  /\ ((chunk = optimal /\ Forall (fun r => round_passed r = false) rounds)
      \/ (low < chunk < high /\ largestPassing chunk rounds)).
Proof.
  induction fuel as [| fuel IH]; intros k low high optimal chunk Ht;
    cbn [searchChunkSize searchRounds];
    destruct (Js.greater (high - low) (totalQuantity * 0.05)) eqn:Hw;
    try discriminate;
    try (intros [= <-]; split; [constructor | left; split; [done | constructor]]).
  apply greater_true in Hw.
  assert ((low + high) / 2 == low * (1 # 2) + high * (1 # 2)) as Hm by field.
  set (mid := (low + high) / 2) in *.
  destruct (estimateSlippage history (feed k) (requestFor sym s mid) None)
    as [est | |] eqn:Hest; try discriminate.
  assert (forall passed,
            passed = Js.lessEq (estimatedSlippagePercent est) maxPercent ->
            roundWithin history feed sym s maxPercent low high
              {| round_estimation := k; round_size := mid; round_passed := passed |})
    as Hhead.
  { intros passed Hp. split; [cbn [round_size]; split; lra |]. by exists est. }
  destruct (Js.lessEq (estimatedSlippagePercent est) maxPercent) eqn:Hle; intros Hrun.
  - destruct (IH (S k) mid high mid chunk Ht Hrun) as [Hall Hcases]. split.
    + constructor; [by apply Hhead |].
      eapply Forall_impl; [exact Hall |]. intros r [[Hr1 Hr2] Hr]. split; [| done].
      split; lra.
    + right. destruct Hcases as [[-> Hnone] | [[Hc1 Hc2] [Hex Hord]]].
      * split; [split; lra |]. split; [by left |].
        constructor; [cbn [round_passed round_size]; lra |].
        rewrite Forall_forall in Hall, Hnone. apply Forall_forall. intros r Hr.
        rewrite (Hnone r Hr). destruct (Hall r Hr) as [[Hr1 _] _]. exact Hr1.
      * split; [split; lra |]. split; [by right |].
        constructor; [cbn [round_passed round_size]; lra | done].
  - destruct (IH (S k) low mid optimal chunk Ht Hrun) as [Hall Hcases]. split.
    + constructor; [by apply Hhead |].
      eapply Forall_impl; [exact Hall |]. intros r [[Hr1 Hr2] Hr]. split; [| done].
      split; lra.
    + destruct Hcases as [[-> Hnone] | [[Hc1 Hc2] [Hex Hord]]].
      * left. split; [done |]. by constructor.
      * right. split; [split; lra |]. split; [by right |].
        constructor; [cbn [round_passed round_size]; lra | done].
Qed.

(** The search makes as many rounds as the width of its interval has to be
    halved to come down to the stopping width, each with the next
    estimation. *)
Lemma rounds_numbers (n : nat) : forall fuel k low high,
  (n <= fuel)%nat ->
  (forall j, ~ getCurrentMarketPrice (feed j) == 0) ->
  0 < totalQuantity -> 0 < low -> low <= high ->
  match n with
  | O => high - low <= totalQuantity * 0.05
  | S m => doubled m (totalQuantity * 0.05) < high - low
           <= doubled n (totalQuantity * 0.05)
  end ->
  round_estimation
    <$> searchRounds history feed sym s totalQuantity maxPercent fuel k low high
  = seq k n.
Proof.
  induction n as [| n IH]; intros fuel k low high Hfuel Hprices Ht Hlow Hlh Hw.
  - apply greater_false in Hw. destruct fuel; cbn [searchRounds]; by rewrite Hw.
  - destruct fuel as [| fuel]; [lia |]. cbn [searchRounds].
    destruct Hw as [Hw1 Hw2].
    assert (totalQuantity * 0.05 <= doubled n (totalQuantity * 0.05)) as Hc.
    { pose proof (doubled_more 0 n (totalQuantity * 0.05)) as H.
      rewrite Nat.add_0_r in H. cbn [doubled] in H. apply H. lra. }
    assert (Js.greater (high - low) (totalQuantity * 0.05) = true) as ->
      by (apply greater_true; lra).
    assert ((low + high) / 2 == low * (1 # 2) + high * (1 # 2)) as Hm by field.
    set (mid := (low + high) / 2) in *.
    assert (0 < mid) as Hmid by lra.
    destruct (chunk_estimate_returns history feed sym s Hprices k mid Hmid) as [est ->].
    cbn [doubled] in Hw2.
    assert (match n with
            | O => high - mid <= totalQuantity * 0.05
            | S m => doubled m (totalQuantity * 0.05) < high - mid
                     <= doubled n (totalQuantity * 0.05)
            end) as Hupper.
    { destruct n as [| m]; cbn [doubled] in *; [lra | split; lra]. }
    assert (match n with
            | O => mid - low <= totalQuantity * 0.05
            | S m => doubled m (totalQuantity * 0.05) < mid - low
                     <= doubled n (totalQuantity * 0.05)
            end) as Hlower.
    { destruct n as [| m]; cbn [doubled] in *; [lra | split; lra]. }
    destruct (Js.lessEq (estimatedSlippagePercent est) maxPercent);
      cbn [fmap list_fmap round_estimation seq]; f_equal;
      apply IH; try done; try lia; lra.
Qed.

Lemma rounds_skipped fuel k :
  totalQuantity < 0 ->
  searchRounds history feed sym s totalQuantity maxPercent fuel k
    (totalQuantity * 0.1) totalQuantity = [].
Proof.
  intros Ht.
  assert (Js.greater (totalQuantity - totalQuantity * 0.1) (totalQuantity * 0.05) = false)
    as H by (apply greater_false; lra).
  destruct fuel; cbn [searchRounds]; by rewrite H.
Qed.

Lemma chunks_in_range (chunk : Q) :
  0 < totalQuantity -> totalQuantity * 0.1 < chunk -> chunk <= totalQuantity ->
  (1 <= Qceiling (totalQuantity / chunk) <= 10)%Z.
Proof.
  intros Ht Hlo Hhi.
  assert (0 < chunk) as Hc by lra.
  assert (1 <= totalQuantity / chunk) as H1 by (apply Qle_shift_div_l; lra).
  assert (totalQuantity / chunk <= 10) as H10 by (apply Qle_shift_div_r; lra).
  apply Qceiling_resp_le in H1, H10.
  change 1 with (inject_Z 1) in H1. change 10 with (inject_Z 10) in H10.
  rewrite Qceiling_Z in H1, H10. lia.
Qed.

Lemma chunks_of_whole_order :
  ~ totalQuantity == 0 -> Qceiling (totalQuantity / totalQuantity) = 1%Z.
Proof.
  intros Hnz.
  assert (totalQuantity / totalQuantity == inject_Z 1) as -> by (by field).
  apply Qceiling_Z.
Qed.
End ChunkSize.

(** X18.  What [shouldSplitOrder] recommends when the full order exceeds
    the threshold (the provider never quoting a price of zero, so that
    every estimation returns).  For a positive quantity the search tries
    five sizes, with the estimations 1 to 5, each strictly between a tenth
    of the order and the order (for a negative quantity it tries none).
    The chunk size is the largest size tried whose estimate was within the
    threshold, every larger size tried having been estimated above it; it
    is the whole order when no size tried was within the threshold.  The
    number of chunks is between 1 and 10. *)
Theorem split_chunk_range (history : gmap string HistoricalSlippage)
    (feed : nat -> MarketData) (fuel : nat) (sym : string) (s : Side)
    (totalQuantity : Q) (maxSlippage : option Q) (full : SlippageEstimateResponseDto) :
  (5 <= fuel)%nat ->
  (forall k, ~ getCurrentMarketPrice (feed k) == 0) ->
  Calculator.estimateSlippage history (feed 0%nat)
    (Trading.requestFor sym s totalQuantity) None = Returns full ->
  let maxPercent := default 0.5 maxSlippage in
  maxPercent < estimatedSlippagePercent full ->
  let rounds :=
    searchRounds history feed sym s totalQuantity maxPercent fuel 1
      (totalQuantity * 0.1) totalQuantity in
  exists chunk chunks,
    Trading.shouldSplitOrder history feed fuel sym s totalQuantity maxSlippage
    = Some (Returns
              {| Trading.shouldSplit := true;
                 Trading.split_reason :=
                   Trading.FullOrderExceedsLimit (estimatedSlippagePercent full) maxPercent;
                 Trading.recommendedChunkSize := Some chunk;
                 Trading.estimatedChunks := Some chunks |})
    /\ (1 <= chunks <= 10)%Z
    /\ (0 < totalQuantity -> round_estimation <$> rounds = [1; 2; 3; 4; 5]%nat)
    /\ (totalQuantity < 0 -> rounds = [])
    /\ Forall (roundWithin history feed sym s maxPercent (totalQuantity * 0.1)
                 totalQuantity) rounds
    /\ ((chunk = totalQuantity /\ Forall (fun r => round_passed r = false) rounds)
        \/ largestPassing chunk rounds).
Proof.
  intros Hfuel Hprices Hfull maxPercent Hgt rounds.
  unfold Trading.shouldSplitOrder, Trading.shouldSplitOrderWith. fold maxPercent.
  rewrite Hfull. apply lessEq_false in Hgt. rewrite Hgt.
  destruct (estimate_returned_divisors history _ _ _ _ Hfull) as [_ Hnz].
  cbn [est_quantity Trading.requestFor] in Hnz.
  destruct (search_from_total history feed sym s totalQuantity maxPercent Hprices fuel
              Hfuel Hnz) as (chunk & Hrun & Hc).
  rewrite Hrun. unfold Trading.splitAt. rewrite div_returns by done. cbn [Js.bind].
  exists chunk, (Qceiling (totalQuantity / chunk)). split; [done |].
  destruct (Qlt_le_dec 0 totalQuantity) as [Hpos | Hneg].
  - destruct (search_rounds history feed sym s totalQuantity maxPercent fuel 1
                (totalQuantity * 0.1) totalQuantity totalQuantity chunk Hpos Hrun)
      as [Hall Hcases].
    fold rounds in Hall, Hcases.
    split; [| split; [| split; [| split]]].
    + destruct Hcases as [[-> _] | [[Hlo Hhi] _]].
      * rewrite chunks_of_whole_order by done. lia.
      * apply chunks_in_range; lra.
    + intros _. unfold rounds.
      apply (rounds_numbers history feed sym s totalQuantity maxPercent 5);
        try done; try lra.
      cbn [doubled]. split; lra.
    + intros Hlt. exfalso. lra.
    + exact Hall.
    + destruct Hcases as [Hwhole | [_ Hlargest]]; [by left | by right].
  - assert (totalQuantity < 0) as Hlt.
    { destruct (Qlt_le_dec totalQuantity 0) as [H | H]; [done |].
      exfalso. apply Hnz. lra. }
    rewrite search_skipped in Hrun by done.
    assert (chunk = totalQuantity) as -> by congruence.
    assert (rounds = []) as Hnone by (by apply rounds_skipped).
    rewrite Hnone.
    split; [rewrite chunks_of_whole_order by done; lia |].
    split; [intros Hpos; exfalso; lra |].
    split; [done |]. split; [constructor |].
    left. split; [done | constructor].
Qed.

Lemma split_chunk_range_witness :
  exists chunk chunks,
    Trading.shouldSplitOrder ∅ (fun _ => sampleMarket) 5 "BTC/USD" buy 10 None
    = Some (Returns
              {| Trading.shouldSplit := true;
                 Trading.split_reason :=
                   Trading.FullOrderExceedsLimit (450000 # 450000) 0.5;
                 Trading.recommendedChunkSize := Some chunk;
                 Trading.estimatedChunks := Some chunks |})
    /\ (1 <= chunks <= 10)%Z
    /\ largestPassing chunk
         (searchRounds ∅ (fun _ => sampleMarket) "BTC/USD" buy 10 0.5 5 1 (10 * 0.1) 10).
Proof.
  destruct (split_chunk_range ∅ (fun _ => sampleMarket) 5 "BTC/USD" buy 10 None
    {| estimatedSlippagePercent := 450000 # 450000;
       estimatedSlippageAmount := 4500 # 10;
       currentMarketPrice := 45000;
       estimatedPriceRange :=
         {| range_min := 20007000000000 # 450000000;
            range_max := 20493000000000 # 450000000 |};
       liquidityScore := 2939672000 # 3599600000;
       recommendation := caution;
       reasoning := ProceedWithCaution [] |})
    as (chunk & chunks & Hrun & Hchunks & _ & _ & _ & Hcases).
  - lia.
  - intros k. vm_compute. discriminate.
  - vm_compute. reflexivity.
  - vm_compute. reflexivity.
  - exists chunk, chunks. split; [exact Hrun |]. split; [exact Hchunks |].
    destruct Hcases as [[_ Hnone] | Hlargest]; [| exact Hlargest].
    exfalso. vm_compute in Hnone.
    repeat match goal with
           | H : Forall _ (_ :: _) |- _ => inversion H; clear H; subst
           end; discriminate.
Defined.

(** ** Recorded trades *)

Section Recorded.
Import Calculator Protection.

(** One [recordSlippage], state component by state component. *)
Lemma recordSlippage_effect (s : State) now context actual :
  wellFormed s -> ~ ctx_expectedPrice context == 0 ->
  let amount := Qabs (actual - ctx_expectedPrice context) in
  let percent := amount / ctx_expectedPrice context * 100 in
  let config :=
    getApplicableConfig (userPreferences s) (ctx_userId context)
      (Some (ctx_symbol context)) None in
  let r :=
    {| expectedPrice := ctx_expectedPrice context;
       actualPrice := actual;
       slippageAmount := amount;
       slippagePercent := percent;
       quantity := ctx_quantity context;
       totalSlippageCost := amount * ctx_quantity context;
       withinLimits := Js.lessEq percent (maxSlippagePercent config);
       timestamp := now;
       symbol := ctx_symbol context;
       side := ctx_side context |} in
  recordSlippage now context actual s
  = (Returns r,
     setHistoricalSlippage
       (updateHistoricalSlippage now (ctx_symbol context) percent (historicalSlippage s))
       (setHeap (<[slippageReports s := lastN MAX_REPORTS_IN_MEMORY (reportLog s ++ [r])]>
                   (heap s)) s)).
Proof.
  intros Hwf Hp amount percent config r. unfold recordSlippage.
  unfold calculateActualSlippage. cbv zeta.
  rewrite div_returns by done. cbn [Js.bind].
  unfold bindM at 1. unfold lift at 1.
  unfold bindM at 1. unfold gets at 1.
  unfold bindM at 1. rewrite storeReport_spec by done.
  unfold bindM, modify, ret.
  cbn [act_slippageAmount act_slippagePercent act_totalCost userPreferences
       historicalSlippage setHeap].
  reflexivity.
Qed.

Lemma values_of_reports sym reports :
  History.valuesFor sym (updateOf <$> reports) = slippagePercent <$> reportsOf sym reports.
Proof.
  unfold History.valuesFor, reportsOf.
  induction reports as [| r reports IH]; [done |].
  cbn [fmap list_fmap List.filter updateOf History.upd_symbol].
  destruct (String.eqb (symbol r) sym); cbn [fmap list_fmap]; [f_equal |]; exact IH.
Qed.

Lemma recordAll_history calls : forall s : State,
  wellFormed s ->
  Forall (fun c => ~ ctx_expectedPrice (Recording.call_context c) == 0) calls ->
  exists reports s',
    Recording.recordAll calls s = (Returns reports, s')
    /\ wellFormed s'
    /\ historicalSlippage s'
       = History.applyAll (historicalSlippage s) (updateOf <$> reports)
    /\ Forall2 (fun c r => symbol r = ctx_symbol (Recording.call_context c)
                           /\ timestamp r = Recording.call_now c) calls reports.
Proof.
  induction calls as [| c calls IH]; intros s Hwf Hall.
  - exists [], s. by repeat split.
  - inversion Hall as [| ? ? Hc Hrest]; subst.
    pose proof (recordSlippage_effect s (Recording.call_now c) (Recording.call_context c)
                  (Recording.call_price c) Hwf Hc) as Hrun.
    cbv zeta in Hrun.
    match type of Hrun with _ = (Returns ?r0, ?s0) => set (s1 := s0) in *; set (r := r0) in * end.
    assert (wellFormed s1) as Hwf1.
    { unfold wellFormed, s1. cbn [slippageReports heap setHistoricalSlippage setHeap].
      by rewrite length_insert. }
    destruct (IH s1 Hwf1 Hrest) as (rs & s2 & Hrun2 & Hwf2 & Hhist & Hrs).
    exists (r :: rs), s2.
    cbn [Recording.recordAll]. unfold bindM at 1. rewrite Hrun. cbv beta iota.
    unfold bindM at 1. rewrite Hrun2. unfold ret.
    split; [done |]. split; [done |]. split; [| by constructor].
    rewrite Hhist. reflexivity.
Qed.
End Recorded.

(** X19.  What [recordSlippage] reports and stores (expected price not
    zero).  The report carries the trade of the context, the time of the
    recording (not the context's timestamp), the absolute price difference,
    its percentage of the expected price and its cost on the quantity.
    [withinLimits] holds exactly when the realised percentage is at most the
    [maxSlippagePercent] configured for the user and symbol: the dynamic
    widening that a validation applies plays no part.  The percentage
    enters the symbol's historical statistics, the report the log, and the
    preferences stay as they are. *)
Theorem recorded_report (s : State) (now : Z) (context : TradeExecutionContext)
    (actual : Q) :
  wellFormed s -> ~ ctx_expectedPrice context == 0 ->
  exists r s',
    Protection.recordSlippage now context actual s = (Returns r, s')
    /\ (symbol r, side r, quantity r, expectedPrice r, actualPrice r)
       = (ctx_symbol context, ctx_side context, ctx_quantity context,
          ctx_expectedPrice context, actual)
    /\ timestamp r = now
    /\ slippageAmount r = Qabs (actual - ctx_expectedPrice context)
    /\ slippagePercent r = slippageAmount r / ctx_expectedPrice context * 100
    /\ totalSlippageCost r = slippageAmount r * ctx_quantity context
    /\ (withinLimits r = true <->
        slippagePercent r
        <= maxSlippagePercent
             (Protection.getApplicableConfig (userPreferences s) (ctx_userId context)
                (Some (ctx_symbol context)) None))
    /\ historicalSlippage s'
       = Calculator.updateHistoricalSlippage now (ctx_symbol context) (slippagePercent r)
           (historicalSlippage s)
    /\ userPreferences s' = userPreferences s
    /\ reportLog s' = lastN Protection.MAX_REPORTS_IN_MEMORY (reportLog s ++ [r]).
Proof.
  intros Hwf Hp.
  pose proof (recordSlippage_effect s now context actual Hwf Hp) as Hrun.
  cbv zeta in Hrun.
  eexists _, _. split; [exact Hrun |].
  cbn [symbol side quantity expectedPrice actualPrice timestamp slippageAmount
       slippagePercent totalSlippageCost withinLimits
       historicalSlippage userPreferences setHistoricalSlippage setHeap].
  repeat (split; [reflexivity |]).
  split.
  { split; intros H; [by apply Qle_bool_iff | by apply Qle_bool_iff in H]. }
  repeat (split; [reflexivity |]).
  unfold reportLog at 1, arrayAt.
  cbn [slippageReports heap setHistoricalSlippage setHeap].
  by rewrite list_lookup_insert_eq.
Qed.

Lemma recorded_report_witness :
  exists r s',
    Protection.recordSlippage 7 (sampleContext None) 45450 initialState = (Returns r, s')
    /\ timestamp r = 7%Z
    /\ slippagePercent r == 1
    /\ withinLimits r = false.
Proof.
  destruct (recorded_report initialState 7 (sampleContext None) 45450)
    as (r & s' & Hrun & _ & Htime & Hamount & Hpercent & _ & Hwithin & _).
  - unfold wellFormed. simpl. lia.
  - vm_compute. discriminate.
  - exists r, s'. split; [exact Hrun |]. split; [exact Htime |].
    assert (slippagePercent r == 1) as Hone.
    { rewrite Hpercent, Hamount. vm_compute. reflexivity. }
    split; [exact Hone |].
    destruct (withinLimits r); [| reflexivity].
    exfalso. destruct Hwithin as [Hle _]. specialize (Hle eq_refl).
    rewrite Hone in Hle. vm_compute in Hle. by apply Hle.
Defined.

(** X20.  On a service whose historical statistics are empty, after any
    sequence of [recordSlippage] calls (expected prices not zero) the
    statistics of every symbol count all the reports returned for it,
    whether the log still holds them or not: no record if there was no
    report, and otherwise a sample count equal to their number and as
    maximum the greatest of their slippage percentages. *)
Theorem recorded_history (s : State) (calls : list Recording.Call) :
  wellFormed s ->
  historicalSlippage s = ∅ ->
  Forall (fun c => ~ ctx_expectedPrice (Recording.call_context c) == 0) calls ->
  exists reports s',
    Recording.recordAll calls s = (Returns reports, s')
    /\ Forall2 (fun c r => symbol r = ctx_symbol (Recording.call_context c)
                           /\ timestamp r = Recording.call_now c) calls reports
    /\ forall sym,
         match historicalSlippage s' !! sym with
         | None => reportsOf sym reports = []
         | Some h =>
             sampleCount h = Z.of_nat (length (reportsOf sym reports))
             /\ (1 <= sampleCount h)%Z
             /\ History.greatest (maxSlippage h)
                  (slippagePercent <$> reportsOf sym reports)
         end.
Proof.
  intros Hwf Hempty Hall.
  destruct (recordAll_history calls s Hwf Hall) as (reports & s' & Hrun & _ & Hhist & Hrs).
  exists reports, s'. split; [exact Hrun |]. split; [exact Hrs |].
  intros sym.
  pose proof (applyAll_tracks sym (updateOf <$> reports) ∅ []) as Ht.
  rewrite lookup_empty, app_nil_l, values_of_reports, <- Hempty, <- Hhist in Ht.
  specialize (Ht eq_refl). unfold History.tracks in Ht.
  destruct (historicalSlippage s' !! sym) as [h |].
  - destruct Ht as (Hne & Hcount & _ & Hmax).
    rewrite length_fmap in Hcount.
    split; [exact Hcount |]. split; [| exact Hmax].
    rewrite Hcount. destruct (reportsOf sym reports); [done | simpl; lia].
  - by apply fmap_nil_inv in Ht.
Qed.

Lemma recorded_history_witness :
  exists reports s',
    Recording.recordAll
      [{| Recording.call_now := 1; Recording.call_context := sampleContext None;
          Recording.call_price := 45450 |};
       {| Recording.call_now := 2; Recording.call_context := sampleContext None;
          Recording.call_price := 45000 |}] initialState = (Returns reports, s')
    /\ match historicalSlippage s' !! "BTC/USD"%string with
       | None => False
       | Some h => sampleCount h = Z.of_nat (length (reportsOf "BTC/USD" reports))
       end.
Proof.
  destruct (recorded_history initialState
    [{| Recording.call_now := 1; Recording.call_context := sampleContext None;
        Recording.call_price := 45450 |};
     {| Recording.call_now := 2; Recording.call_context := sampleContext None;
        Recording.call_price := 45000 |}]) as (reports & s' & Hrun & Hrs & Hhistory).
  - unfold wellFormed. simpl. lia.
  - reflexivity.
  - constructor; [vm_compute; discriminate |].
    constructor; [vm_compute; discriminate | constructor].
  - exists reports, s'. split; [exact Hrun |].
    specialize (Hhistory "BTC/USD"%string).
    destruct (historicalSlippage s' !! "BTC/USD"%string) as [h |].
    + exact (proj1 Hhistory).
    + inversion Hrs as [| c r cs rs [Hsym _] Hrest]; subst.
      unfold reportsOf in Hhistory. cbn [List.filter] in Hhistory.
      rewrite Hsym in Hhistory. discriminate Hhistory.
Defined.

(** ** Exported data and the cleared log *)

Section Exported.
Import Protection DataExport.

Lemma extends_trans s1 s2 s3 : extends s1 s2 -> extends s2 s3 -> extends s1 s3.
Proof.
  intros (Hh & Hp & Hl & Hpre) (Hh' & Hp' & Hl' & Hpre').
  repeat split; try congruence. by etrans.
Qed.

Lemma extends_array s s' a :
  extends s s' -> (a < length (heap s))%nat -> arrayAt a s' = arrayAt a s.
Proof.
  intros (_ & _ & _ & Hpre) Ha. unfold arrayAt.
  by rewrite (prefix_lookup_lt (heap s) (heap s')).
Qed.

Lemma export_whole_log calendar now sym (s : State) :
  Js.truthyStr sym = false ->
  exportSlippageData calendar now sym s
  = (Returns {| exported_reports := slippageReports s; exported_statistics := None |}, s).
Proof.
  intros Hsym. unfold exportSlippageData, bindM, gets, ret.
  destruct sym as [sy |]; [| reflexivity]. by rewrite Hsym.
Qed.

Lemma export_of_symbol calendar now sy (s : State) :
  wellFormed s -> Js.truthyStr (Some sy) = true ->
  exists a s',
    exportSlippageData calendar now (Some sy) s
    = (Returns {| exported_reports := a;
                  exported_statistics :=
                    Some (statisticsOf
                            (relevantReports calendar now sy (Some 30%Z) (reportLog s))) |},
       s')
    /\ holds s a (reportsOf sy (reportLog s)) s'.
Proof.
  intros Hwf Hsym.
  destruct (filter_log s Hwf (fun r => String.eqb (symbol r) sy) s (extends_refl s))
    as (a & s1 & Hrun1 & Hholds).
  destruct Hholds as (Hext1 & Hnew & Ha & Harr).
  destruct (extends_log s s1 Hwf Hext1) as [Hlog1 Hwf1].
  destruct (statistics_query s1 calendar now sy (Some 30%Z) Hwf1 s1 (extends_refl s1))
    as (stats & s2 & Hrun2 & -> & Hext2).
  exists a, s2. split.
  - unfold exportSlippageData. rewrite Hsym.
    unfold bindM at 1. unfold gets at 1.
    unfold bindM at 1. rewrite Hrun1.
    unfold bindM at 1. unfold bindM at 1. rewrite Hrun2.
    unfold ret. by rewrite Hlog1.
  - split; [by eapply extends_trans |]. split; [done |]. split.
    + destruct Hext2 as (_ & _ & _ & Hpre). apply prefix_length in Hpre. lia.
    + by rewrite (extends_array s1 s2 a Hext2 Ha).
Qed.
End Exported.

(** X21.  What [exportSlippageData] hands out.  Without a symbol (or with
    the empty string) the reports are the log array itself, not a copy, and
    the statistics are null: a report stored later, as [recordSlippage]
    stores its reports, shows in the exported array.  With a symbol the
    reports are a new array holding that symbol's reports of the log in the
    log's order, the statistics are those [getSlippageStatistics] gives for
    the symbol and 30 days, and a report stored later leaves the exported
    array as it is.  The state is unchanged but for the new array. *)
Theorem export_reports (s : State) (calendar : Z -> Z -> Z) (now : Z)
    (sym : option string) :
  wellFormed s ->
  exists e s',
    DataExport.exportSlippageData calendar now sym s = (Returns e, s')
    /\ extends s s'
    /\ (Js.truthyStr sym = false ->
        DataExport.exported_reports e = slippageReports s
        /\ DataExport.exported_statistics e = None
        /\ s' = s)
    /\ (forall sy, sym = Some sy -> Js.truthyStr sym = true ->
        newSince s (DataExport.exported_reports e)
        /\ arrayAt (DataExport.exported_reports e) s' = reportsOf sy (reportLog s)
        /\ exists stats s2,
             Protection.getSlippageStatistics calendar now sy (Some 30%Z) s
             = (Returns stats, s2)
             /\ DataExport.exported_statistics e = Some stats)
    /\ (forall r, exists s'',
          Protection.storeReport r s' = (Returns tt, s'')
          /\ arrayAt (DataExport.exported_reports e) s''
             = if Js.truthyStr sym
               then arrayAt (DataExport.exported_reports e) s'
               else lastN Protection.MAX_REPORTS_IN_MEMORY (reportLog s ++ [r])).
Proof.
  intros Hwf. destruct (Js.truthyStr sym) eqn:Hsym.
  - destruct sym as [sy |]; [| discriminate].
    destruct (export_of_symbol calendar now sy s Hwf Hsym) as (a & s' & Hrun & Hholds).
    destruct Hholds as (Hext & Hnew & Ha & Harr).
    destruct (extends_log s s' Hwf Hext) as [Hlog Hwf'].
    eexists _, s'. split; [exact Hrun |]. cbn [DataExport.exported_reports
      DataExport.exported_statistics].
    split; [exact Hext |]. split; [discriminate |]. split.
    + intros sy' [= <-] _. split; [done |]. split; [done |].
      destruct (statistics_query s calendar now sy (Some 30%Z) Hwf s (extends_refl s))
        as (stats & s2 & Hstats & -> & _).
      by eexists _, s2.
    + intros r. rewrite storeReport_spec by done. eexists. split; [reflexivity |].
      unfold arrayAt. cbn [heap setHeap].
      rewrite list_lookup_insert_ne; [done |].
      destruct Hext as (_ & _ & Hl & _). unfold newSince, wellFormed in *. lia.
  - rewrite (export_whole_log calendar now sym s Hsym).
    eexists _, s. split; [reflexivity |]. cbn [DataExport.exported_reports
      DataExport.exported_statistics].
    split; [apply extends_refl |]. split; [done |]. split; [discriminate |].
    intros r. rewrite storeReport_spec by done. eexists. split; [reflexivity |].
    unfold arrayAt. cbn [heap setHeap].
    by rewrite list_lookup_insert_eq.
Qed.

Lemma export_reports_witness :
  (exists e s',
     DataExport.exportSlippageData Protection.fixedOffsetCalendar 10 None sampleState
     = (Returns e, s')
     /\ DataExport.exported_reports e = slippageReports sampleState
     /\ s' = sampleState)
  /\ (exists e s',
        DataExport.exportSlippageData Protection.fixedOffsetCalendar 10
          (Some "BTC/USD"%string) sampleState = (Returns e, s')
        /\ newSince sampleState (DataExport.exported_reports e)
        /\ arrayAt (DataExport.exported_reports e) s' = [sampleReport 1; sampleReport 2]).
Proof.
  split.
  - destruct (export_reports sampleState Protection.fixedOffsetCalendar 10 None)
      as (e & s' & Hrun & _ & Hwhole & _); [unfold wellFormed; simpl; lia |].
    exists e, s'. split; [exact Hrun |].
    destruct (Hwhole eq_refl) as (Hlog & _ & Hs). split; [exact Hlog | exact Hs].
  - destruct (export_reports sampleState Protection.fixedOffsetCalendar 10
                (Some "BTC/USD"%string))
      as (e & s' & Hrun & _ & _ & Hcopy & _); [unfold wellFormed; simpl; lia |].
    exists e, s'. split; [exact Hrun |].
    destruct (Hcopy "BTC/USD"%string eq_refl eq_refl) as (Hnew & Harr & _).
    split; [exact Hnew | exact Harr].
Defined.

(** X22.  [clearReports] empties the log array in place: the log reference,
    every other array, the historical statistics and the preferences stay
    as they are; every query of the reports then returns an empty array,
    and every statistics query the all-zero statistics. *)
Theorem clear_reports (s : State) :
  wellFormed s ->
  exists s',
    Protection.clearReports s = (Returns tt, s')
    /\ reportLog s' = []
    /\ slippageReports s' = slippageReports s
    /\ historicalSlippage s' = historicalSlippage s
    /\ userPreferences s' = userPreferences s
    /\ (forall a, a <> slippageReports s -> arrayAt a s' = arrayAt a s)
    /\ (forall filters, exists a s'',
          Protection.getSlippageReports filters s' = (Returns a, s'')
          /\ arrayAt a s'' = [])
    /\ (forall calendar now sym daysBack, exists s'',
          Protection.getSlippageStatistics calendar now sym daysBack s'
          = (Returns {| stat_averageSlippage := 0; stat_maxSlippage := 0;
                        stat_minSlippage := 0; totalTrades := 0;
                        tradesExceededLimits := 0; stat_totalSlippageCost := 0 |}, s'')).
Proof.
  intros Hwf.
  set (s' := setHeap (<[slippageReports s := []]> (heap s)) s).
  assert (wellFormed s') as Hwf'.
  { unfold wellFormed, s'. cbn [slippageReports heap setHeap]. by rewrite length_insert. }
  assert (reportLog s' = []) as Hlog.
  { unfold reportLog, arrayAt, s'. cbn [slippageReports heap setHeap].
    by rewrite list_lookup_insert_eq. }
  exists s'. split; [reflexivity |]. split; [exact Hlog |].
  do 3 (split; [reflexivity |]). split; [| split].
  - intros a Ha. unfold arrayAt, s'. cbn [heap setHeap].
    by rewrite list_lookup_insert_ne.
  - intros filters.
    destruct (reports_query s' Hwf' filters s' (extends_refl s'))
      as (a & s'' & Hrun & _ & _ & _ & Harr).
    exists a, s''. split; [exact Hrun |]. rewrite Harr, Hlog.
    unfold queryResult. cbv zeta. cbn [List.filter Js.sort].
    destruct (effectiveLimit filters) as [n |]; [| done].
    unfold Js.slice0. cbn [length]. destruct (0 <=? n)%Z; apply take_nil.
  - intros calendar now sym daysBack.
    destruct (statistics_query s' calendar now sym daysBack Hwf' s' (extends_refl s'))
      as (stats & s'' & Hrun & -> & _).
    exists s''. rewrite Hrun, Hlog. reflexivity.
Qed.

Lemma clear_reports_witness :
  exists s', Protection.clearReports sampleState = (Returns tt, s') /\ reportLog s' = [].
Proof.
  destruct (clear_reports sampleState) as (s' & Hrun & Hlog & _).
  - unfold wellFormed. simpl. lia.
  - exists s'. split; [exact Hrun | exact Hlog].
Defined.

(** ** The trading service *)

Section TradeExecution.
Import Calculator Protection TradingService.

Lemma expected_price_not_zero (given : option Q) (current : Q) :
  ~ current == 0 -> ~ Js.orElse given current == 0.
Proof.
  intros Hc. unfold Js.orElse, Js.truthy. destruct given as [v |]; [| done].
  destruct (Qeq_bool v 0) eqn:E; cbn [negb]; [done |].
  intros H. apply Qeq_bool_iff in H. congruence.
Qed.
End TradeExecution.

(** X23.  One [executeTrade], when the service's price source does not
    answer 0 and both estimations (the service's own and the one of the
    validation) return.  The decision is the one of the validation.  A
    trade that is not allowed is answered with the validation's reason and
    numbers and the recommendation of the service's own estimate, and the
    state stays as it was: nothing is executed or recorded.  An allowed
    trade is answered with the order of the exchange and one report of its
    price against the expected price, which is the given price, or the
    current price when none or 0 is given; that report goes to the log and
    its percentage to the history of the symbol. *)
Theorem execute_trade (s : State) (env : TradingService.TradeEnvironment)
    (params : TradingService.TradeParams) (own checked : SlippageEstimateResponseDto) :
  wellFormed s ->
  ~ TradingService.env_currentPrice env == 0 ->
  let expected :=
    Js.orElse (TradingService.param_expectedPrice params)
      (TradingService.env_currentPrice env) in
  let request :=
    {| est_symbol := TradingService.param_symbol params;
       est_side := TradingService.param_side params;
       est_quantity := TradingService.param_quantity params;
       est_expectedPrice := Some expected |} in
  Calculator.estimateSlippage (historicalSlippage s)
    (TradingService.env_estimationMarket env) request None = Returns own ->
  Calculator.estimateSlippage (historicalSlippage s)
    (TradingService.env_validationMarket env) request None = Returns checked ->
  exists validation result s',
    Protection.validateTradeExecution (TradingService.env_validationMarket env)
      (TradingService.contextOf params expected (TradingService.env_validationTime env))
      None s = (Returns validation, s)
    /\ TradingService.executeTrade env params s = (Returns result, s')
    /\ (allowed validation = false ->
        result = TradingService.TradeRejected (reason validation)
                   (estimatedSlippage validation) (maxAllowedSlippage validation)
                   (recommendation own)
        /\ s' = s)
    /\ (allowed validation = true ->
        exists report,
          result = TradingService.TradeExecuted
                     (TradingService.orderId (TradingService.env_order env))
                     (TradingService.exec_actualPrice (TradingService.env_order env))
                     (TradingService.env_executionEnd env
                      - TradingService.env_executionStart env)%Z
                     report (estimatedSlippagePercent own) (slippagePercent report)
          /\ expectedPrice report = expected
          /\ actualPrice report
             = TradingService.exec_actualPrice (TradingService.env_order env)
          /\ symbol report = TradingService.param_symbol params
          /\ timestamp report = TradingService.env_recordTime env
          /\ reportLog s'
             = lastN Protection.MAX_REPORTS_IN_MEMORY (reportLog s ++ [report])
          /\ historicalSlippage s'
             = Calculator.updateHistoricalSlippage (TradingService.env_recordTime env)
                 (TradingService.param_symbol params) (slippagePercent report)
                 (historicalSlippage s)
          /\ userPreferences s' = userPreferences s).
Proof.
  intros Hwf Hcurrent expected request Hown Hchecked.
  pose proof (expected_price_not_zero (TradingService.param_expectedPrice params) _ Hcurrent)
    as Hexpected. fold expected in Hexpected.
  set (context := TradingService.contextOf params expected
                    (TradingService.env_validationTime env)).
  destruct (Protection.validateTradeExecution (TradingService.env_validationMarket env)
              context None s) as [outcome s1] eqn:Hval.
  assert (exists validation, outcome = Returns validation /\ s1 = s)
    as (validation & -> & ->).
  { revert Hval. unfold Protection.validateTradeExecution, bindM, gets, lift, ret.
    change (Protection.estimationOf context) with request. rewrite Hchecked.
    intros [= <- <-]. eauto. }
  exists validation.
  unfold TradingService.executeTrade. cbv zeta. fold expected. fold request. fold context.
  unfold bindM at 1. unfold gets at 1.
  unfold bindM at 1. unfold lift at 1. rewrite Hown.
  unfold bindM at 1. rewrite Hval.
  destruct (allowed validation) eqn:Hallowed; cbn [negb].
  - set (recorded := TradingService.contextOf params expected
                       (TradingService.env_recordContextTime env)).
    pose proof (recordSlippage_effect s (TradingService.env_recordTime env) recorded
                  (TradingService.exec_actualPrice (TradingService.env_order env))
                  Hwf Hexpected) as Hrec.
    cbv zeta in Hrec.
    unfold bindM at 1. rewrite Hrec. unfold ret.
    eexists _, _. split; [reflexivity |]. split; [reflexivity |].
    split; [discriminate |]. intros _.
    eexists. split; [reflexivity |].
    cbn [expectedPrice actualPrice symbol timestamp slippagePercent
         historicalSlippage userPreferences setHistoricalSlippage setHeap
         ctx_expectedPrice ctx_symbol recorded TradingService.contextOf].
    do 4 (split; [reflexivity |]). split; [| split; reflexivity].
    unfold reportLog at 1, arrayAt.
    cbn [slippageReports heap setHistoricalSlippage setHeap].
    by rewrite list_lookup_insert_eq.
  - unfold ret. eexists _, _. split; [reflexivity |]. split; [reflexivity |].
    split; [done | discriminate].
Qed.

Lemma execute_trade_witness :
  exists result s',
    TradingService.executeTrade sampleEnvironment sampleParams initialState
    = (Returns result, s').
Proof.
  edestruct (execute_trade initialState sampleEnvironment sampleParams)
    as (validation & result & s' & _ & Hrun & _).
  - unfold wellFormed. simpl. lia.
  - vm_compute. discriminate.
  - vm_compute. reflexivity.
  - vm_compute. reflexivity.
  - exists result, s'. exact Hrun.
Defined.

(** X24.  [configureUserSlippagePreferences] never fails: for every level
    and flag it stores, for the user, the preset of the level (0.1, 0.5 or
    1.0 percent) with an execution time of 5000 ms, dynamic adjustment as
    given and enabled when not given, and no symbol override, whatever the
    user had before; for a user that is not the empty string this
    configuration then applies to every symbol.  Other users, the history
    and the reports are untouched. *)
Theorem configure_user_preferences (s : State) (now : Z) (user : string)
    (level : SlippageToleranceLevel) (enableDynamic : option bool) :
  let config :=
    {| maxSlippagePercent := Calculator.getToleranceForLevel level;
       toleranceLevel := Some level;
       enableDynamicSlippage := Some (default true enableDynamic);
       maxExecutionTimeMs := Some 5000 |} in
  exists s',
    TradingService.configureUserSlippagePreferences now user level enableDynamic s
    = (Returns tt, s')
    /\ userPreferences s' !! user
       = Some {| userId := user; defaultConfig := config;
                 symbolOverrides := None; prefs_lastUpdated := now |}
    /\ (forall u, u <> user -> userPreferences s' !! u = userPreferences s !! u)
    /\ (user <> EmptyString ->
        forall sym, Protection.getApplicableConfig (userPreferences s') (Some user) sym None
                    = config)
    /\ historicalSlippage s' = historicalSlippage s
    /\ heap s' = heap s /\ slippageReports s' = slippageReports s.
Proof.
  intros config.
  unfold TradingService.configureUserSlippagePreferences. fold config.
  unfold Protection.setUserPreferences, bindM, lift, modify.
  assert (Protection.validateConfig config = Returns tt) as -> by (by destruct level).
  eexists. split; [reflexivity |].
  set (p' := {| userId := user |}).
  set (s' := setUserPreferencesMap _ s).
  assert (userPreferences s' !! user = Some p') as Hp'
    by (unfold s', setUserPreferencesMap; cbn [userPreferences]; apply lookup_insert_eq).
  split; [exact Hp' |]. split; [| split; [| done]].
  - intros u Hu. unfold s', setUserPreferencesMap. cbn [userPreferences].
    by rewrite lookup_insert_ne.
  - intros Hu sym. unfold Protection.getApplicableConfig.
    rewrite truthyStr_nonempty, Hp' by done. cbn [symbolOverrides defaultConfig p'].
    by destruct sym.
Qed.

(** X25.  [setSymbolSlippageLimit] fails with an invalid-configuration
    error, leaving the state as it was, when the limit is below 0 or above
    100.  Otherwise (user and symbol not the empty string) it returns and
    the limit applies to that user's trades of that symbol with dynamic
    adjustment enabled, so that the threshold of a validation is the limit
    at a liquidity score of 0.5 or more and up to twice the limit below
    that. *)
Theorem symbol_slippage_limit (s : State) (now : Z) (user sym : string) (maxPercent : Q) :
  (maxPercent < 0 \/ 100 < maxPercent ->
   exists e, TradingService.setSymbolSlippageLimit now user sym maxPercent s = (Throws e, s))
  /\ (0 <= maxPercent <= 100 -> user <> EmptyString -> sym <> EmptyString ->
      exists s',
        TradingService.setSymbolSlippageLimit now user sym maxPercent s = (Returns tt, s')
        /\ Protection.getApplicableConfig (userPreferences s') (Some user) (Some sym) None
           = {| maxSlippagePercent := maxPercent; toleranceLevel := None;
                enableDynamicSlippage := Some true; maxExecutionTimeMs := Some 5000 |}
        /\ forall liquidity, 0 <= liquidity <= 1 ->
             let threshold :=
               Protection.calculateMaxAllowedSlippage
                 (Protection.getApplicableConfig (userPreferences s') (Some user)
                    (Some sym) None) liquidity in
             maxPercent <= threshold <= 2 * maxPercent
             /\ (0.5 <= liquidity -> threshold == maxPercent)).
Proof.
  set (config := {| maxSlippagePercent := maxPercent; toleranceLevel := None;
                    enableDynamicSlippage := Some true; maxExecutionTimeMs := Some 5000 |}).
  unfold TradingService.setSymbolSlippageLimit. fold config.
  unfold Protection.setSymbolOverride, bindM, lift, gets, modify.
  split.
  - intros Hout.
    destruct (percent_out_of_range_rejected config Hout) as [e ->]. by exists e.
  - intros [Hlo Hhi] Hu Hs.
    assert (Protection.validateConfig config = Returns tt) as ->.
    { unfold Protection.validateConfig. cbn [maxSlippagePercent maxExecutionTimeMs config].
      assert (Js.less maxPercent 0 = false) as -> by (by apply less_false).
      assert (Js.greater maxPercent 100 = false) as -> by (by apply greater_false).
      reflexivity. }
    eexists. split; [reflexivity |].
    set (p' := {| userId := user |}).
    set (s' := setUserPreferencesMap _ s).
    assert (userPreferences s' !! user = Some p') as Hp'
      by (unfold s', setUserPreferencesMap; cbn [userPreferences]; apply lookup_insert_eq).
    assert (Protection.getApplicableConfig (userPreferences s') (Some user) (Some sym) None
            = config) as Happ.
    { rewrite (applicable_config_of_user _ user p' sym Hu Hp').
      cbn [symbolOverrides p' mbind option_bind]. rewrite map_get_set_eq.
      by rewrite truthyStr_nonempty. }
    split; [exact Happ |].
    intros liquidity Hl. cbv zeta. rewrite Happ.
    unfold Protection.calculateMaxAllowedSlippage.
    cbn [enableDynamicSlippage maxSlippagePercent config Js.truthyBool]. cbv zeta.
    destruct (dynamic_tolerance_of_liquidity maxPercent liquidity Hlo Hl) as [Hhigh Hlow].
    split; [| exact Hhigh].
    destruct (Qlt_le_dec liquidity 0.5) as [H | H].
    + rewrite (Hlow H).
      assert (0 <= maxPercent * liquidity) by (apply Qmult_le_0_compat; lra).
      assert (0 <= maxPercent * (1 - liquidity)) by (apply Qmult_le_0_compat; lra).
      assert (maxPercent * (2 - liquidity) == maxPercent + maxPercent * (1 - liquidity))
        as -> by ring.
      assert (maxPercent * (1 - liquidity) == maxPercent - maxPercent * liquidity) as E
        by ring.
      split; lra.
    + rewrite (Hhigh H). split; lra.
Qed.

Lemma configure_user_preferences_witness :
  exists s',
    TradingService.configureUserSlippagePreferences 0 "user123" STRICT None initialState
    = (Returns tt, s')
    /\ Protection.getApplicableConfig (userPreferences s') (Some "user123"%string)
         (Some "BTC/USD"%string) None
       = {| maxSlippagePercent := 0.1; toleranceLevel := Some STRICT;
            enableDynamicSlippage := Some true; maxExecutionTimeMs := Some 5000 |}.
Proof.
  destruct (configure_user_preferences initialState 0 "user123" STRICT None)
    as (s' & Hrun & _ & _ & Happ & _).
  exists s'. split; [exact Hrun |].
  apply Happ. discriminate.
Defined.

Lemma symbol_slippage_limit_witness :
  exists s',
    TradingService.setSymbolSlippageLimit 0 "user123" "BTC/USD" 0.25 initialState
    = (Returns tt, s')
    /\ Protection.getApplicableConfig (userPreferences s') (Some "user123"%string)
         (Some "BTC/USD"%string) None
       = {| maxSlippagePercent := 0.25; toleranceLevel := None;
            enableDynamicSlippage := Some true; maxExecutionTimeMs := Some 5000 |}.
Proof.
  destruct (proj2 (symbol_slippage_limit initialState 0 "user123" "BTC/USD" 0.25))
    as (s' & Hrun & Happ & _).
  - split; vm_compute; discriminate.
  - discriminate.
  - discriminate.
  - exists s'. split; [exact Hrun | exact Happ].
Defined.

(** ** The placeholder provider *)

Section MockProvider.
Import Calculator.

Variables (random : nat -> Q) (now : Z).
Hypothesis random_nonnegative : forall i, 0 <= random i.

Lemma mock_side_length s :
  length (sideOrders s (mockMarketDepth random now)) = 20%nat.
Proof. by destruct s. Qed.

Lemma level_number_bounds (i : nat) :
  (i < 20)%nat -> 0 <= inject_Z (Z.of_nat i) <= 19.
Proof.
  intros Hi. change 0 with (inject_Z 0). change 19 with (inject_Z 19).
  rewrite <- !Zle_Qle. lia.
Qed.

Lemma mock_levels_within s :
  Forall (levelWithin 44810 45190) (sideOrders s (mockMarketDepth random now)).
Proof.
  destruct s; cbn [sideOrders asks bids mockMarketDepth];
    apply List.Forall_map, Forall_seq; intros i Hi;
    (assert (i < 20)%nat as Hlt by lia);
    destruct (level_number_bounds i Hlt) as [H0 H19];
    unfold levelWithin; cbn [price order_quantity].
  - pose proof (random_nonnegative (20 + i)). repeat split; lra.
  - pose proof (random_nonnegative i). repeat split; lra.
Qed.

Lemma mock_levels_quantity s :
  Forall (fun o => 0.5 <= order_quantity o) (sideOrders s (mockMarketDepth random now)).
Proof.
  destruct s; cbn [sideOrders asks bids mockMarketDepth];
    apply List.Forall_map, Forall_seq; intros i Hi; cbn [order_quantity].
  - pose proof (random_nonnegative (20 + i)). lra.
  - pose proof (random_nonnegative i). lra.
Qed.

Lemma sum_at_least (c : Q) (l : list Order) :
  Forall (fun o => c <= order_quantity o) l ->
  forall acc,
    acc + c * inject_Z (Z.of_nat (length l))
    <= foldl (fun sum order => sum + order_quantity order) acc l.
Proof.
  induction 1 as [| o l Ho _ IH]; intros acc.
  - cbn [foldl length]. change (inject_Z (Z.of_nat 0)) with 0. lra.
  - cbn [foldl length]. specialize (IH (acc + order_quantity o)).
    rewrite Nat2Z.inj_succ, <- Z.add_1_r, inject_Z_plus.
    change (inject_Z 1) with 1.
    rewrite Qmult_plus_distr_r. set (n := c * inject_Z (Z.of_nat (length l))) in *. lra.
Qed.

Lemma offered_at_least (c : Q) (l : list Order) :
  Forall (fun o => c <= order_quantity o) l ->
  c * inject_Z (Z.of_nat (length l)) <= offered l.
Proof.
  induction 1 as [| o l Ho _ IH].
  - cbn [offered foldr length]. change (inject_Z (Z.of_nat 0)) with 0. lra.
  - unfold offered in *. cbn [foldr length].
    rewrite Nat2Z.inj_succ, <- Z.add_1_r, inject_Z_plus.
    change (inject_Z 1) with 1.
    rewrite Qmult_plus_distr_r. set (n := c * inject_Z (Z.of_nat (length l))) in *. lra.
Qed.

Lemma mock_execution_price qty s :
  0 < qty <= 10 ->
  44810 <= calculateExecutionPrice qty s (mockMarketDepth random now) <= 45190.
Proof.
  intros [Hq Hq10].
  destruct (execution_price_within 44810 45190 ltac:(lra) qty s
              (mockMarketDepth random now) Hq) as [[Hlo _] Hhi].
  - intros Hnil. pose proof (mock_side_length s) as Hl. by rewrite Hnil in Hl.
  - apply mock_levels_within.
  - split; [exact Hlo |]. apply Hhi.
    pose proof (offered_at_least 0.5 _ (mock_levels_quantity s)) as Ho.
    rewrite mock_side_length in Ho.
    change (inject_Z (Z.of_nat 20)) with 20 in Ho. lra.
Qed.

Lemma mock_liquidity qty s score :
  0 < qty <= 10 ->
  calculateLiquidityScore (mockMarketDepth random now) qty s = Returns score ->
  0.75 <= score.
Proof.
  intros [Hq Hq10]. unfold calculateLiquidityScore. cbv zeta.
  rewrite mock_side_length. rewrite div_returns by lra. cbn [Js.bind].
  set (available := foldl _ 0 _).
  assert (5 <= available) as Havailable.
  { pose proof (sum_at_least 0.5 (take 10 (sideOrders s (mockMarketDepth random now)))) as H.
    rewrite length_take, mock_side_length in H.
    change (inject_Z (Z.of_nat (10 `min` 20))) with 10 in H.
    specialize (H (Forall_take _ _ _ (mock_levels_quantity s)) 0).
    fold available in H. lra. }
  assert (0.5 <= Qmin (available / qty) 1) as Hcoverage.
  { apply Q.min_glb; [| lra]. apply Qle_shift_div_l; lra. }
  set (coverage := Qmin (available / qty) 1) in *.
  set (spreadScore := Qmax 0 (1 - _ / 2)).
  assert (spreadScore == 1) as Hspread by (vm_compute; reflexivity).
  set (depthScore := Qmin (inject_Z _ / 20) 1).
  assert (depthScore == 1) as Hdepth by (vm_compute; reflexivity).
  intros Heq.
  match type of Heq with Returns ?r = _ => assert (score = r) as -> by congruence end.
  eapply Qle_trans; [| apply Q.le_max_r].
  apply Q.min_glb; [lra |]. rewrite Hspread, Hdepth. lra.
Qed.
End MockProvider.

(** X26.  With the placeholder provider, whatever its random draws, a
    trade of a quantity above 0 and at most 10 whose expected price is the
    provider's 45000 (or 0, for which the current price stands in) is
    estimated at a slippage of at most 19/45 percent with a liquidity score
    of at least 0.75, and recommended to proceed; under every applicable
    configuration whose maximum is at least 19/45 percent, such as the
    system default of 0.5, the validation allows it. *)
Theorem placeholder_provider_trade (s : State) (random : nat -> Q) (now : Z)
    (context : TradeExecutionContext) (userConfig : option SlippageConfigDto) :
  (forall i, 0 <= random i) ->
  0 < ctx_quantity context <= 10 ->
  ctx_expectedPrice context == 45000 \/ ctx_expectedPrice context == 0 ->
  (19 # 45)
  <= maxSlippagePercent
       (Protection.getApplicableConfig (userPreferences s) (ctx_userId context)
          (Some (ctx_symbol context)) userConfig) ->
  exists est res,
    Calculator.estimateSlippage (historicalSlippage s) (mockMarketData random now)
      (Protection.estimationOf context) None = Returns est
    /\ estimatedSlippagePercent est <= (19 # 45)
    /\ 0.75 <= liquidityScore est
    /\ recommendation est = proceed
    /\ Protection.validateTradeExecution (mockMarketData random now) context userConfig s
       = (Returns res, s)
    /\ allowed res = true
    /\ prot_recommendation res = rec_proceed.
Proof.
  intros Hrandom Hq Hprice Hbase.
  set (market := mockMarketData random now).
  set (dto := Protection.estimationOf context).
  set (config := Protection.getApplicableConfig _ _ _ _) in Hbase.
  assert (Calculator.referencePrice dto market == 45000) as Href.
  { unfold Calculator.referencePrice, Js.orElse, Js.truthy.
    unfold dto, market.
    cbn [est_expectedPrice Protection.estimationOf getCurrentMarketPrice mockMarketData].
    destruct (Qeq_bool (ctx_expectedPrice context) 0) eqn:E; cbn [negb]; [reflexivity |].
    destruct Hprice as [H | H]; [exact H |].
    apply Qeq_bool_iff in H. congruence. }
  destruct (estimate_returns (historicalSlippage s) market dto None) as (est & liq & Hest & _).
  { rewrite Href. discriminate. }
  { unfold dto. cbn [est_quantity Protection.estimationOf].
    destruct Hq as [Hq0 _]. intros H. rewrite H in Hq0. discriminate. }
  destruct (estimate_fields _ _ _ _ _ Hest) as (_ & _ & Hamount & Hpercent & _ & Hliq & _ & Hrec).
  unfold dto, market in Hamount, Hliq.
  cbn [default est_quantity est_side Protection.estimationOf getMarketDepth
       mockMarketData] in Hamount, Hliq.
  pose proof (mock_execution_price random now Hrandom (ctx_quantity context)
                (ctx_side context) Hq) as Hexec.
  pose proof (mock_liquidity random now Hrandom _ _ _ Hq Hliq) as Hliquid.
  pose proof (liquidity_score_clamped _ _ _ _ Hliq) as Hclamped.
  assert (estimatedSlippagePercent est <= (19 # 45)) as Hle.
  { rewrite Hpercent, Hamount.
    change (Calculator.referencePrice (Protection.estimationOf context)
              (mockMarketData random now))
      with (Calculator.referencePrice dto market).
    rewrite Href.
    set (executionPrice := Calculator.calculateExecutionPrice _ _ _) in *.
    clearbody executionPrice. destruct Hexec as [Hexec1 Hexec2].
    assert (Qabs (executionPrice - 45000) <= 190) as Habs
      by (apply Qabs_Qle_condition; split; lra).
    set (amount := Qabs (executionPrice - 45000)) in *. clearbody amount.
    assert (amount / 45000 * 100 == amount * (1 # 450)) as -> by field.
    lra. }
  assert (recommendation est = proceed) as Hproceed.
  { revert Hrec. unfold Calculator.generateRecommendation. cbv zeta.
    assert (Js.greater (estimatedSlippagePercent est) 2.0 = false) as ->
      by (apply greater_false; lra).
    assert (Js.less (liquidityScore est) 0.3 = false) as -> by (apply less_false; lra).
    assert (Js.greater (estimatedSlippagePercent est) 0.5 = false) as ->
      by (apply greater_false; lra).
    assert (Js.less (liquidityScore est) 0.6 = false) as -> by (apply less_false; lra).
    cbn [orb]. congruence. }
  assert (maxSlippagePercent config
          <= Protection.calculateMaxAllowedSlippage config (liquidityScore est)) as Hmax.
  { unfold Protection.calculateMaxAllowedSlippage. cbv zeta.
    destruct (Js.truthyBool (enableDynamicSlippage config)); [| lra].
    destruct (dynamic_tolerance_of_liquidity (maxSlippagePercent config) (liquidityScore est))
      as [Hhigh _]; [lra | exact Hclamped |].
    rewrite Hhigh; lra. }
  eexists est, _. split; [exact Hest |]. split; [exact Hle |].
  split; [exact Hliquid |]. split; [exact Hproceed |].
  unfold Protection.validateTradeExecution, bindM, gets, lift, ret.
  fold config. fold dto. fold market. rewrite Hest. split; [reflexivity |].
  unfold Protection.generateProtectionResult. rewrite Hproceed.
  assert (Js.lessEq (estimatedSlippagePercent est)
            (Protection.calculateMaxAllowedSlippage config (liquidityScore est)) = true)
    as -> by (apply lessEq_true; lra).
  split; reflexivity.
Qed.

Lemma placeholder_provider_trade_witness :
  exists est res,
    Calculator.estimateSlippage ∅ (mockMarketData (fun _ => 1 # 2) 0)
      (Protection.estimationOf (sampleContext None)) None = Returns est
    /\ estimatedSlippagePercent est <= (19 # 45)
    /\ Protection.validateTradeExecution (mockMarketData (fun _ => 1 # 2) 0)
         (sampleContext None) None initialState = (Returns res, initialState)
    /\ allowed res = true.
Proof.
  destruct (placeholder_provider_trade initialState (fun _ => 1 # 2) 0 (sampleContext None)
              None) as (est & res & Hest & Hle & _ & _ & Hrun & Hallowed & _).
  - intros i. vm_compute. discriminate.
  - split; [reflexivity | vm_compute; discriminate].
  - left. reflexivity.
  - vm_compute. discriminate.
  - exists est, res. split; [exact Hest |]. split; [exact Hle |].
    split; [exact Hrun | exact Hallowed].
Defined.
